(** * AutoSentry agent orchestration: adapters and master agent

    A shallow embedding of [agents/adapters/*.py] and
    [agents/master_agent.py].  Python values are an inductive type of
    runtime values, dictionaries are insertion-ordered association lists,
    exceptions and the mutable world (object store of task inputs, calls to
    [uuid], the clock, HTTP and the third-party agent runtimes) are threaded
    through a state-and-exception monad. *)

From Stdlib Require Import ZArith QArith String Ascii List Bool Lia.
From Stdlib Require Import Sorted Permutation.
From stdpp Require Import base option gmap.
Import ListNotations.

Set Warnings "-register-all".

Local Open Scope string_scope.
Local Open Scope Z_scope.

(** ** Runtime values *)

(** [VInt] and [VFloat] are Python's [int] and (finite) [float], a float
    being represented by the rational it denotes; [VObj] is an object that
    is neither JSON data nor a container (a third-party result object). *)
Inductive value : Type :=
| VNone
| VBool (b : bool)
| VInt (n : Z)
| VFloat (q : Q)
| VStr (s : string)
| VList (l : list value)
| VDict (d : list (string * value))
| VObj (cls : string).

Abbreviation dict := (list (string * value)).

Record exn : Type := Exn { exn_class : string; exn_str : string }.

Inductive res (A : Type) : Type :=
| Ok (a : A)
| Raise (e : exn).
Arguments Ok {A} a.
Arguments Raise {A} e.

Definition is_ok {A} (r : res A) : bool :=
  match r with Ok _ => true | Raise _ => false end.

(** ** Strings (byte strings; only ASCII letters are cased) *)

Definition nl : string := String (ascii_of_nat 10) EmptyString.

Definition is_upper (c : ascii) : bool :=
  let n := nat_of_ascii c in ((65 <=? n) && (n <=? 90))%nat.
Definition is_lower (c : ascii) : bool :=
  let n := nat_of_ascii c in ((97 <=? n) && (n <=? 122))%nat.
Definition to_lower (c : ascii) : ascii :=
  if is_upper c then ascii_of_nat (nat_of_ascii c + 32) else c.
Definition to_upper (c : ascii) : ascii :=
  if is_lower c then ascii_of_nat (nat_of_ascii c - 32) else c.
Definition is_space (c : ascii) : bool :=
  let n := nat_of_ascii c in
  ((n =? 32) || ((9 <=? n) && (n <=? 13)) || ((28 <=? n) && (n <=? 31)))%nat.

Fixpoint str_map (f : ascii -> ascii) (s : string) : string :=
  match s with
  | EmptyString => EmptyString
  | String c r => String (f c) (str_map f r)
  end.

Definition str_lower : string -> string := str_map to_lower.
Definition str_upper : string -> string := str_map to_upper.

(** [str.title()]: a cased letter is upper-cased when it starts a word and
    lower-cased when it follows a cased letter. *)
Fixpoint str_title_from (prev_cased : bool) (s : string) : string :=
  match s with
  | EmptyString => EmptyString
  | String c r =>
      let cased := is_upper c || is_lower c in
      String (if cased then (if prev_cased then to_lower c else to_upper c) else c)
             (str_title_from cased r)
  end.
Definition str_title : string -> string := str_title_from false.

(** Text whose characters are all ASCII. *)
Fixpoint is_ascii_text (s : string) : bool :=
  match s with
  | EmptyString => true
  | String c r => (nat_of_ascii c <? 128)%nat && is_ascii_text r
  end.

Fixpoint lstrip (s : string) : string :=
  match s with
  | String c r => if is_space c then lstrip r else s
  | EmptyString => EmptyString
  end.
Fixpoint rstrip (s : string) : string :=
  match s with
  | EmptyString => EmptyString
  | String c r =>
      match rstrip r with
      | EmptyString => if is_space c then EmptyString else String c EmptyString
      | r' => String c r'
      end
  end.
Definition str_strip (s : string) : string := rstrip (lstrip s).

(** [sub in s] for strings. *)
Fixpoint str_contains (sub s : string) : bool :=
  String.prefix sub s ||
  match s with
  | EmptyString => false
  | String _ r => str_contains sub r
  end.

(** [s.replace(a, b)] for one-character [a] and [b]. *)
Definition str_replace_char (a b : ascii) : string -> string :=
  str_map (fun c => if Ascii.eqb c a then b else c).

Definition str_ends_with (suffix s : string) : bool :=
  let n := String.length s in
  let k := String.length suffix in
  (k <=? n)%nat && String.eqb (String.substring (n - k) k s) suffix.

(** ** Dictionaries: insertion-ordered association lists *)

Fixpoint dict_get {V} (d : list (string * V)) (k : string) : option V :=
  match d with
  | [] => None
  | (k', v) :: r => if String.eqb k' k then Some v else dict_get r k
  end.

(** [d[k] = v]: an existing key keeps its position, a new key goes last. *)
Fixpoint dict_set {V} (d : list (string * V)) (k : string) (v : V) : list (string * V) :=
  match d with
  | [] => [(k, v)]
  | (k', v') :: r =>
      if String.eqb k' k then (k', v) :: r else (k', v') :: dict_set r k v
  end.

Definition dict_keys {V} (d : list (string * V)) : list string := map fst d.

(** ** Python operations on runtime values *)

Definition type_name (v : value) : string :=
  match v with
  | VNone => "NoneType"
  | VBool _ => "bool"
  | VInt _ => "int"
  | VFloat _ => "float"
  | VStr _ => "str"
  | VList _ => "list"
  | VDict _ => "dict"
  | VObj cls => cls
  end.

Definition AttributeError (v : value) (attr : string) : exn :=
  Exn "AttributeError"
      ("'" ++ type_name v ++ "' object has no attribute '" ++ attr ++ "'").
Definition TypeError_cmp (op : string) (a b : value) : exn :=
  Exn "TypeError"
      ("'" ++ op ++ "' not supported between instances of '" ++ type_name a
           ++ "' and '" ++ type_name b ++ "'").
Definition TypeError_subscript (v : value) : exn :=
  Exn "TypeError" ("'" ++ type_name v ++ "' object is not subscriptable").
Definition IndexError (what : string) : exn :=
  Exn "IndexError" (what ++ " index out of range").
(** [str(KeyError(k))] is [repr(k)]. *)
Definition KeyError_str (k : string) : exn :=
  Exn "KeyError" ("'" ++ k ++ "'").
Definition KeyError_int (n : string) : exn := Exn "KeyError" n.
Definition TypeError_json (v : value) : exn :=
  Exn "TypeError" ("Object of type " ++ type_name v ++ " is not JSON serializable").

(** [v.get(k, dflt)]: only dictionaries have the method. *)
Definition py_get (v : value) (k : string) (dflt : value) : res value :=
  match v with
  | VDict d => Ok (default dflt (dict_get d k))
  | _ => Raise (AttributeError v "get")
  end.

(** Truth value of an object. *)
Definition py_truthy (v : value) : bool :=
  match v with
  | VNone => false
  | VBool b => b
  | VInt n => negb (n =? 0)
  | VFloat q => negb (Qeq_bool q 0)
  | VStr s => negb (String.eqb s "")
  | VList l => match l with [] => false | _ => true end
  | VDict d => match d with [] => false | _ => true end
  | VObj _ => true
  end.

(** [v == "lit"] for a string literal. *)
Definition py_eq_str (v : value) (lit : string) : bool :=
  match v with
  | VStr s => String.eqb s lit
  | _ => false
  end.

(** The number a [bool], [int] or [float] denotes. *)
Definition num_of (v : value) : option Q :=
  match v with
  | VBool b => Some (if b then 1%Q else 0%Q)
  | VInt n => Some (inject_Z n)
  | VFloat q => Some q
  | _ => None
  end.

Definition Qlt_bool (a b : Q) : bool := negb (Qle_bool b a).

(** [v < lit] and [v > lit] for a numeric literal [lit]: numbers compare by
    value, anything else raises [TypeError]. *)
Definition py_lt (v lit : value) : res bool :=
  match num_of v, num_of lit with
  | Some a, Some b => Ok (Qlt_bool a b)
  | _, _ => Raise (TypeError_cmp "<" v lit)
  end.
Definition py_gt (v lit : value) : res bool :=
  match num_of v, num_of lit with
  | Some a, Some b => Ok (Qlt_bool b a)
  | _, _ => Raise (TypeError_cmp ">" v lit)
  end.

(** The float literals of the program, as the doubles they denote. *)
Definition float_0_2 : Q := 3602879701896397 # 18014398509481984.
Definition float_0_3 : Q := 5404319552844595 # 18014398509481984.
Definition float_0_1 : Q := 3602879701896397 # 36028797018963968.
Definition float_0_5 : Q := 1 # 2.
Definition float_11_5 : Q := 23 # 2.

(** [v[0]]. *)
Definition py_index0 (v : value) : res value :=
  match v with
  | VList [] => Raise (IndexError "list")
  | VList (x :: _) => Ok x
  | VStr EmptyString => Raise (IndexError "string")
  | VStr (String c _) => Ok (VStr (String c EmptyString))
  | VDict _ => Raise (KeyError_int "0")
  | _ => Raise (TypeError_subscript v)
  end.

(** First foreign object met by [json.dumps], in document order. *)
Fixpoint json_bad (v : value) : option value :=
  match v with
  | VObj _ => Some v
  | VList l =>
      (fix go (l : list value) : option value :=
         match l with
         | [] => None
         | x :: r => match json_bad x with Some b => Some b | None => go r end
         end) l
  | VDict d =>
      (fix go (d : list (string * value)) : option value :=
         match d with
         | [] => None
         | (_, x) :: r => match json_bad x with Some b => Some b | None => go r end
         end) d
  | _ => None
  end.

(** ** The world: object store, and the calls whose answers the program
    does not determine *)

(** Answers of the environment.  Every call to [uuid.uuid4], the clock, an
    HTTP endpoint or a third-party agent runtime is numbered by the tick at
    which it happens, so that two calls may answer differently. *)
Record HttpResponse : Type := {
  status_code : Z;
  json_body : res value          (* [response.json()] *)
}.

Record Oracle : Type := {
  uuid4_hex : nat -> string;                 (* [uuid.uuid4().hex] *)
  time_time : nat -> Q;                      (* [time.time()] *)
  now_isoformat : nat -> string;             (* [datetime.now().isoformat()] *)
  py_repr : value -> string;                 (* [str(v)] of a non-string *)
  unicode_title : string -> string;          (* [s.title()], [s] not ASCII *)
  unicode_lower : string -> string;          (* [s.lower()], [s] not ASCII *)
  float_ms : Q -> Q -> Q;                    (* [(t - t0) * 1000] on doubles *)
  json_len : value -> Z;                     (* [len(json.dumps(v))] *)
  getenv : string -> option string;          (* [os.getenv] *)
  http_post : nat -> string -> value -> res HttpResponse;
  LANGGRAPH_AVAILABLE : bool;
  CREWAI_AVAILABLE : bool;
  AUTOGEN_AVAILABLE : bool;
  (* third-party constructors and calls: [Some e] when the call raises *)
  ChatOpenAI_new : nat -> option exn;
  StateGraph_compile_fault : nat -> option exn;  (* building the graph *)
  StateGraph_invoke_fault : nat -> option exn;
  crewai_Agent_new : nat -> option exn;
  crewai_Task_Crew_new : nat -> option exn;  (* building [Task] and [Crew] *)
  crewai_kickoff : nat -> res string;        (* [str(crew.kickoff())] *)
  autogen_UserProxyAgent_new : nat -> option exn;
  autogen_AssistantAgent_new : nat -> option exn;
  autogen_initiate_chat : nat -> res (list value)   (* the agent's messages *)
}.

Record World : Type := {
  tick : nat;                    (* external calls made so far *)
  next_loc : nat;                (* next fresh object address *)
  heap : gmap nat dict;          (* dictionary objects that are assigned into *)
  sent : list (string * value)   (* HTTP requests sent so far: URL and body *)
}.

(** State-and-exception monad over a state [S]; [M] is the monad of code
    that only touches the world. *)
Definition ST (S A : Type) : Type := S -> res A * S.
Abbreviation M := (ST World).

Definition ret {S A} (a : A) : ST S A := fun w => (Ok a, w).
Definition bind {S A B} (m : ST S A) (k : A -> ST S B) : ST S B :=
  fun w => match m w with
           | (Ok a, w') => k a w'
           | (Raise e, w') => (Raise e, w')
           end.
Definition raise {S A} (e : exn) : ST S A := fun w => (Raise e, w).
Definition lift {S A} (r : res A) : ST S A := fun w => (r, w).

(** [try: m except Exception as e: h e].  What [m] did to the state before
    raising stays done. *)
Definition try_except {S A} (m : ST S A) (h : exn -> ST S A) : ST S A :=
  fun w => match m w with
           | (Ok a, w') => (Ok a, w')
           | (Raise e, w') => h e w'
           end.

Declare Scope py_scope.
Delimit Scope py_scope with py.
Notation "x <- m ;; k" := (bind m (fun x => k))
  (at level 100, m at next level, right associativity) : py_scope.
Notation "m ;;; k" := (bind m (fun _ => k))
  (at level 100, right associativity) : py_scope.
Local Open Scope py_scope.

Definition next_tick : M nat :=
  fun w => (Ok (tick w),
            {| tick := S (tick w); next_loc := next_loc w; heap := heap w;
               sent := sent w |}).

(** Allocation of a fresh dictionary object, reading and item assignment. *)
Definition alloc (d : dict) : M nat :=
  fun w => (Ok (next_loc w),
            {| tick := tick w; next_loc := S (next_loc w);
               heap := <[next_loc w := d]> (heap w); sent := sent w |}).
Definition heap_get (h : gmap nat dict) (l : nat) : dict := default [] (h !! l).
Definition deref (l : nat) : M dict := fun w => (Ok (heap_get (heap w) l), w).
Definition setitem (l : nat) (k : string) (v : value) : M unit :=
  fun w => (Ok tt,
            {| tick := tick w; next_loc := next_loc w;
               heap := <[l := dict_set (heap_get (heap w) l) k v]> (heap w);
               sent := sent w |}).
Definition log_request (url : string) (body : value) : M unit :=
  fun w => (Ok tt,
            {| tick := tick w; next_loc := next_loc w; heap := heap w;
               sent := sent w ++ [(url, body)] |}).

(** ** base_adapter.py *)

Inductive AgentType : Type :=
| MASTER | DATA_ANALYSIS | DIAGNOSIS | CUSTOMER_ENGAGEMENT
| SCHEDULING | FEEDBACK | RCA_CAPA.

Definition AgentType_value (t : AgentType) : string :=
  match t with
  | MASTER => "master"
  | DATA_ANALYSIS => "data_analysis"
  | DIAGNOSIS => "diagnosis"
  | CUSTOMER_ENGAGEMENT => "customer_engagement"
  | SCHEDULING => "scheduling"
  | FEEDBACK => "feedback"
  | RCA_CAPA => "rca_capa"
  end.

Definition AgentType_eqb (a b : AgentType) : bool :=
  String.eqb (AgentType_value a) (AgentType_value b).

(** A task object.  [input_data] is the address of its dictionary, which
    [orchestrate_workflow] assigns into; the other fields are never
    assigned after construction. *)
Record AgentTask : Type := {
  task_id : string;
  task_type : string;
  description : string;
  input_data : nat;
  priority : Z;
  timeout_seconds : Z;
  retry_count : Z;
  max_retries : Z
}.

Definition mkTask (id ty descr : string) (inp : nat) (prio : Z) : AgentTask :=
  {| task_id := id; task_type := ty; description := descr; input_data := inp;
     priority := prio; timeout_seconds := 30; retry_count := 0; max_retries := 3 |}.

Record AgentResult : Type := {
  r_task_id : string;
  r_agent_id : string;
  success : bool;
  output : value;
  error : option string;
  execution_time_ms : Q;
  metadata : option dict
}.

Definition mkResult (tid aid : string) (ok : bool) (out : value)
    (err : option string) (ms : Q) (meta : option dict) : AgentResult :=
  {| r_task_id := tid; r_agent_id := aid; success := ok; output := out;
     error := err; execution_time_ms := ms; metadata := meta |}.

(** [AgentToolRegistry]: tools by name.  A tool's function is opaque to the
    registry. *)
Module AgentToolRegistry.

Section Registry.
Variable Callable : Type.

Record tool_info : Type := {
  function : Callable;
  description : string;
  name : string
}.

Record t : Type := { tools : list (string * tool_info) }.

Definition __init__ : t := {| tools := [] |}.

Definition register (self : t) (name : string) (func : Callable)
    (description : option string) : t :=
  {| tools := dict_set (tools self) name
                {| function := func; description := default "" description;
                   name := name |} |}.

Definition get (self : t) (name : string) : option tool_info :=
  dict_get (tools self) name.

Definition list_tools (self : t) : list string := dict_keys (tools self).

Definition get_all (self : t) : list (string * Callable) :=
  map (fun kv => (fst kv, function (snd kv))) (tools self).
End Registry.

Arguments function {Callable} _.
Arguments description {Callable} _.
Arguments name {Callable} _.
Arguments tools {Callable} _.
Arguments __init__ {Callable}.
Arguments register {Callable} _ _ _ _.
Arguments get {Callable} _ _.
Arguments list_tools {Callable} _.
Arguments get_all {Callable} _.
End AgentToolRegistry.

(** Calls answered by the environment. *)
Section Environment.
Variable O : Oracle.

Definition uuid4_hex8 : M string :=
  n <- next_tick ;; ret (String.substring 0 8 (uuid4_hex O n)).
(** [uuid.uuid4().hex[:8].upper()] *)
Definition uuid4_hex8_upper : M string :=
  h <- uuid4_hex8 ;; ret (str_upper h).
Definition time_now : M Q := n <- next_tick ;; ret (time_time O n).
Definition datetime_now_iso : M string :=
  n <- next_tick ;; ret (now_isoformat O n).
(** [(time.time() - start_time) * 1000], in double arithmetic. *)
Definition elapsed_ms (start_time : Q) : M Q :=
  t <- time_now ;; ret (float_ms O t start_time).

(** [s.title()] and [s.lower()] of a string: the byte-wise functions are
    those of ASCII text; other text is cased by the Unicode tables. *)
Definition text_title (s : string) : string :=
  if is_ascii_text s then str_title s else unicode_title O s.
Definition text_lower (s : string) : string :=
  if is_ascii_text s then str_lower s else unicode_lower O s.

(** [v.title()] and [v.lower()]: string methods. *)
Definition py_title (v : value) : res string :=
  match v with
  | VStr s => Ok (text_title s)
  | _ => Raise (AttributeError v "title")
  end.
Definition py_lower (v : value) : res string :=
  match v with
  | VStr s => Ok (text_lower s)
  | _ => Raise (AttributeError v "lower")
  end.

(** [str(v)], also what an f-string puts for [{v}]. *)
Definition py_str (v : value) : string :=
  match v with
  | VStr s => s
  | _ => py_repr O v
  end.

(** [len(json.dumps(v))] *)
Definition json_dumps_len (v : value) : res Z :=
  match json_bad v with
  | Some b => Raise (TypeError_json b)
  | None => Ok (json_len O v)
  end.
End Environment.

(** ** builtin_adapter.py: BuiltinAgent *)

Module BuiltinAgent.

Record t : Type := {
  agent_id : string;
  agent_type : AgentType;
  tools : list string;
  config : dict;
  state : dict;
  history : list dict
}.

Definition __init__ (agent_id : string) (agent_type : AgentType)
    (tools : option (list string)) (config : option dict) : t :=
  {| agent_id := agent_id; agent_type := agent_type;
     tools := default [] tools; config := default [] config;
     state := []; history := [] |}.

(** Locals of [_diagnose] that the branches assign. *)
Record diagnosis_acc : Type := {
  findings : list value;
  root_causes : list value;
  severity : string;
  recommended_actions : list value
}.

Definition record_finding (a : diagnosis_acc)
    (finding cause action sev : string) : diagnosis_acc :=
  {| findings := findings a ++ [VStr finding];
     root_causes := root_causes a ++ [VStr cause];
     severity := sev;
     recommended_actions := recommended_actions a ++ [VStr action] |}.

Section Handlers.
Variable O : Oracle.

Definition health_of (good : bool) : value :=
  VStr (if good then "good" else "warning").

Definition _analyze (data : dict) : M value :=
  let telemetry := default (VDict []) (dict_get data "telemetry") in
  vehicle_id <- lift (py_get telemetry "vehicle_id" (VStr "unknown")) ;;
  engine_temp <- lift (py_get telemetry "engine_temp" (VInt 90)) ;;
  engine <- lift (py_lt engine_temp (VInt 100)) ;;
  oil_pressure <- lift (py_get telemetry "oil_pressure" (VInt 40)) ;;
  oil <- lift (py_gt oil_pressure (VInt 30)) ;;
  battery_voltage <- lift (py_get telemetry "battery_voltage" (VInt 12)) ;;
  battery <- lift (py_gt battery_voltage (VFloat float_11_5)) ;;
  brake_pad_wear <- lift (py_get telemetry "brake_pad_wear_avg" (VFloat float_0_5)) ;;
  brakes <- lift (py_gt brake_pad_wear (VFloat float_0_2)) ;;
  let health_indicators :=
    [("engine", health_of engine); ("oil", health_of oil);
     ("battery", health_of battery); ("brakes", health_of brakes)] in
  let warnings :=
    map fst (List.filter (fun kv => py_eq_str (snd kv) "warning") health_indicators) in
  ret (VDict
    [("vehicle_id", vehicle_id);
     ("health_indicators", VDict health_indicators);
     ("overall_status",
        VStr (match warnings with [] => "healthy" | _ => "needs_attention" end));
     ("recommendations",
        VList (map (fun w => VStr ("Check " ++ w ++ " system")) warnings))]).

Definition _diagnose (data : dict) : M value :=
  let analysis := default (VDict []) (dict_get data "analysis") in
  vehicle_id <- lift (py_get analysis "vehicle_id" (VStr "unknown")) ;;
  code <- uuid4_hex8_upper O ;;
  let d0 := {| findings := []; root_causes := []; severity := "low";
               recommended_actions := [] |} in
  health <- lift (py_get analysis "health_indicators" (VDict [])) ;;
  engine <- lift (py_get health "engine" VNone) ;;
  let d1 := if py_eq_str engine "warning"
            then record_finding d0 "Engine temperature elevated"
                   "Possible cooling system issue"
                   "Inspect coolant levels and thermostat" "high"
            else d0 in
  oil <- lift (py_get health "oil" VNone) ;;
  let d2 := if py_eq_str oil "warning"
            then record_finding d1 "Oil pressure below threshold"
                   "Oil leak or pump degradation"
                   "Check oil level and inspect for leaks" "high"
            else d1 in
  battery <- lift (py_get health "battery" VNone) ;;
  let d3 := if py_eq_str battery "warning"
            then record_finding d2 "Battery voltage low"
                   "Battery aging or charging system issue"
                   "Test battery and alternator" "medium"
            else d2 in
  brakes <- lift (py_get health "brakes" VNone) ;;
  let d4 := if py_eq_str brakes "warning"
            then record_finding d3 "Brake pads worn" "Normal wear"
                   "Replace brake pads" "high"
            else d3 in
  let d5 := match findings d4 with
            | [] => {| findings := [VStr "No issues detected"];
                       root_causes := root_causes d4; severity := "low";
                       recommended_actions := recommended_actions d4 |}
            | _ => d4
            end in
  ret (VDict
    [("vehicle_id", vehicle_id);
     ("diagnosis_code", VStr ("DX-" ++ code));
     ("findings", VList (findings d5));
     ("root_causes", VList (root_causes d5));
     ("severity", VStr (severity d5));
     ("recommended_actions", VList (recommended_actions d5))]).

Definition _predict (data : dict) : M value :=
  u <- uuid4_hex8_upper O ;;
  ret (VDict
    [("prediction_id", VStr ("PRED-" ++ u));
     ("status", VStr "generated");
     ("note", VStr "Prediction would be fetched from ML service")]).

Definition _schedule (data : dict) : M value :=
  let diagnosis := default (VDict []) (dict_get data "diagnosis") in
  let customer := default (VDict []) (dict_get data "customer") in
  u <- uuid4_hex8_upper O ;;
  vehicle_id <- lift (py_get diagnosis "vehicle_id" (VStr "unknown")) ;;
  customer_name <- lift (py_get customer "name" (VStr "Unknown")) ;;
  prio <- lift (py_get diagnosis "severity" (VStr "low")) ;;
  actions <- lift (py_get diagnosis "recommended_actions" (VList [])) ;;
  service_type <-
    (if str_contains "brakes" (text_lower O (py_str O actions))
     then ret "Brake Service"
     else
       found <- lift (py_get diagnosis "findings" (VList [])) ;;
       if str_contains "engine" (text_lower O (py_str O found))
       then ret "Engine Diagnostics"
       else
         found' <- lift (py_get diagnosis "findings" (VList [])) ;;
         if str_contains "battery" (text_lower O (py_str O found'))
         then ret "Electrical Service"
         else ret "Diagnostic Service") ;;
  ret (VDict
    [("appointment_id", VStr ("APT-" ++ u));
     ("vehicle_id", vehicle_id);
     ("customer_name", customer_name);
     ("service_type", VStr service_type);
     ("priority", prio);
     ("status", VStr "pending");
     ("estimated_duration_hours", VInt 2)]).

Definition _engage (data : dict) : M value :=
  let appointment := default (VDict []) (dict_get data "appointment") in
  let customer := default (VDict []) (dict_get data "customer") in
  service_type <- lift (py_get appointment "service_type" (VStr "Service")) ;;
  prio <- lift (py_get appointment "priority" (VStr "low")) ;;
  let urgency :=
    if py_eq_str prio "high"
    then "We recommend scheduling as soon as possible."
    else "Please schedule at your earliest convenience." in
  name <- lift (py_get customer "name" (VStr "Valued Customer")) ;;
  prio_title <- lift (py_title O prio) ;;
  let chat_message :=
    nl ++ "Hello " ++ py_str O name ++ "," ++ nl ++ nl
    ++ "Our predictive maintenance system has detected that your vehicle may need attention."
    ++ nl ++ nl
    ++ "Service Recommended: " ++ py_str O service_type ++ nl
    ++ "Priority: " ++ prio_title ++ nl ++ nl
    ++ urgency ++ nl ++ nl
    ++ "Would you like to schedule a service appointment? " ++ nl
    ++ "Reply 'BOOK' to schedule or call us at 1-800-AUTOSENTRY." ++ nl ++ nl
    ++ "Best regards," ++ nl
    ++ "AutoSentry AI Team" ++ nl in
  service_lower <- lift (py_lower O service_type) ;;
  let voice_script :=
    nl ++ "Hello, this is AutoSentry AI calling about your vehicle." ++ nl
    ++ "Our system has detected that your vehicle may need " ++ service_lower ++ "." ++ nl
    ++ "This is marked as " ++ py_str O prio ++ " priority." ++ nl
    ++ urgency ++ nl
    ++ "To schedule an appointment, press 1." ++ nl
    ++ "To speak with a representative, press 2." ++ nl
    ++ "To hear this message again, press 3." ++ nl in
  u <- uuid4_hex8_upper O ;;
  customer_id <- lift (py_get customer "id" (VStr "unknown")) ;;
  ret (VDict
    [("engagement_id", VStr ("ENG-" ++ u));
     ("customer_id", customer_id);
     ("channel", VStr "multi");
     ("chat_message", VStr (str_strip chat_message));
     ("voice_script", VStr (str_strip voice_script));
     ("sms_message",
        VStr ("AutoSentry Alert: Your vehicle needs " ++ py_str O service_type
              ++ ". Call 1-800-AUTOSENTRY to schedule."));
     ("status", VStr "prepared")]).

Definition question (id : Z) (text type : string) : value :=
  VDict [("id", VInt id); ("text", VStr text); ("type", VStr type)].

Definition _feedback (data : dict) : M value :=
  u <- uuid4_hex8_upper O ;;
  link <- uuid4_hex8 O ;;
  ret (VDict
    [("feedback_id", VStr ("FB-" ++ u));
     ("survey_link", VStr ("https://autosentry.ai/feedback/" ++ link));
     ("questions",
        VList [question 1 "How satisfied were you with the service?" "rating";
               question 2 "Was the issue resolved?" "yes_no";
               question 3 "How likely are you to recommend us?" "nps";
               question 4 "Any additional comments?" "text"]);
     ("status", VStr "sent")]).

(** [d.get(k, [dflt])[0] if d.get(k) else dflt] *)
Definition first_or (d : value) (k dflt : string) : M value :=
  present <- lift (py_get d k VNone) ;;
  if py_truthy present
  then l <- lift (py_get d k (VList [VStr dflt])) ;; lift (py_index0 l)
  else ret (VStr dflt).

Definition _rca_capa (data : dict) : M value :=
  let diagnosis := default (VDict []) (dict_get data "diagnosis") in
  let vehicle_data := default (VDict []) (dict_get data "vehicle_data") in
  rca <- uuid4_hex8_upper O ;;
  capa <- uuid4_hex8_upper O ;;
  component <- first_or diagnosis "findings" "Unknown" ;;
  root_cause <- first_or diagnosis "root_causes" "Under investigation" ;;
  vehicle_id <- lift (py_get vehicle_data "vehicle_id" (VStr "unknown")) ;;
  created_at <- datetime_now_iso O ;;
  ret (VDict
    [("rca_id", VStr ("RCA-" ++ rca));
     ("capa_id", VStr ("CAPA-" ++ capa));
     ("component", component);
     ("root_cause", root_cause);
     ("affected_vehicles", VList [vehicle_id]);
     ("corrective_action", VStr "Service and repair affected component");
     ("preventive_action", VStr "Implement predictive monitoring threshold");
     ("status", VStr "draft");
     ("created_at", VStr created_at)]).

Definition _generic_task (data : dict) : M value :=
  timestamp <- datetime_now_iso O ;;
  ret (VDict
    [("task_executed", VBool true);
     ("input_received", VList (map VStr (dict_keys data)));
     ("timestamp", VStr timestamp)]).

(** The task-type dispatch of [execute]. *)
Definition run_handler (task_type : string) (data : dict) : M value :=
  if String.eqb task_type "analyze" then _analyze data
  else if String.eqb task_type "diagnose" then _diagnose data
  else if String.eqb task_type "predict" then _predict data
  else if String.eqb task_type "schedule" then _schedule data
  else if String.eqb task_type "engage" then _engage data
  else if String.eqb task_type "feedback" then _feedback data
  else if String.eqb task_type "rca_capa" then _rca_capa data
  else _generic_task data.

(** [execute]: returns the agent (its history may have grown) and the
    result. *)
Definition execute (self : t) (task : AgentTask) : M (t * AgentResult) :=
  start_time <- time_now O ;;
  try_except
    (data <- deref (input_data task) ;;
     out <- run_handler (task_type task) data ;;
     execution_time <- elapsed_ms O start_time ;;
     timestamp <- datetime_now_iso O ;;
     let entry := [("task_id", VStr (task_id task));
                   ("task_type", VStr (task_type task));
                   ("timestamp", VStr timestamp);
                   ("success", VBool true)] in
     let self' := {| agent_id := agent_id self; agent_type := agent_type self;
                     tools := tools self; config := config self;
                     state := state self;
                     history := history self ++ [entry] |} in
     ret (self', mkResult (task_id task) (agent_id self) true out None
                   execution_time None))
    (fun e =>
       execution_time <- elapsed_ms O start_time ;;
       ret (self, mkResult (task_id task) (agent_id self) false (VDict [])
                    (Some (exn_str e)) execution_time None)).
End Handlers.
End BuiltinAgent.

(** [sorted(tasks, key=lambda t: t.priority)]: ascending and stable.  A
    task goes in front of the first task whose priority is not smaller. *)
Fixpoint insert_by_priority (x : AgentTask) (l : list AgentTask) : list AgentTask :=
  match l with
  | [] => [x]
  | y :: r =>
      if priority x <=? priority y then x :: y :: r
      else y :: insert_by_priority x r
  end.

Definition sorted_by_priority (tasks : list AgentTask) : list AgentTask :=
  fold_right insert_by_priority [] tasks.

(** [for x in l: body x], over a loop state [S]. *)
Fixpoint for_each {W A S} (l : list A) (body : A -> S -> ST W S) (s : S)
  : ST W S :=
  match l with
  | [] => ret s
  | x :: r => s' <- body x s ;; for_each r body s'
  end.

(** A workflow configuration: [agent_mapping] from task types to agent ids
    and the [chain_outputs] flag (on unless given as false). *)
Record WorkflowConfig : Type := {
  agent_mapping : list (string * string);
  chain_outputs : bool
}.

Definition default_workflow_config : WorkflowConfig :=
  {| agent_mapping := []; chain_outputs := true |}.

(** A result for a worker that is not registered. *)
Definition not_found_result (agent_id : string) (task : AgentTask) : AgentResult :=
  mkResult (task_id task) agent_id false (VDict [])
           (Some ("Agent " ++ agent_id ++ " not found")) 0 None.

(** First key of an ordered dictionary whose entry satisfies [p]. *)
Fixpoint first_key {V} (p : V -> bool) (d : list (string * V)) : option string :=
  match d with
  | [] => None
  | (k, v) :: r => if p v then Some k else first_key p r
  end.

(** ** builtin_adapter.py: BuiltinAdapter *)

Module BuiltinAdapter.

Record t : Type := {
  config : dict;
  agents : list (string * BuiltinAgent.t);
  is_initialized : bool
}.

Definition __init__ (config : option dict) : t :=
  {| config := default [] config; agents := []; is_initialized := false |}.

Definition set_agents (self : t) (a : list (string * BuiltinAgent.t)) : t :=
  {| config := config self; agents := a; is_initialized := is_initialized self |}.

Section Methods.
Variable O : Oracle.

Definition initialize (self : t) : M (t * bool) :=
  try_except
    (ret ({| config := config self; agents := agents self;
             is_initialized := true |}, true))
    (fun _ => ret (self, false)).

Definition create_agent (self : t) (agent_type : AgentType) (agent_id : string)
    (tools : option (list string)) (config : option dict)
  : M (t * BuiltinAgent.t) :=
  let agent := BuiltinAgent.__init__ agent_id agent_type tools config in
  ret (set_agents self (dict_set (agents self) agent_id agent), agent).

Definition execute_task (self : t) (agent_id : string) (task : AgentTask)
  : M (t * AgentResult) :=
  match dict_get (agents self) agent_id with
  | None => ret (self, not_found_result agent_id task)
  | Some agent =>
      ar <- BuiltinAgent.execute O agent task ;;
      ret (set_agents self (dict_set (agents self) agent_id (fst ar)), snd ar)
  end.

Definition task_agent_mapping : list (string * AgentType) :=
  [("analyze", DATA_ANALYSIS); ("diagnose", DIAGNOSIS);
   ("predict", DATA_ANALYSIS); ("schedule", SCHEDULING);
   ("engage", CUSTOMER_ENGAGEMENT); ("feedback", FEEDBACK);
   ("rca_capa", RCA_CAPA)].

Definition has_type (ty : AgentType) (a : BuiltinAgent.t) : bool :=
  AgentType_eqb (BuiltinAgent.agent_type a) ty.

Definition _select_agent_for_task (self : t) (task : AgentTask) : option string :=
  let by_type :=
    match dict_get task_agent_mapping (task_type task) with
    | Some target_type => first_key (has_type target_type) (agents self)
    | None => None
    end in
  match by_type with
  | Some agent_id => Some agent_id
  | None => first_key (has_type MASTER) (agents self)
  end.

Definition no_agent_result (task : AgentTask) : AgentResult :=
  mkResult (task_id task) "none" false (VDict [])
           (Some "No suitable agent found for task") 0 None.

(** The inner loop: hand [result.output] to every other task. *)
Definition chain_output (sorted_tasks : list AgentTask) (task : AgentTask)
    (out : value) : M unit :=
  for_each sorted_tasks
    (fun next_task _ =>
       if negb (String.eqb (task_id next_task) (task_id task))
       then setitem (input_data next_task) (task_type task ++ "_result") out
       else ret tt)
    tt.

(** One iteration of the loop over the sorted tasks. *)
Definition workflow_step (cfg : WorkflowConfig) (sorted_tasks : list AgentTask)
    (task : AgentTask) (st : t * list AgentResult) : M (t * list AgentResult) :=
  let self := fst st in
  let results := snd st in
  let mapped :=
    match dict_get (agent_mapping cfg) (task_type task) with
    | Some a => if String.eqb a "" then None else Some a
    | None => None
    end in
  let agent_id :=
    match mapped with
    | Some a => Some a
    | None => _select_agent_for_task self task
    end in
  match agent_id with
  | Some a =>
      if String.eqb a "" then ret (self, (results ++ [no_agent_result task])%list)
      else
        sr <- execute_task self a task ;;
        (if success (snd sr) && chain_outputs cfg
         then chain_output sorted_tasks task (output (snd sr))
         else ret tt) ;;;
        ret (fst sr, (results ++ [snd sr])%list)
  | None => ret (self, (results ++ [no_agent_result task])%list)
  end.

Definition orchestrate_workflow (self : t) (tasks : list AgentTask)
    (workflow_config : option WorkflowConfig) : M (t * list AgentResult) :=
  let cfg := default default_workflow_config workflow_config in
  let sorted_tasks := sorted_by_priority tasks in
  for_each sorted_tasks (workflow_step cfg sorted_tasks) (self, []).

(** [shutdown]: the registry is emptied. *)
Definition shutdown (self : t) : t :=
  {| config := config self; agents := []; is_initialized := false |}.

Definition get_agent (self : t) (agent_id : string) : option BuiltinAgent.t :=
  dict_get (agents self) agent_id.

Definition list_agents (self : t) : list string := dict_keys (agents self).
End Methods.
End BuiltinAdapter.

(** An [Optional[str]] field read from a dynamic value. *)
Definition optional_str (repr : value -> string) (v : value) : option string :=
  match v with
  | VNone => None
  | VStr s => Some s
  | _ => Some (repr v)
  end.

(** ** langgraph_adapter.py *)

Module LangGraphAdapter.

(** A compiled one-node state graph is determined by its node. *)
Inductive node : Type :=
| analyze_node | diagnose_node | engage_node | schedule_node | process_node.

Record entry : Type := {
  e_graph : node;
  e_type : AgentType;
  e_config : option dict
}.

Record t : Type := {
  config : dict;
  agents : list (string * entry);
  is_initialized : bool;
  graphs : list (string * node);
  llm : bool                       (* whether an LLM client was created *)
}.

Definition __init__ (config : option dict) : t :=
  {| config := default [] config; agents := []; is_initialized := false;
     graphs := []; llm := false |}.

Section Methods.
Variable O : Oracle.

Definition initialize (self : t) : M (t * bool) :=
  if negb (LANGGRAPH_AVAILABLE O) then ret (self, false)
  else
    try_except
      (let llm_api_key := default VNone (dict_get (config self) "llm_api_key") in
       has_llm <-
         (if py_truthy llm_api_key
          then try_except
                 (n <- next_tick ;;
                  match ChatOpenAI_new O n with
                  | Some e => raise e
                  | None => ret true
                  end)
                 (fun _ => ret (llm self))
          else ret (llm self)) ;;
       ret ({| config := config self; agents := agents self;
               is_initialized := true; graphs := graphs self;
               llm := has_llm |}, true))
      (fun _ => ret (self, false)).

(** The node of the one-node graph built for an agent type. *)
Definition node_of (agent_type : AgentType) : node :=
  match agent_type with
  | DATA_ANALYSIS => analyze_node
  | DIAGNOSIS => diagnose_node
  | CUSTOMER_ENGAGEMENT => engage_node
  | SCHEDULING => schedule_node
  | _ => process_node
  end.

(** [StateGraph(...)], [add_node], [set_entry_point], [add_edge] and
    [compile()] are third-party calls made outside any [try]: an
    exception of theirs escapes. *)
Definition _create_agent_graph (agent_type : AgentType) : M node :=
  n <- next_tick ;;
  match StateGraph_compile_fault O n with
  | Some e => raise e
  | None => ret (node_of agent_type)
  end.

Definition create_agent (self : t) (agent_type : AgentType) (agent_id : string)
    (tools : option (list string)) (config : option dict)
  : M (t * option node) :=
  if negb (LANGGRAPH_AVAILABLE O) then ret (self, None)
  else
    graph <- _create_agent_graph agent_type ;;
    let e := {| e_graph := graph; e_type := agent_type; e_config := config |} in
    ret ({| config := LangGraphAdapter.config self;
            agents := dict_set (agents self) agent_id e;
            is_initialized := is_initialized self;
            graphs := dict_set (graphs self) agent_id graph;
            llm := llm self |}, Some graph).

(** [{**state, "output_data": out, "status": "completed"}] *)
Definition completed (state : dict) (out : value) : value :=
  VDict (dict_set (dict_set state "output_data" out) "status" (VStr "completed")).

Definition _analyze_node (state : dict) : M value :=
  let input_data := default (VDict []) (dict_get state "input_data") in
  telemetry <- lift (py_get input_data "telemetry" (VDict [])) ;;
  vehicle_id <- lift (py_get telemetry "vehicle_id" (VStr "unknown")) ;;
  engine_temp <- lift (py_get telemetry "engine_temp" (VInt 90)) ;;
  engine <- lift (py_lt engine_temp (VInt 100)) ;;
  oil_pressure <- lift (py_get telemetry "oil_pressure" (VInt 40)) ;;
  oil <- lift (py_gt oil_pressure (VInt 30)) ;;
  battery_voltage <- lift (py_get telemetry "battery_voltage" (VInt 12)) ;;
  battery <- lift (py_gt battery_voltage (VFloat float_11_5)) ;;
  ret (completed state (VDict
    [("vehicle_id", vehicle_id);
     ("health_indicators",
        VDict [("engine", BuiltinAgent.health_of engine);
               ("oil", BuiltinAgent.health_of oil);
               ("battery", BuiltinAgent.health_of battery)]);
     ("analyzed_by", VStr "langgraph")])).

Definition _diagnose_node (state : dict) : M value :=
  u <- uuid4_hex8_upper O ;;
  ret (completed state (VDict
    [("diagnosis_id", VStr ("DX-" ++ u));
     ("findings", VList [VStr "Analysis complete"]);
     ("diagnosed_by", VStr "langgraph")])).

Definition _engage_node (state : dict) : M value :=
  u <- uuid4_hex8_upper O ;;
  ret (completed state (VDict
    [("engagement_id", VStr ("ENG-" ++ u));
     ("message", VStr "Your vehicle requires attention.");
     ("engaged_by", VStr "langgraph")])).

Definition _schedule_node (state : dict) : M value :=
  u <- uuid4_hex8_upper O ;;
  ret (completed state (VDict
    [("appointment_id", VStr ("APT-" ++ u));
     ("status", VStr "scheduled");
     ("scheduled_by", VStr "langgraph")])).

Definition _generic_node (state : dict) : M value :=
  ret (completed state (VDict [("processed", VBool true)])).

(** [graph.invoke(state)]: the runtime either fails or runs the graph's
    node from the entry point to [END] and returns the node's state. *)
Definition invoke (graph : node) (state : dict) : M value :=
  n <- next_tick ;;
  match StateGraph_invoke_fault O n with
  | Some e => raise e
  | None =>
      match graph with
      | analyze_node => _analyze_node state
      | diagnose_node => _diagnose_node state
      | engage_node => _engage_node state
      | schedule_node => _schedule_node state
      | process_node => _generic_node state
      end
  end.

Definition execute_task (self : t) (agent_id : string) (task : AgentTask)
  : M AgentResult :=
  start_time <- time_now O ;;
  match dict_get (agents self) agent_id with
  | None => ret (not_found_result agent_id task)
  | Some agent =>
      try_except
        (data <- deref (input_data task) ;;
         let initial_state :=
           [("messages", VList []); ("input_data", VDict data);
            ("output_data", VDict []); ("status", VStr "running");
            ("error", VNone)] in
         result_state <- invoke (e_graph agent) initial_state ;;
         execution_time <- elapsed_ms O start_time ;;
         status <- lift (py_get result_state "status" VNone) ;;
         out <- lift (py_get result_state "output_data" (VDict [])) ;;
         err <- lift (py_get result_state "error" VNone) ;;
         ret (mkResult (task_id task) agent_id (py_eq_str status "completed")
                       out (optional_str (py_repr O) err) execution_time
                       (Some [("framework", VStr "langgraph")])))
        (fun e =>
           execution_time <- elapsed_ms O start_time ;;
           ret (mkResult (task_id task) agent_id false (VDict [])
                         (Some (exn_str e)) execution_time None))
  end.

Definition task_type_mapping : list (string * AgentType) :=
  [("analyze", DATA_ANALYSIS); ("diagnose", DIAGNOSIS);
   ("engage", CUSTOMER_ENGAGEMENT); ("schedule", SCHEDULING)].

Definition _find_agent_for_task (self : t) (task : AgentTask) : option string :=
  let by_type :=
    match dict_get task_type_mapping (task_type task) with
    | Some target_type =>
        first_key (fun e => AgentType_eqb (e_type e) target_type) (agents self)
    | None => None
    end in
  match by_type with
  | Some agent_id => Some agent_id
  | None => head (dict_keys (agents self))
  end.

Definition no_agent_result (task : AgentTask) : AgentResult :=
  mkResult (task_id task) "none" false (VDict [])
           (Some "No suitable agent found") 0 None.

Definition orchestrate_workflow (self : t) (tasks : list AgentTask)
    (workflow_config : option WorkflowConfig) : M (list AgentResult) :=
  for_each (sorted_by_priority tasks)
    (fun task results =>
       match _find_agent_for_task self task with
       | Some agent_id =>
           if String.eqb agent_id "" then ret (results ++ [no_agent_result task])%list
           else
             result <- execute_task self agent_id task ;;
             ret (results ++ [result])%list
       | None => ret (results ++ [no_agent_result task])%list
       end)
    [].

Definition shutdown (self : t) : t :=
  {| config := config self; agents := []; is_initialized := false;
     graphs := graphs self; llm := llm self |}.
End Methods.
End LangGraphAdapter.

(** ** crewai_adapter.py *)

Module CrewAIAdapter.

(** A [crewai.Agent] object as far as the adapter reads it. *)
Record crew_agent : Type := {
  role : string;
  goal : string;
  backstory : string;
  verbose : value;
  allow_delegation : value
}.

Record entry : Type := {
  e_crewai_agent : crew_agent;
  e_type : AgentType;
  e_config : dict
}.

Record t : Type := {
  config : dict;
  agents : list (string * entry);
  is_initialized : bool;
  crews : list (string * list crew_agent);
  crewai_agents : list (string * crew_agent)
}.

Definition __init__ (config : option dict) : t :=
  {| config := default [] config; agents := []; is_initialized := false;
     crews := []; crewai_agents := [] |}.

(** [agent_configs]: role, goal and backstory per agent type. *)
Definition agent_configs (ty : AgentType) : string * string * string :=
  match ty with
  | MASTER =>
      ("Master Orchestrator",
       "Coordinate all vehicle maintenance activities and ensure optimal system operation",
       "Expert AI orchestrator with deep knowledge of automotive systems and predictive maintenance")
  | DATA_ANALYSIS =>
      ("Data Analysis Specialist",
       "Analyze vehicle telemetry data to identify patterns and anomalies",
       "Expert data scientist specialized in automotive sensor data analysis")
  | DIAGNOSIS =>
      ("Vehicle Diagnostics Expert",
       "Diagnose vehicle issues and determine root causes",
       "Master automotive technician with decades of experience in vehicle diagnostics")
  | CUSTOMER_ENGAGEMENT =>
      ("Customer Success Manager",
       "Engage with customers and ensure excellent service experience",
       "Expert in customer communication with deep empathy and automotive knowledge")
  | SCHEDULING =>
      ("Service Scheduling Coordinator",
       "Optimize service appointment scheduling for customer convenience",
       "Operations expert skilled in resource allocation and scheduling optimization")
  | FEEDBACK =>
      ("Customer Feedback Analyst",
       "Collect and analyze customer feedback to improve service quality",
       "Customer experience specialist focused on continuous improvement")
  | RCA_CAPA =>
      ("Quality Engineer",
       "Perform root cause analysis and implement corrective actions",
       "Six Sigma certified quality engineer with automotive manufacturing expertise")
  end.

Section Methods.
Variable O : Oracle.

Definition initialize (self : t) : M (t * bool) :=
  if negb (CREWAI_AVAILABLE O) then ret (self, false)
  else
    try_except
      (ret ({| config := config self; agents := agents self;
               is_initialized := true; crews := crews self;
               crewai_agents := crewai_agents self |}, true))
      (fun _ => ret (self, false)).

Definition create_agent (self : t) (agent_type : AgentType) (agent_id : string)
    (tools : option (list string)) (config : option dict)
  : M (t * option crew_agent) :=
  if negb (CREWAI_AVAILABLE O) then ret (self, None)
  else
    let config := default [] config in
    let '(r, g, b) := agent_configs agent_type in
    try_except
      (n <- next_tick ;;
       match crewai_Agent_new O n with
       | Some e => raise e
       | None =>
           let crewai_agent :=
             {| role := r; goal := g; backstory := b;
                verbose := default (VBool true) (dict_get config "verbose");
                allow_delegation :=
                  default (VBool (AgentType_eqb agent_type MASTER))
                          (dict_get config "allow_delegation") |} in
           let e := {| e_crewai_agent := crewai_agent; e_type := agent_type;
                       e_config := config |} in
           ret ({| config := CrewAIAdapter.config self;
                   agents := dict_set (agents self) agent_id e;
                   is_initialized := is_initialized self;
                   crews := crews self;
                   crewai_agents :=
                     dict_set (crewai_agents self) agent_id crewai_agent |},
                Some crewai_agent)
       end)
      (fun _ => ret (self, None)).

Definition _fallback_execute (self : t) (agent_id : string) (task : AgentTask)
    (start_time : Q) : M AgentResult :=
  let agent_type :=
    match dict_get (agents self) agent_id with
    | Some e => e_type e
    | None => MASTER
    end in
  timestamp <- datetime_now_iso O ;;
  let out := VDict
    [("task_id", VStr (task_id task));
     ("task_type", VStr (task_type task));
     ("agent_type", VStr (AgentType_value agent_type));
     ("status", VStr "completed");
     ("framework", VStr "crewai_fallback");
     ("timestamp", VStr timestamp)] in
  execution_time <- elapsed_ms O start_time ;;
  ret (mkResult (task_id task) agent_id true out None execution_time
                (Some [("framework", VStr "crewai_fallback")])).

(** Building the [Task] and the [Crew]. *)
Definition new_task_and_crew : M unit :=
  n <- next_tick ;;
  match crewai_Task_Crew_new O n with
  | Some e => raise e
  | None => ret tt
  end.

(** [str(crew.kickoff())] *)
Definition kickoff : M string :=
  n <- next_tick ;; lift (crewai_kickoff O n).

Definition execute_task (self : t) (agent_id : string) (task : AgentTask)
  : M AgentResult :=
  start_time <- time_now O ;;
  match dict_get (agents self) agent_id with
  | None => ret (not_found_result agent_id task)
  | Some agent_data =>
      if negb (CREWAI_AVAILABLE O)
      then _fallback_execute self agent_id task start_time
      else
        try_except
          (new_task_and_crew ;;;
           result <- kickoff ;;
           execution_time <- elapsed_ms O start_time ;;
           ret (mkResult (task_id task) agent_id true
                         (VDict [("result", VStr result);
                                 ("raw", VObj "CrewOutput")])
                         None execution_time
                         (Some [("framework", VStr "crewai")])))
          (fun e =>
             _ <- elapsed_ms O start_time ;;
             _fallback_execute self agent_id task start_time)
  end.

Definition _fallback_orchestrate (self : t) (tasks : list AgentTask)
    (workflow_config : option WorkflowConfig) : M (list AgentResult) :=
  for_each (sorted_by_priority tasks)
    (fun task results =>
       let agent_id := default "default" (head (dict_keys (agents self))) in
       start_time <- time_now O ;;
       result <- _fallback_execute self agent_id task start_time ;;
       ret (results ++ [result])%list)
    [].

Definition task_role_mapping : list (string * string) :=
  [("analyze", "Data Analysis"); ("diagnose", "Diagnostics");
   ("engage", "Customer"); ("schedule", "Scheduling");
   ("feedback", "Feedback"); ("rca_capa", "Quality")].

Definition _select_agent_for_task (self : t) (task : AgentTask)
  : option crew_agent :=
  let target_keyword := default "" (dict_get task_role_mapping (task_type task)) in
  match List.filter (fun a => str_contains (str_lower target_keyword)
                                      (str_lower (role a)))
               (map snd (crewai_agents self)) with
  | a :: _ => Some a
  | [] => head (map snd (crewai_agents self))
  end.

(** First loop of the crew path: one [Task] per task of the batch. *)
Definition build_crewai_tasks (self : t) (tasks : list AgentTask)
  : M (list (AgentTask * option crew_agent)) :=
  for_each (sorted_by_priority tasks)
    (fun task acc =>
       let agent := _select_agent_for_task self task in
       new_task_and_crew ;;;
       ret (acc ++ [(task, agent)])%list)
    [].

(** Second loop: a single-agent crew per task. *)
Definition run_crewai_tasks (crewai_tasks : list (AgentTask * option crew_agent))
  : M (list AgentResult) :=
  for_each crewai_tasks
    (fun ta results =>
       let task := fst ta in
       let agent := snd ta in
       start_time <- time_now O ;;
       new_task_and_crew ;;;
       r <- try_except
              (crew_result <- kickoff ;;
               execution_time <- elapsed_ms O start_time ;;
               match agent with
               | Some a =>
                   ret (mkResult (task_id task) (role a) true
                                 (VDict [("result", VStr crew_result)]) None
                                 execution_time
                                 (Some [("framework", VStr "crewai")]))
               | None => raise (AttributeError VNone "role")
               end)
              (fun e =>
                 ret (mkResult (task_id task)
                               (match agent with
                                | Some a => role a
                                | None => "unknown"
                                end)
                               false (VDict []) (Some (exn_str e)) 0 None)) ;;
       ret (results ++ [r])%list)
    [].

Definition orchestrate_workflow (self : t) (tasks : list AgentTask)
    (workflow_config : option WorkflowConfig) : M (list AgentResult) :=
  if negb (CREWAI_AVAILABLE O) || match crewai_agents self with [] => true | _ => false end
  then _fallback_orchestrate self tasks workflow_config
  else
    try_except
      (crewai_tasks <- build_crewai_tasks self tasks ;;
       run_crewai_tasks crewai_tasks)
      (fun _ => _fallback_orchestrate self tasks workflow_config).

Definition shutdown (self : t) : t :=
  {| config := config self; agents := []; is_initialized := false;
     crews := crews self; crewai_agents := crewai_agents self |}.
End Methods.
End CrewAIAdapter.

(** ** autogen_adapter.py *)

Module AutoGenAdapter.

(** An [AssistantAgent] as far as the adapter reads it. *)
Record assistant : Type := {
  name : string;
  system_message : string;
  llm_config_used : value
}.

Record entry : Type := {
  e_autogen_agent : assistant;
  e_type : AgentType;
  e_config : dict
}.

Record t : Type := {
  config : dict;
  agents : list (string * entry);
  is_initialized : bool;
  autogen_agents : list (string * assistant);
  user_proxy : bool;               (* whether the user proxy was created *)
  llm_config : option value
}.

Definition __init__ (config : option dict) : t :=
  {| config := default [] config; agents := []; is_initialized := false;
     autogen_agents := []; user_proxy := false; llm_config := None |}.

Definition system_messages (ty : AgentType) : string :=
  match ty with
  | MASTER =>
      "You are the Master Orchestrator for AutoSentry AI vehicle maintenance system." ++ nl ++
      "Your role is to coordinate all maintenance activities, delegate tasks to specialized agents," ++ nl ++
      "and ensure optimal system operation. You have expertise in automotive systems and predictive maintenance."
  | DATA_ANALYSIS =>
      "You are a Data Analysis Specialist for AutoSentry AI." ++ nl ++
      "Your role is to analyze vehicle telemetry data, identify patterns, detect anomalies," ++ nl ++
      "and provide insights for predictive maintenance. Focus on sensor data interpretation."
  | DIAGNOSIS =>
      "You are a Vehicle Diagnostics Expert for AutoSentry AI." ++ nl ++
      "Your role is to diagnose vehicle issues based on telemetry data and analysis results." ++ nl ++
      "Determine root causes and severity of problems. Provide technical recommendations."
  | CUSTOMER_ENGAGEMENT =>
      "You are a Customer Success Manager for AutoSentry AI." ++ nl ++
      "Your role is to communicate with customers about vehicle maintenance needs." ++ nl ++
      "Be empathetic, clear, and helpful. Generate appropriate messages for chat and voice."
  | SCHEDULING =>
      "You are a Service Scheduling Coordinator for AutoSentry AI." ++ nl ++
      "Your role is to schedule service appointments based on diagnosis priority and customer availability." ++ nl ++
      "Optimize scheduling for minimal customer disruption."
  | FEEDBACK =>
      "You are a Customer Feedback Analyst for AutoSentry AI." ++ nl ++
      "Your role is to collect, analyze, and act on customer feedback." ++ nl ++
      "Identify trends and areas for improvement."
  | RCA_CAPA =>
      "You are a Quality Engineer for AutoSentry AI." ++ nl ++
      "Your role is to perform Root Cause Analysis (RCA) and develop" ++ nl ++
      "Corrective and Preventive Actions (CAPA) for manufacturing insights."
  end.

Definition set_llm_config (self : t) (c : value) : t :=
  {| config := config self; agents := agents self;
     is_initialized := is_initialized self;
     autogen_agents := autogen_agents self; user_proxy := user_proxy self;
     llm_config := Some c |}.

Section Methods.
Variable O : Oracle.

Definition initialize (self : t) : M (t * bool) :=
  if negb (AUTOGEN_AVAILABLE O) then ret (self, false)
  else
    let llm_api_key := default VNone (dict_get (config self) "llm_api_key") in
    let cfg :=
      if py_truthy llm_api_key
      then VDict [("config_list",
                     VList [VDict [("model",
                                      default (VStr "gpt-4-turbo-preview")
                                              (dict_get (config self) "llm_model"));
                                   ("api_key", llm_api_key)]]);
                  ("temperature", VFloat float_0_1)]
      else VDict [("config_list",
                     VList [VDict [("model", VStr "mock");
                                   ("api_key", VStr "mock")]])] in
    (* [self.llm_config] is assigned before the user proxy is built *)
    let self1 := set_llm_config self cfg in
    try_except
      (n <- next_tick ;;
       match autogen_UserProxyAgent_new O n with
       | Some e => raise e
       | None =>
           ret ({| config := config self1; agents := agents self1;
                   is_initialized := true;
                   autogen_agents := autogen_agents self1; user_proxy := true;
                   llm_config := llm_config self1 |}, true)
       end)
      (fun _ => ret (self1, false)).

Definition create_agent (self : t) (agent_type : AgentType) (agent_id : string)
    (tools : option (list string)) (config : option dict)
  : M (t * option assistant) :=
  if negb (AUTOGEN_AVAILABLE O) then ret (self, None)
  else
    let config := default [] config in
    try_except
      (n <- next_tick ;;
       match autogen_AssistantAgent_new O n with
       | Some e => raise e
       | None =>
           let autogen_agent :=
             {| name := str_replace_char "-"%char "_"%char agent_id;
                system_message := system_messages agent_type;
                llm_config_used := default (VBool false) (llm_config self) |} in
           let e := {| e_autogen_agent := autogen_agent; e_type := agent_type;
                       e_config := config |} in
           ret ({| config := AutoGenAdapter.config self;
                   agents := dict_set (agents self) agent_id e;
                   is_initialized := is_initialized self;
                   autogen_agents :=
                     dict_set (autogen_agents self) agent_id autogen_agent;
                   user_proxy := user_proxy self;
                   llm_config := llm_config self |},
                Some autogen_agent)
       end)
      (fun _ => ret (self, None)).

(** The [responses] table; building it draws three identifiers. *)
Definition responses (agent_type : AgentType) : M dict :=
  apt <- uuid4_hex8_upper O ;;
  fb <- uuid4_hex8_upper O ;;
  capa <- uuid4_hex8_upper O ;;
  ret (match agent_type with
       | DATA_ANALYSIS =>
           [("analysis", VStr "Data analysis complete");
            ("patterns_detected", VList [VStr "normal_operation"]);
            ("anomalies", VList [])]
       | DIAGNOSIS =>
           [("diagnosis", VStr "No critical issues found");
            ("recommendations", VList [VStr "Continue regular maintenance"])]
       | CUSTOMER_ENGAGEMENT =>
           [("message",
               VStr "Thank you for using AutoSentry AI. Your vehicle is in good condition.");
            ("channel", VStr "chat")]
       | SCHEDULING =>
           [("appointment_id", VStr ("APT-" ++ apt));
            ("status", VStr "available")]
       | FEEDBACK =>
           [("survey_sent", VBool true);
            ("feedback_id", VStr ("FB-" ++ fb))]
       | RCA_CAPA =>
           [("rca_complete", VBool true);
            ("capa_id", VStr ("CAPA-" ++ capa))]
       | MASTER => [("status", VStr "completed")]
       end).

Definition _fallback_execute (self : t) (agent_id : string) (task : AgentTask)
    (start_time : Q) : M AgentResult :=
  let agent_type :=
    match dict_get (agents self) agent_id with
    | Some e => e_type e
    | None => MASTER
    end in
  out0 <- responses agent_type ;;
  let out1 := dict_set out0 "task_id" (VStr (task_id task)) in
  let out2 := dict_set out1 "framework" (VStr "autogen_fallback") in
  timestamp <- datetime_now_iso O ;;
  let out3 := dict_set out2 "timestamp" (VStr timestamp) in
  execution_time <- elapsed_ms O start_time ;;
  ret (mkResult (task_id task) agent_id true (VDict out3) None execution_time
                (Some [("framework", VStr "autogen_fallback")])).

(** [self.user_proxy.initiate_chat(...)] followed by reading the agent's
    messages with the proxy. *)
Definition initiate_chat : M (list value) :=
  n <- next_tick ;; lift (autogen_initiate_chat O n).

Definition execute_task (self : t) (agent_id : string) (task : AgentTask)
  : M AgentResult :=
  start_time <- time_now O ;;
  match dict_get (agents self) agent_id with
  | None => ret (not_found_result agent_id task)
  | Some agent_data =>
      if negb (AUTOGEN_AVAILABLE O) || negb (user_proxy self)
      then _fallback_execute self agent_id task start_time
      else
        try_except
          (messages <- initiate_chat ;;
           let last_message :=
             List.last messages (VDict [("content", VStr "No response")]) in
           execution_time <- elapsed_ms O start_time ;;
           response <- lift (py_get last_message "content" (VStr "")) ;;
           ret (mkResult (task_id task) agent_id true
                         (VDict [("response", response);
                                 ("message_count",
                                    VInt (Z.of_nat (List.length messages)))])
                         None execution_time
                         (Some [("framework", VStr "autogen")])))
          (fun e => _fallback_execute self agent_id task start_time)
  end.

Definition task_type_mapping : list (string * AgentType) :=
  [("analyze", DATA_ANALYSIS); ("diagnose", DIAGNOSIS);
   ("engage", CUSTOMER_ENGAGEMENT); ("schedule", SCHEDULING);
   ("feedback", FEEDBACK); ("rca_capa", RCA_CAPA)].

Definition _select_agent_for_task (self : t) (task : AgentTask) : option string :=
  let by_type :=
    match dict_get task_type_mapping (task_type task) with
    | Some target_type =>
        first_key (fun e => AgentType_eqb (e_type e) target_type) (agents self)
    | None => None
    end in
  match by_type with
  | Some agent_id => Some agent_id
  | None => head (dict_keys (agents self))
  end.

Definition _fallback_orchestrate (self : t) (tasks : list AgentTask)
    (workflow_config : option WorkflowConfig) : M (list AgentResult) :=
  for_each (sorted_by_priority tasks)
    (fun task results =>
       let agent_id := default "default" (head (dict_keys (agents self))) in
       start_time <- time_now O ;;
       result <- _fallback_execute self agent_id task start_time ;;
       ret (results ++ [result])%list)
    [].

Definition no_agent_result (task : AgentTask) : AgentResult :=
  mkResult (task_id task) "none" false (VDict [])
           (Some "No suitable agent found") 0 None.

Definition orchestrate_workflow (self : t) (tasks : list AgentTask)
    (workflow_config : option WorkflowConfig) : M (list AgentResult) :=
  if negb (AUTOGEN_AVAILABLE O)
     || match autogen_agents self with [] => true | _ => false end
  then _fallback_orchestrate self tasks workflow_config
  else
    for_each (sorted_by_priority tasks)
      (fun task results =>
         match _select_agent_for_task self task with
         | Some agent_id =>
             if String.eqb agent_id "" then ret (results ++ [no_agent_result task])%list
             else
               result <- execute_task self agent_id task ;;
               ret (results ++ [result])%list
         | None => ret (results ++ [no_agent_result task])%list
         end)
      [].

Definition shutdown (self : t) : t :=
  {| config := config self; agents := []; is_initialized := false;
     autogen_agents := autogen_agents self; user_proxy := user_proxy self;
     llm_config := llm_config self |}.
End Methods.
End AutoGenAdapter.

(** ** The adapter interface ([BaseAgentAdapter]) and its four variants *)

Class BaseAgentAdapter (T : Type) : Type := {
  adapter_initialize : Oracle -> T -> M (T * bool);
  adapter_create_agent :
    Oracle -> T -> AgentType -> string -> option (list string) -> option dict -> M T;
  adapter_execute_task : Oracle -> T -> string -> AgentTask -> M (T * AgentResult);
  adapter_orchestrate_workflow :
    Oracle -> T -> list AgentTask -> option WorkflowConfig -> M (T * list AgentResult);
  adapter_list_agents : T -> list string;
  adapter_shutdown : T -> T
}.

(** A method that leaves the adapter object as it is. *)
Definition keep {T A} (self : T) (m : M A) : M (T * A) :=
  a <- m ;; ret (self, a).

#[global] Instance Builtin_adapter : BaseAgentAdapter BuiltinAdapter.t := {
  adapter_initialize O self := BuiltinAdapter.initialize self;
  adapter_create_agent O self ty id tools cfg :=
    r <- BuiltinAdapter.create_agent self ty id tools cfg ;; ret (fst r);
  adapter_execute_task := BuiltinAdapter.execute_task;
  adapter_orchestrate_workflow := BuiltinAdapter.orchestrate_workflow;
  adapter_list_agents self := dict_keys (BuiltinAdapter.agents self);
  adapter_shutdown := BuiltinAdapter.shutdown
}.

#[global] Instance LangGraph_adapter : BaseAgentAdapter LangGraphAdapter.t := {
  adapter_initialize := LangGraphAdapter.initialize;
  adapter_create_agent O self ty id tools cfg :=
    r <- LangGraphAdapter.create_agent O self ty id tools cfg ;; ret (fst r);
  adapter_execute_task O self id task :=
    keep self (LangGraphAdapter.execute_task O self id task);
  adapter_orchestrate_workflow O self tasks cfg :=
    keep self (LangGraphAdapter.orchestrate_workflow O self tasks cfg);
  adapter_list_agents self := dict_keys (LangGraphAdapter.agents self);
  adapter_shutdown := LangGraphAdapter.shutdown
}.

#[global] Instance CrewAI_adapter : BaseAgentAdapter CrewAIAdapter.t := {
  adapter_initialize := CrewAIAdapter.initialize;
  adapter_create_agent O self ty id tools cfg :=
    r <- CrewAIAdapter.create_agent O self ty id tools cfg ;; ret (fst r);
  adapter_execute_task O self id task :=
    keep self (CrewAIAdapter.execute_task O self id task);
  adapter_orchestrate_workflow O self tasks cfg :=
    keep self (CrewAIAdapter.orchestrate_workflow O self tasks cfg);
  adapter_list_agents self := dict_keys (CrewAIAdapter.agents self);
  adapter_shutdown := CrewAIAdapter.shutdown
}.

#[global] Instance AutoGen_adapter : BaseAgentAdapter AutoGenAdapter.t := {
  adapter_initialize := AutoGenAdapter.initialize;
  adapter_create_agent O self ty id tools cfg :=
    r <- AutoGenAdapter.create_agent O self ty id tools cfg ;; ret (fst r);
  adapter_execute_task O self id task :=
    keep self (AutoGenAdapter.execute_task O self id task);
  adapter_orchestrate_workflow O self tasks cfg :=
    keep self (AutoGenAdapter.orchestrate_workflow O self tasks cfg);
  adapter_list_agents self := dict_keys (AutoGenAdapter.agents self);
  adapter_shutdown := AutoGenAdapter.shutdown
}.

(** An adapter object of any of the four classes. *)
Inductive Adapter : Type :=
| Builtin (a : BuiltinAdapter.t)
| LangGraph (a : LangGraphAdapter.t)
| CrewAI (a : CrewAIAdapter.t)
| AutoGen (a : AutoGenAdapter.t).

(** Method calls on an adapter object dispatch on its class. *)
Definition with_class {A} (a : Adapter)
    (f : forall T, BaseAgentAdapter T -> (T -> Adapter) -> T -> A) : A :=
  match a with
  | Builtin x => f _ Builtin_adapter Builtin x
  | LangGraph x => f _ LangGraph_adapter LangGraph x
  | CrewAI x => f _ CrewAI_adapter CrewAI x
  | AutoGen x => f _ AutoGen_adapter AutoGen x
  end.

Definition Adapter_initialize (O : Oracle) (a : Adapter) : M (Adapter * bool) :=
  with_class a (fun T _ inj x =>
    r <- adapter_initialize O x ;; ret (inj (fst r), snd r)).

Definition Adapter_create_agent (O : Oracle) (a : Adapter) (ty : AgentType)
    (id : string) : M Adapter :=
  with_class a (fun T _ inj x =>
    r <- adapter_create_agent O x ty id None None ;; ret (inj r)).

Definition Adapter_execute_task (O : Oracle) (a : Adapter) (id : string)
    (task : AgentTask) : M (Adapter * AgentResult) :=
  with_class a (fun T _ inj x =>
    r <- adapter_execute_task O x id task ;; ret (inj (fst r), snd r)).

Definition Adapter_orchestrate_workflow (O : Oracle) (a : Adapter)
    (tasks : list AgentTask) (cfg : option WorkflowConfig)
  : M (Adapter * list AgentResult) :=
  with_class a (fun T _ inj x =>
    r <- adapter_orchestrate_workflow O x tasks cfg ;; ret (inj (fst r), snd r)).

Definition Adapter_list_agents (a : Adapter) : list string :=
  with_class a (fun T _ _ x => adapter_list_agents x).

Definition Adapter_shutdown (a : Adapter) : Adapter :=
  with_class a (fun T _ inj x => inj (adapter_shutdown x)).

(** ** master_agent.py *)

Module MasterAgent.

Record t : Type := {
  config : dict;
  agent_id : string;
  adapter : option Adapter;
  worker_agents : list (string * string);    (* agent type -> agent id *)
  ml_service_url : string;
  ueba_service_url : string;
  backend_url : string
}.

Definition set_adapter (self : t) (a : option Adapter) : t :=
  {| config := config self; agent_id := agent_id self; adapter := a;
     worker_agents := worker_agents self; ml_service_url := ml_service_url self;
     ueba_service_url := ueba_service_url self; backend_url := backend_url self |}.

Definition set_worker_agents (self : t) (ws : list (string * string)) : t :=
  {| config := config self; agent_id := agent_id self; adapter := adapter self;
     worker_agents := ws; ml_service_url := ml_service_url self;
     ueba_service_url := ueba_service_url self; backend_url := backend_url self |}.

(** Methods run over the object and the world. *)
Abbreviation MA := (ST (t * World)).

Definition world {A} (m : M A) : MA A :=
  fun s => let r := m (snd s) in (fst r, (fst s, snd r)).
Definition get_self : MA t := fun s => (Ok (fst s), s).
Definition put_self (self : t) : MA unit := fun s => (Ok tt, (self, snd s)).

(** [self.adapter.<method>(...)]: the call may replace the adapter's state. *)
Definition on_adapter {A} (method : string) (f : Adapter -> M (Adapter * A)) : MA A :=
  self <- get_self ;;
  match adapter self with
  | None => raise (AttributeError VNone method)
  | Some a =>
      r <- world (f a) ;;
      self' <- get_self ;;
      put_self (set_adapter self' (Some (fst r))) ;;;
      ret (snd r)
  end.

Definition worker_configs : list (AgentType * string) :=
  [(DATA_ANALYSIS, "data-analysis-001");
   (DIAGNOSIS, "diagnosis-001");
   (CUSTOMER_ENGAGEMENT, "customer-engagement-001");
   (SCHEDULING, "scheduling-001");
   (FEEDBACK, "feedback-001");
   (RCA_CAPA, "rca-capa-001")].

Definition customer_of (vehicle_id : string) : value :=
  VDict [("id", VStr ("CUST-" ++ vehicle_id));
         ("name", VStr "Valued Customer");
         ("email", VStr "customer@example.com");
         ("phone", VStr "+1-555-0100")].

Definition stage_entry (r : AgentResult) : value :=
  VDict [("success", VBool (success r)); ("output", output r)].

Section Methods.
Variable O : Oracle.

Definition __init__ (config : option dict) : t :=
  {| config := default [] config;
     agent_id := "master-001";
     adapter := None;
     worker_agents := [];
     ml_service_url := default "http://localhost:5000" (getenv O "ML_SERVICE_URL");
     ueba_service_url := default "http://localhost:5001" (getenv O "UEBA_SERVICE_URL");
     backend_url := default "http://localhost:4000" (getenv O "BACKEND_URL") |}.

Definition _create_worker_agents : MA unit :=
  for_each worker_configs
    (fun tc _ =>
       on_adapter "create_agent"
         (fun a => a' <- Adapter_create_agent O a (fst tc) (snd tc) ;; ret (a', tt)) ;;;
       self <- get_self ;;
       put_self (set_worker_agents self
                   (dict_set (worker_agents self) (AgentType_value (fst tc)) (snd tc))))
    tt.

Definition initialize : MA bool :=
  let framework := text_lower O (default "builtin" (getenv O "AGENT_FRAMEWORK")) in
  self <- get_self ;;
  let cfg := Some (config self) in
  let a :=
    if String.eqb framework "langgraph" then LangGraph (LangGraphAdapter.__init__ cfg)
    else if String.eqb framework "crewai" then CrewAI (CrewAIAdapter.__init__ cfg)
    else if String.eqb framework "autogen" then AutoGen (AutoGenAdapter.__init__ cfg)
    else Builtin (BuiltinAdapter.__init__ cfg) in
  put_self (set_adapter self (Some a)) ;;;
  ok <- on_adapter "initialize" (Adapter_initialize O) ;;
  if negb ok then ret false
  else _create_worker_agents ;;; ret true.

(** [await self.http_client.post(url, json=body)] *)
Definition post (url : string) (body : value) : MA HttpResponse :=
  n <- world next_tick ;;
  world (log_request url body) ;;;
  lift (http_post O n url body).

Definition _report_to_ueba (action_data : value) : MA value :=
  try_except
    (self <- get_self ;;
     response <- post (ueba_service_url self ++ "/score")
                      (VDict [("agent_action", action_data)]) ;;
     if status_code response =? 200 then lift (json_body response)
     else ret (VDict [("alert", VBool false); ("score", VInt 0)]))
    (fun e =>
       ret (VDict [("alert", VBool false); ("score", VInt 0);
                   ("error", VStr (exn_str e))])).

Definition _get_ml_prediction (telemetry : dict) : MA value :=
  try_except
    (self <- get_self ;;
     response <- post (ml_service_url self ++ "/predict") (VDict telemetry) ;;
     if status_code response =? 200 then lift (json_body response)
     else ret (VDict []))
    (fun e => ret (VDict [("error", VStr (exn_str e))])).

(** [self.adapter.execute_task(self.worker_agents[key], task)] *)
Definition execute_on (key : string) (task : AgentTask) : MA AgentResult :=
  self <- get_self ;;
  match adapter self with
  | None => raise (AttributeError VNone "execute_task")
  | Some _ =>
      match dict_get (worker_agents self) key with
      | None => raise (KeyError_str key)
      | Some worker =>
          on_adapter "execute_task" (fun a => Adapter_execute_task O a worker task)
      end
  end.

Definition _initiate_service_workflow (workflow_id : string) (vehicle_id : value)
    (telemetry : dict) (diagnosis : value) (stages : nat) : MA unit :=
  let vid := py_str O vehicle_id in
  let customer := customer_of vid in
  (* customer engagement *)
  found <- lift (py_get diagnosis "findings" (VList [VStr "Service"])) ;;
  service_type <- lift (py_index0 found) ;;
  engage_input <- world (alloc
    [("appointment", VDict [("service_type", service_type)]);
     ("customer", customer);
     ("diagnosis", diagnosis)]) ;;
  let engage_task :=
    mkTask (workflow_id ++ "-engage") "engage"
           ("Engage customer about vehicle " ++ vid ++ " maintenance")
           engage_input 2 in
  engage_result <- execute_on "customer_engagement" engage_task ;;
  world (setitem stages "engagement" (stage_entry engage_result)) ;;;
  (* scheduling *)
  schedule_input <- world (alloc
    [("diagnosis", diagnosis);
     ("customer", customer);
     ("vehicle_id", vehicle_id)]) ;;
  let schedule_task :=
    mkTask (workflow_id ++ "-schedule") "schedule"
           ("Schedule service appointment for vehicle " ++ vid)
           schedule_input 2 in
  schedule_result <- execute_on "scheduling" schedule_task ;;
  world (setitem stages "scheduling" (stage_entry schedule_result)) ;;;
  (* the scheduling action is reported to UEBA *)
  self <- get_self ;;
  reporter <- match dict_get (worker_agents self) "scheduling" with
              | Some w => ret w
              | None => raise (KeyError_str "scheduling")
              end ;;
  payload_size <- lift (json_dumps_len O (output schedule_result)) ;;
  _report_to_ueba (VDict
    [("agent_id", VStr reporter);
     ("agent_type", VStr "scheduling");
     ("action_type", VStr "schedule");
     ("target_entity", VStr "appointment");
     ("vehicle_id", vehicle_id);
     ("payload_size", VInt payload_size);
     ("response_time_ms", VFloat (execution_time_ms schedule_result));
     ("success", VBool (success schedule_result))]) ;;;
  ret tt.

(** [prediction.get("failure_probability", 0) > 0.3 or
     analysis_output.get("overall_status") == "needs_attention"] *)
Definition needs_diagnosis (prediction analysis_output : value) : res bool :=
  match py_get prediction "failure_probability" (VInt 0) with
  | Raise e => Raise e
  | Ok p =>
      match py_gt p (VFloat float_0_3) with
      | Raise e => Raise e
      | Ok true => Ok true
      | Ok false =>
          match py_get analysis_output "overall_status" VNone with
          | Raise e => Raise e
          | Ok s => Ok (py_eq_str s "needs_attention")
          end
      end
  end.

(** [severity in ["high", "critical", "medium"]] *)
Definition needs_service (severity : value) : bool :=
  existsb (py_eq_str severity) ["high"; "critical"; "medium"].

(** The [try] block of [process_telemetry]; its value is [needs_diagnosis]. *)
Definition run_stages (workflow_id : string) (vehicle_id : value)
    (telemetry : dict) (stages : nat) : MA bool :=
  let vid := py_str O vehicle_id in
  (* stage 1: report to UEBA *)
  self <- get_self ;;
  payload_size <- lift (json_dumps_len O (VDict telemetry)) ;;
  ueba_result <- _report_to_ueba (VDict
    [("agent_id", VStr (agent_id self));
     ("agent_type", VStr "master");
     ("action_type", VStr "query");
     ("target_entity", VStr "telemetry");
     ("vehicle_id", vehicle_id);
     ("payload_size", VInt payload_size);
     ("response_time_ms", VInt 0);
     ("success", VBool true)]) ;;
  world (setitem stages "ueba_check" ueba_result) ;;;
  _ <- lift (py_get ueba_result "alert" VNone) ;;
  (* stage 2: data analysis *)
  analysis_input <- world (alloc [("telemetry", VDict telemetry)]) ;;
  let analysis_task :=
    mkTask (workflow_id ++ "-analysis") "analyze"
           ("Analyze telemetry data for vehicle " ++ vid) analysis_input 1 in
  analysis_result <- execute_on "data_analysis" analysis_task ;;
  world (setitem stages "analysis" (stage_entry analysis_result)) ;;;
  (* stage 3: ML prediction *)
  prediction <- _get_ml_prediction telemetry ;;
  world (setitem stages "prediction" prediction) ;;;
  (* stage 4: diagnosis, if issues were detected *)
  needed <- lift (needs_diagnosis prediction (output analysis_result)) ;;
  (if needed : bool then
     diagnosis_input <- world (alloc
       [("analysis", output analysis_result); ("prediction", prediction)]) ;;
     let diagnosis_task :=
       mkTask (workflow_id ++ "-diagnosis") "diagnose"
              ("Diagnose issues for vehicle " ++ vid) diagnosis_input 1 in
     diagnosis_result <- execute_on "diagnosis" diagnosis_task ;;
     world (setitem stages "diagnosis" (stage_entry diagnosis_result)) ;;;
     (* stage 5: schedule service if needed *)
     severity <- lift (py_get (output diagnosis_result) "severity" (VStr "low")) ;;
     if needs_service severity
     then _initiate_service_workflow workflow_id vehicle_id telemetry
            (output diagnosis_result) stages
     else ret tt
   else ret tt) ;;;
  ret needed.

Definition process_telemetry (telemetry : dict) : MA value :=
  let vehicle_id := default (VStr "unknown") (dict_get telemetry "vehicle_id") in
  u <- world (uuid4_hex8_upper O) ;;
  let workflow_id := "WF-" ++ u in
  timestamp <- world (datetime_now_iso O) ;;
  stages <- world (alloc []) ;;
  tail <- try_except
            (needed <- run_stages workflow_id vehicle_id telemetry stages ;;
             ret [("status", VStr "completed");
                  ("requires_action", VBool needed)])
            (fun e =>
               ret [("status", VStr "failed");
                    ("error", VStr (exn_str e))]) ;;
  recorded <- world (deref stages) ;;
  ret (VDict ([("workflow_id", VStr workflow_id);
               ("vehicle_id", vehicle_id);
               ("timestamp", VStr timestamp);
               ("stages", VDict recorded)] ++ tail)%list).

Definition generate_rca_capa (vehicle_id : value) (diagnosis : value)
    (feedback : option dict) : MA value :=
  let vid := py_str O vehicle_id in
  u <- world (uuid4_hex8_upper O) ;;
  input <- world (alloc
    [("diagnosis", diagnosis);
     ("vehicle_data", VDict [("vehicle_id", vehicle_id)]);
     ("feedback", VDict (default [] feedback))]) ;;
  let task :=
    mkTask ("RCA-" ++ u) "rca_capa"
           ("Generate RCA/CAPA for vehicle " ++ vid) input 3 in
  result <- execute_on "rca_capa" task ;;
  (* the action is reported to UEBA *)
  self <- get_self ;;
  reporter <- match dict_get (worker_agents self) "rca_capa" with
              | Some w => ret w
              | None => raise (KeyError_str "rca_capa")
              end ;;
  payload_size <- lift (json_dumps_len O (output result)) ;;
  _report_to_ueba (VDict
    [("agent_id", VStr reporter);
     ("agent_type", VStr "rca_capa");
     ("action_type", VStr "generate");
     ("target_entity", VStr "capa_report");
     ("vehicle_id", vehicle_id);
     ("payload_size", VInt payload_size);
     ("response_time_ms", VFloat (execution_time_ms result));
     ("success", VBool (success result))]) ;;;
  ret (VDict [("success", VBool (success result));
              ("rca_capa", output result)]).

Definition collect_feedback (appointment_id customer_id : value) : MA value :=
  u <- world (uuid4_hex8_upper O) ;;
  input <- world (alloc
    [("appointment_id", appointment_id);
     ("customer_id", customer_id)]) ;;
  let task :=
    mkTask ("FB-" ++ u) "feedback"
           ("Collect feedback for appointment " ++ py_str O appointment_id)
           input 4 in
  result <- execute_on "feedback" task ;;
  ret (VDict [("success", VBool (success result));
              ("feedback", output result)]).
End Methods.
End MasterAgent.

(** * Properties *)

(** ** Sorting by priority *)

Definition by_priority (a b : AgentTask) : Prop := priority a <= priority b.

Lemma insert_by_priority_perm x l :
  Permutation (insert_by_priority x l) (x :: l).
Proof.
  induction l as [|y r IH]; simpl.
  - apply Permutation_refl.
  - destruct (priority x <=? priority y).
    + apply Permutation_refl.
    + apply Permutation_trans with (y :: x :: r).
      * apply perm_skip, IH.
      * apply perm_swap.
Qed.

Lemma sorted_by_priority_perm tasks :
  Permutation (sorted_by_priority tasks) tasks.
Proof.
  induction tasks as [|x r IH]; simpl.
  - apply Permutation_refl.
  - eapply Permutation_trans; [apply insert_by_priority_perm|].
    apply perm_skip, IH.
Qed.

Lemma sorted_by_priority_length tasks :
  List.length (sorted_by_priority tasks) = List.length tasks.
Proof. apply Permutation_length, sorted_by_priority_perm. Qed.

Lemma insert_by_priority_sorted x l :
  Sorted by_priority l -> Sorted by_priority (insert_by_priority x l).
Proof.
  induction l as [|y r IH]; simpl; intros Hs.
  - repeat constructor.
  - destruct (Z.leb_spec (priority x) (priority y)) as [Hle|Hgt].
    + constructor; [exact Hs|]. constructor. exact Hle.
    + inversion Hs as [|? ? Hr Hhd]; subst.
      constructor; [apply IH, Hr|].
      destruct r as [|z r']; simpl.
      * constructor. unfold by_priority. lia.
      * destruct (priority x <=? priority z).
        -- constructor. unfold by_priority. lia.
        -- inversion Hhd; subst. constructor. assumption.
Qed.

Lemma sorted_by_priority_sorted tasks :
  Sorted by_priority (sorted_by_priority tasks).
Proof.
  induction tasks as [|x r IH]; simpl.
  - constructor.
  - apply insert_by_priority_sorted, IH.
Qed.




(** A list that is already in ascending order is left as it is. *)
Lemma insert_by_priority_head x l :
  Sorted by_priority (x :: l) -> insert_by_priority x l = x :: l.
Proof.
  intros Hs. destruct l as [|y r]; simpl; [reflexivity|].
  inversion Hs as [|? ? _ Hhd]; subst. inversion Hhd; subst.
  unfold by_priority in *.
  destruct (Z.leb_spec (priority x) (priority y)); [reflexivity|lia].
Qed.

Lemma sorted_by_priority_id tasks :
  Sorted by_priority tasks -> sorted_by_priority tasks = tasks.
Proof.
  induction tasks as [|x r IH]; simpl; intros Hs; [reflexivity|].
  rewrite IH by (inversion Hs; assumption).
  now apply insert_by_priority_head.
Qed.

(** ** Reasoning about computations *)

(** Only the count of external calls differs between two worlds. *)
Definition ticks_only (w w' : World) : Prop :=
  next_loc w' = next_loc w /\ heap w' = heap w /\ sent w' = sent w.

Lemma ticks_only_refl w : ticks_only w w.
Proof. repeat split. Qed.

Lemma ticks_only_trans w1 w2 w3 :
  ticks_only w1 w2 -> ticks_only w2 w3 -> ticks_only w1 w3.
Proof. unfold ticks_only. intuition congruence. Qed.

(** Every run of the computation takes a state to one related by [R]. *)
Definition evolves {S A} (R : S -> S -> Prop) (m : ST S A) : Prop :=
  forall s, R s (snd (m s)).

(** A computation that reads the environment but leaves the object store
    and the network alone. *)
Abbreviation frame := (evolves ticks_only).

(** A computation whose exceptions all carry a message. *)
Definition loud {A} (m : M A) : Prop :=
  forall w e w', m w = (Raise e, w') -> exn_str e <> "".

Definition loud_res {A} (r : res A) : Prop :=
  forall e, r = Raise e -> exn_str e <> "".

#[global] Instance ticks_only_preorder : PreOrder ticks_only.
Proof.
  split; [intros w; apply ticks_only_refl|].
  intros a b c; apply ticks_only_trans.
Qed.

Section Evolution.
Context {S A B : Type} (R : S -> S -> Prop) `{!PreOrder R}.

Lemma evolves_ret (a : A) : evolves R (ret a).
Proof. intros s. simpl. reflexivity. Qed.

Lemma evolves_lift (r : res A) : evolves R (lift r).
Proof. intros s. simpl. reflexivity. Qed.

Lemma evolves_raise e : evolves R (@raise S A e).
Proof. intros s. simpl. reflexivity. Qed.

Lemma evolves_bind (m : ST S A) (k : A -> ST S B) :
  evolves R m -> (forall a, evolves R (k a)) -> evolves R (bind m k).
Proof.
  intros Hm Hk s. unfold bind. specialize (Hm s).
  destruct (m s) as [[a|e] s1]; simpl in *.
  - etransitivity; [exact Hm|apply Hk].
  - exact Hm.
Qed.

Lemma evolves_try (m : ST S A) (h : exn -> ST S A) :
  evolves R m -> (forall e, evolves R (h e)) -> evolves R (try_except m h).
Proof.
  intros Hm Hh s. unfold try_except. specialize (Hm s).
  destruct (m s) as [[a|e] s1]; simpl in *.
  - exact Hm.
  - etransitivity; [exact Hm|apply Hh].
Qed.
End Evolution.

Lemma evolves_for_each {S A B} (R : S -> S -> Prop) `{!PreOrder R}
    (l : list A) (body : A -> B -> ST S B) :
  (forall x b, In x l -> evolves R (body x b)) ->
  forall b, evolves R (for_each l body b).
Proof.
  induction l as [|x r IH]; intros Hb b; simpl.
  - apply (evolves_ret R).
  - apply (evolves_bind R); [apply Hb; now left|].
    intros b'. apply IH. intros y c Hy. apply Hb. now right.
Qed.

Lemma evolves_weaken {S A} (R R' : S -> S -> Prop) (m : ST S A) :
  (forall s s', R s s' -> R' s s') -> evolves R m -> evolves R' m.
Proof. intros HR Hm s. apply HR, Hm. Qed.

Section Rules.
Context {A B : Type}.

Lemma loud_ret (a : A) : loud (@ret World A a).
Proof. intros w e w' H. discriminate H. Qed.

Lemma loud_lift (r : res A) : loud_res r -> loud (@lift World A r).
Proof. intros Hr w e w' H. inversion H; subst. now apply Hr. Qed.

Lemma loud_bind (m : M A) (k : A -> M B) :
  loud m -> (forall a, loud (k a)) -> loud (bind m k).
Proof.
  intros Hm Hk w e w' H. unfold bind in H.
  destruct (m w) as [[a|e1] w1] eqn:E.
  - eapply Hk, H.
  - inversion H; subst. eapply Hm, E.
Qed.
End Rules.

Lemma frame_next_tick : frame next_tick.
Proof. intros w. repeat split. Qed.

Lemma frame_deref l : frame (deref l).
Proof. intros w. apply ticks_only_refl. Qed.

Lemma loud_next_tick : loud next_tick.
Proof. intros w e w' H. discriminate H. Qed.

Lemma nonempty_app_l (a b : string) : a <> "" -> (a ++ b)%string <> "".
Proof. destruct a; [congruence|discriminate]. Qed.

Lemma loud_py_get v k d : loud_res (py_get v k d).
Proof. intros e H. destruct v; inversion H; subst; discriminate. Qed.

Lemma loud_py_lt v lit : loud_res (py_lt v lit).
Proof.
  intros e H. unfold py_lt in H.
  destruct (num_of v), (num_of lit); inversion H; subst; discriminate.
Qed.

Lemma loud_py_gt v lit : loud_res (py_gt v lit).
Proof.
  intros e H. unfold py_gt in H.
  destruct (num_of v), (num_of lit); inversion H; subst; discriminate.
Qed.

Lemma loud_py_index0 v : loud_res (py_index0 v).
Proof.
  intros e H.
  destruct v as [| | | |s|l|d|c]; try (inversion H; subst; discriminate).
  - destruct s; inversion H; subst; discriminate.
  - destruct l; inversion H; subst; discriminate.
Qed.

Lemma loud_py_title O v : loud_res (py_title O v).
Proof. intros e H. destruct v; inversion H; subst; discriminate. Qed.

Lemma loud_py_lower O v : loud_res (py_lower O v).
Proof. intros e H. destruct v; inversion H; subst; discriminate. Qed.

Create HintDb py discriminated.
#[global] Hint Resolve frame_next_tick frame_deref
  loud_ret loud_next_tick loud_lift loud_py_get loud_py_lt loud_py_gt
  loud_py_index0 loud_py_title loud_py_lower : py.

(** Walks through a computation built from [bind], [ret], [lift] and
    conditionals. *)
Ltac step_evolves :=
  repeat match goal with
    | |- evolves _ next_tick => apply frame_next_tick
    | |- evolves _ (deref _) => apply frame_deref
    | |- evolves ?R (ret _) => apply (evolves_ret R)
    | |- evolves ?R (lift _) => apply (evolves_lift R)
    | |- evolves ?R (raise _) => apply (evolves_raise R)
    | |- evolves ?R (bind _ _) => apply (evolves_bind R); [|intro]
    | |- evolves ?R (try_except _ _) => apply (evolves_try R); [|intro]
    | |- evolves _ (if ?b then _ else _) => destruct b
    | |- evolves _ (match ?x with _ => _ end) => destruct x
    end.

Ltac step_loud :=
  repeat first
    [ apply loud_ret | apply loud_next_tick
    | apply loud_lift; auto with py
    | apply loud_bind; [|intro]
    | match goal with
      | |- loud (if ?b then _ else _) => destruct b
      | |- loud (match ?x with _ => _ end) => destruct x
      end ].

(** ** The built-in agent *)

Section BuiltinAgentFacts.
Variable O : Oracle.

Lemma frame_run_handler ty data : frame (BuiltinAgent.run_handler O ty data).
Proof.
  unfold BuiltinAgent.run_handler.
  repeat match goal with
         | |- evolves _ (if ?b then _ else _) => destruct b
         end;
    unfold BuiltinAgent._analyze, BuiltinAgent._diagnose, BuiltinAgent._predict,
      BuiltinAgent._schedule, BuiltinAgent._engage, BuiltinAgent._feedback,
      BuiltinAgent._rca_capa, BuiltinAgent._generic_task, BuiltinAgent.first_or,
      uuid4_hex8_upper, uuid4_hex8, datetime_now_iso;
    step_evolves.
Qed.

Lemma loud_run_handler ty data : loud (BuiltinAgent.run_handler O ty data).
Proof.
  unfold BuiltinAgent.run_handler.
  repeat match goal with
         | |- loud (if ?b then _ else _) => destruct b
         end;
    unfold BuiltinAgent._analyze, BuiltinAgent._diagnose, BuiltinAgent._predict,
      BuiltinAgent._schedule, BuiltinAgent._engage, BuiltinAgent._feedback,
      BuiltinAgent._rca_capa, BuiltinAgent._generic_task, BuiltinAgent.first_or,
      uuid4_hex8_upper, uuid4_hex8, datetime_now_iso;
    step_loud.
Qed.
End BuiltinAgentFacts.

(** Totality and postconditions, for any state type. *)
Definition total {S A} (m : ST S A) : Prop :=
  forall s, exists a s', m s = (Ok a, s').

Definition ensures {S A} (m : ST S A) (P : A -> Prop) : Prop :=
  forall s a s', m s = (Ok a, s') -> P a.

Section MoreRules.
Context {S A B : Type}.

Lemma total_ret (a : A) : total (@ret S A a).
Proof. intros s. now exists a, s. Qed.

Lemma total_bind (m : ST S A) (k : A -> ST S B) :
  total m -> (forall a, total (k a)) -> total (bind m k).
Proof.
  intros Hm Hk s. unfold bind.
  destruct (Hm s) as (a & s1 & ->). apply Hk.
Qed.

Lemma total_try (m : ST S A) (h : exn -> ST S A) :
  (forall e, total (h e)) -> total (try_except m h).
Proof.
  intros Hh s. unfold try_except.
  destruct (m s) as [[a|e] s1]; [now exists a, s1|apply Hh].
Qed.

Lemma ensures_ret (a : A) (P : A -> Prop) : P a -> ensures (@ret S A a) P.
Proof. intros Ha s a' s' H. inversion H; subst. exact Ha. Qed.

Lemma ensures_raise e (P : A -> Prop) : ensures (@raise S A e) P.
Proof. intros s a' s' H. discriminate H. Qed.

Lemma ensures_bind (m : ST S A) (k : A -> ST S B) (P : B -> Prop) :
  (forall a, ensures (k a) P) -> ensures (bind m k) P.
Proof.
  intros Hk s b s' H. unfold bind in H.
  destruct (m s) as [[a|e] s1]; [eapply Hk, H|discriminate H].
Qed.

Lemma ensures_bind_with (m : ST S A) (k : A -> ST S B)
    (P : A -> Prop) (Q : B -> Prop) :
  ensures m P -> (forall a, P a -> ensures (k a) Q) -> ensures (bind m k) Q.
Proof.
  intros Hm Hk s b s' H. unfold bind in H.
  destruct (m s) as [[a|e] s1] eqn:E; [|discriminate H].
  eapply Hk; [eapply Hm, E|exact H].
Qed.

Lemma ensures_try (m : ST S A) (h : exn -> ST S A) (P : A -> Prop) :
  ensures m P -> (forall e, ensures (h e) P) -> ensures (try_except m h) P.
Proof.
  intros Hm Hh s a s' H. unfold try_except in H.
  destruct (m s) as [[a1|e] s1] eqn:E.
  - inversion H; subst. eapply Hm, E.
  - eapply Hh, H.
Qed.

Lemma ensures_weaken (m : ST S A) (P Q : A -> Prop) :
  ensures m P -> (forall a, P a -> Q a) -> ensures m Q.
Proof. intros Hm HPQ s a s' H. eapply HPQ, Hm, H. Qed.
End MoreRules.

Lemma total_next_tick : total next_tick.
Proof. intros w. eexists _, _. reflexivity. Qed.

Lemma total_deref l : total (deref l).
Proof. intros w. eexists _, _. reflexivity. Qed.

Ltac step_total :=
  repeat first
    [ apply total_ret | apply total_next_tick | apply total_deref
    | apply total_try; intro
    | apply total_bind; [|intro]
    | match goal with
      | |- total (if ?b then _ else _) => destruct b
      | |- total (match ?x with _ => _ end) => destruct x
      end ].

Ltac step_ensures :=
  repeat first
    [ apply ensures_raise
    | apply ensures_bind; intro
    | apply ensures_try; [|intro]
    | match goal with
      | |- ensures (if ?b then _ else _) _ => destruct b
      | |- ensures (match ?x with _ => _ end) _ => destruct x
      end ].

(** Loops that append one result per element. *)
Lemma total_for_each {W A S} (l : list A) (body : A -> S -> ST W S) :
  (forall x s, total (body x s)) -> forall s, total (for_each l body s).
Proof.
  intros Hb. induction l as [|x r IH]; intros s; simpl.
  - apply total_ret.
  - apply total_bind; [apply Hb|apply IH].
Qed.

Lemma ensures_for_each {W A S} (l : list A) (body : A -> S -> ST W S)
    (I : list A -> S -> Prop) :
  (forall x done s, I done s -> ensures (body x s) (I (done ++ [x])%list)) ->
  forall done s, I done s -> ensures (for_each l body s) (I (done ++ l)%list).
Proof.
  intros Hb. induction l as [|x r IH]; intros done s HI; simpl.
  - rewrite List.app_nil_r. now apply ensures_ret.
  - intros w0 sfin w' H. unfold bind in H.
    destruct (body x s w0) as [[s1|e] w1] eqn:E; [|discriminate].
    pose proof (Hb x done s HI w0 s1 w1 E) as HI'.
    specialize (IH _ _ HI'). rewrite <- List.app_assoc in IH. simpl in IH.
    eapply IH, H.
Qed.

Lemma ensures_lift {S A} (r : res A) (P : A -> Prop) :
  (forall a, r = Ok a -> P a) -> ensures (@lift S A r) P.
Proof. intros Hr s a s' H. inversion H; subst. now apply Hr. Qed.

Lemma ensures_and {S A} (m : ST S A) (P Q : A -> Prop) :
  ensures m P -> ensures m Q -> ensures m (fun a => P a /\ Q a).
Proof. intros HP HQ s a s' H. split; [eapply HP, H|eapply HQ, H]. Qed.

(** A total computation with a postcondition and a state relation has a
    run that satisfies both. *)
Lemma run_spec {S A} (R : S -> S -> Prop) (m : ST S A) (P : A -> Prop) :
  total m -> ensures m P -> evolves R m ->
  forall s, exists a s', m s = (Ok a, s') /\ P a /\ R s s'.
Proof.
  intros Ht He Hr s. destruct (Ht s) as (a & s' & H).
  exists a, s'. split; [exact H|]. split; [eapply He, H|].
  specialize (Hr s). now rewrite H in Hr.
Qed.

Lemma total_time_now O : total (time_now O).
Proof. intros w. eexists _, _. reflexivity. Qed.

Lemma total_elapsed_ms O t : total (elapsed_ms O t).
Proof. intros w. eexists _, _. reflexivity. Qed.

Lemma total_datetime_now_iso O : total (datetime_now_iso O).
Proof. intros w. eexists _, _. reflexivity. Qed.

Lemma total_uuid4_hex8_upper O : total (uuid4_hex8_upper O).
Proof. intros w. eexists _, _. reflexivity. Qed.

Lemma frame_time_now O : frame (time_now O).
Proof. intros w. repeat split. Qed.

Lemma frame_elapsed_ms O t : frame (elapsed_ms O t).
Proof. intros w. repeat split. Qed.

Lemma frame_datetime_now_iso O : frame (datetime_now_iso O).
Proof. intros w. repeat split. Qed.

Lemma frame_uuid4_hex8_upper O : frame (uuid4_hex8_upper O).
Proof. intros w. repeat split. Qed.

(** Stepping through adapter code. *)
Ltac step_total_env :=
  repeat match goal with
    | |- total (time_now _) => apply total_time_now
    | |- total (elapsed_ms _ _) => apply total_elapsed_ms
    | |- total (datetime_now_iso _) => apply total_datetime_now_iso
    | |- total (uuid4_hex8_upper _) => apply total_uuid4_hex8_upper
    | |- total next_tick => apply total_next_tick
    | |- total (deref _) => apply total_deref
    | |- total (ret _) => apply total_ret
    | |- total (try_except _ _) => apply total_try; intro
    | |- total (bind _ _) => apply total_bind; [|intro]
    | |- total (if ?b then _ else _) => destruct b
    | |- total (match ?x with _ => _ end) => destruct x eqn:?
    end.

Ltac step_frame_env :=
  repeat match goal with
    | |- evolves _ (time_now _) => apply frame_time_now
    | |- evolves _ (elapsed_ms _ _) => apply frame_elapsed_ms
    | |- evolves _ (datetime_now_iso _) => apply frame_datetime_now_iso
    | |- evolves _ (uuid4_hex8_upper _) => apply frame_uuid4_hex8_upper
    | |- evolves _ next_tick => apply frame_next_tick
    | |- evolves _ (deref _) => apply frame_deref
    | |- evolves ?R (ret _) => apply (evolves_ret R)
    | |- evolves ?R (lift _) => apply (evolves_lift R)
    | |- evolves ?R (raise _) => apply (evolves_raise R)
    | |- evolves ?R (bind _ _) => apply (evolves_bind R); [|intro]
    | |- evolves ?R (try_except _ _) => apply (evolves_try R); [|intro]
    | |- evolves _ (if ?b then _ else _) => destruct b
    | |- evolves _ (match ?x with _ => _ end) => destruct x eqn:?
    end.

(** ** Dictionaries and the object store *)

Lemma dict_get_set {V} (d : list (string * V)) k k' v :
  dict_get (dict_set d k v) k' = if String.eqb k k' then Some v else dict_get d k'.
Proof.
  induction d as [|[k0 v0] r IH]; simpl.
  - reflexivity.
  - destruct (String.eqb_spec k0 k) as [->|Hne]; simpl.
    + destruct (String.eqb k k'); reflexivity.
    + rewrite IH. destruct (String.eqb_spec k0 k') as [->|Hne']; [|reflexivity].
      destruct (String.eqb_spec k k') as [->|_]; [congruence|reflexivity].
Qed.

Lemma dict_keys_set_present {V} (d : list (string * V)) k v :
  is_Some (dict_get d k) -> dict_keys (dict_set d k v) = dict_keys d.
Proof.
  induction d as [|[k0 v0] r IH]; simpl; intros [x Hx]; [discriminate|].
  destruct (String.eqb_spec k0 k) as [->|Hne]; simpl; [reflexivity|].
  f_equal. apply IH. eauto.
Qed.

Lemma heap_get_insert (h : gmap nat dict) l l' d :
  heap_get (<[l := d]> h) l' = if decide (l = l') then d else heap_get h l'.
Proof.
  unfold heap_get. rewrite lookup_insert. destruct (decide (l = l')); reflexivity.
Qed.

(** ** The built-in agent and adapter *)

Section BuiltinFacts.
Variable O : Oracle.

(** The world in which the handler of [execute] runs. *)
Definition started (w : World) : World := snd (time_now O w).

(** [execute] never raises: a handler's exception becomes a failed
    result carrying the exception's message. *)
Lemma BuiltinAgent_execute_spec self task w :
  exists self' r w',
    BuiltinAgent.execute O self task w = (Ok (self', r), w') /\
    ticks_only w w' /\
    r_task_id r = task_id task /\
    r_agent_id r = BuiltinAgent.agent_id self /\
    metadata r = None /\
    BuiltinAgent.agent_id self' = BuiltinAgent.agent_id self /\
    BuiltinAgent.agent_type self' = BuiltinAgent.agent_type self /\
    match fst (BuiltinAgent.run_handler O (task_type task)
                 (heap_get (heap w) (input_data task)) (started w)) with
    | Ok out => success r = true /\ output r = out /\ error r = None
    | Raise e =>
        success r = false /\ output r = VDict [] /\
        error r = Some (exn_str e) /\ exn_str e <> "" /\ self' = self
    end.
Proof.
  unfold BuiltinAgent.execute, started.
  unfold bind at 1. cbn [time_now bind next_tick ret fst snd].
  unfold try_except, bind at 1. cbn [deref heap fst snd].
  set (w1 := {| tick := S (tick w); next_loc := next_loc w; heap := heap w;
                sent := sent w |}).
  pose proof (frame_run_handler O (task_type task)
                (heap_get (heap w) (input_data task)) w1) as Hf.
  pose proof (loud_run_handler O (task_type task)
                (heap_get (heap w) (input_data task)) w1) as Hl.
  unfold bind at 1.
  destruct (BuiltinAgent.run_handler O (task_type task)
              (heap_get (heap w) (input_data task)) w1) as [[out|e] w2] eqn:E;
    cbn in Hf |- *.
  - eexists _, _, _. split; [reflexivity|]. cbn.
    repeat split; try reflexivity; destruct Hf as (? & ? & ?); assumption.
  - eexists _, _, _. split; [reflexivity|]. cbn.
    repeat split; try reflexivity; try (destruct Hf as (? & ? & ?); assumption).
    eapply Hl; reflexivity.
Qed.

Lemma BuiltinAdapter_execute_task_spec self id task w :
  exists self' r w',
    BuiltinAdapter.execute_task O self id task w = (Ok (self', r), w') /\
    ticks_only w w' /\
    r_task_id r = task_id task /\
    metadata r = None /\
    dict_keys (BuiltinAdapter.agents self') = dict_keys (BuiltinAdapter.agents self) /\
    match dict_get (BuiltinAdapter.agents self) id with
    | None => r = not_found_result id task /\ self' = self
    | Some _ =>
        match fst (BuiltinAgent.run_handler O (task_type task)
                     (heap_get (heap w) (input_data task)) (started w)) with
        | Ok out => success r = true /\ output r = out /\ error r = None
        | Raise e =>
            success r = false /\ output r = VDict [] /\
            error r = Some (exn_str e) /\ exn_str e <> ""
        end
    end.
Proof.
  unfold BuiltinAdapter.execute_task.
  destruct (dict_get (BuiltinAdapter.agents self) id) as [agent|] eqn:E.
  - destruct (BuiltinAgent_execute_spec agent task w)
      as (agent' & r & w' & Hrun & Hw & Hid & _ & Hmeta & _ & _ & Hcase).
    remember (fst (BuiltinAgent.run_handler O (task_type task)
                     (heap_get (heap w) (input_data task)) (started w))) as h.
    unfold bind. rewrite Hrun. cbn.
    eexists _, _, _. split; [reflexivity|].
    split; [exact Hw|]. split; [exact Hid|]. split; [exact Hmeta|].
    split; [apply dict_keys_set_present; rewrite E; eauto|].
    destruct h; intuition.
  - eexists _, _, _. split; [reflexivity|].
    split; [apply ticks_only_refl|]. repeat split; reflexivity.
Qed.

Lemma total_execute_task self id task :
  total (BuiltinAdapter.execute_task O self id task).
Proof.
  intros w. destruct (BuiltinAdapter_execute_task_spec self id task w)
    as (self' & r & w' & H & _). eauto.
Qed.

Lemma ensures_execute_task self id task :
  ensures (BuiltinAdapter.execute_task O self id task)
          (fun sr => r_task_id (snd sr) = task_id task).
Proof.
  intros w [self1 r1] w1 H.
  destruct (BuiltinAdapter_execute_task_spec self id task w)
    as (self' & r & w' & H' & _ & Hid & _).
  rewrite H in H'. inversion H'; subst. exact Hid.
Qed.

Lemma total_setitem l k v : total (setitem l k v).
Proof. intros w. eexists _, _. reflexivity. Qed.

Lemma total_chain_output sorted_tasks task out :
  total (BuiltinAdapter.chain_output sorted_tasks task out).
Proof.
  unfold BuiltinAdapter.chain_output. apply total_for_each.
  intros x []. destruct (negb _); [apply total_setitem|apply total_ret].
Qed.

Lemma total_workflow_step cfg sorted_tasks task st :
  total (BuiltinAdapter.workflow_step O cfg sorted_tasks task st).
Proof.
  unfold BuiltinAdapter.workflow_step.
  repeat match goal with
    | |- total (BuiltinAdapter.execute_task _ _ _ _) => apply total_execute_task
    | |- total (BuiltinAdapter.chain_output _ _ _) => apply total_chain_output
    | |- total (ret _) => apply total_ret
    | |- total (bind _ _) => apply total_bind; [|intro]
    | |- total (if ?b then _ else _) => destruct b
    | |- total (match ?x with _ => _ end) => destruct x eqn:?
    end.
Qed.

(** One iteration appends exactly one result, that of its task. *)
Definition appends_for (task : AgentTask) (results results' : list AgentResult)
  : Prop :=
  exists r, results' = (results ++ [r])%list /\ r_task_id r = task_id task.

Lemma ensures_workflow_step cfg sorted_tasks task st :
  ensures (BuiltinAdapter.workflow_step O cfg sorted_tasks task st)
          (fun st' => appends_for task (snd st) (snd st')).
Proof.
  unfold BuiltinAdapter.workflow_step.
  repeat match goal with
    | |- ensures (ret _) _ =>
        apply ensures_ret; cbn; eexists; split; [reflexivity|]; try reflexivity
    | |- ensures (bind (BuiltinAdapter.execute_task _ _ _ _) _) _ =>
        eapply ensures_bind_with; [apply ensures_execute_task|cbn; intros ? ?]
    | |- ensures (bind _ _) _ => apply ensures_bind; intro
    | |- ensures (if ?b then _ else _) _ => destruct b
    | |- ensures (match ?x with _ => _ end) _ => destruct x eqn:?
    end; assumption.
Qed.

Lemma total_orchestrate_workflow self tasks cfg :
  total (BuiltinAdapter.orchestrate_workflow O self tasks cfg).
Proof.
  unfold BuiltinAdapter.orchestrate_workflow. apply total_for_each.
  intros. apply total_workflow_step.
Qed.

Lemma ensures_orchestrate_workflow self tasks cfg :
  ensures (BuiltinAdapter.orchestrate_workflow O self tasks cfg)
          (fun out => map r_task_id (snd out)
                      = map task_id (sorted_by_priority tasks)).
Proof.
  unfold BuiltinAdapter.orchestrate_workflow.
  apply (ensures_for_each _ _
           (fun done st => map r_task_id (snd st) = map task_id done) )
    with (done := []); [|reflexivity].
  intros x done st Hst.
  eapply ensures_weaken; [apply ensures_workflow_step|].
  intros st' (r & -> & Hid). rewrite !List.map_app, Hst. cbn. now rewrite Hid.
Qed.

(** Output chaining only assigns the [<task type>_result] keys of the
    batch, in the input dictionaries of the batch. *)
Definition chain_keys (tasks : list AgentTask) : list string :=
  map (fun t => task_type t ++ "_result") tasks.

Definition chained (locs : list nat) (keys : list string) (w w' : World) : Prop :=
  next_loc w' = next_loc w /\ sent w' = sent w /\
  forall l k, ~ (In l locs /\ In k keys) ->
    dict_get (heap_get (heap w') l) k = dict_get (heap_get (heap w) l) k.

#[local] Instance chained_preorder locs keys : PreOrder (chained locs keys).
Proof.
  split.
  - intros w. repeat split.
  - intros a b c (H1 & H2 & H3) (H4 & H5 & H6).
    split; [congruence|]. split; [congruence|].
    intros l k Hk. rewrite H6, H3; auto.
Qed.

Lemma ticks_only_chained locs keys w w' :
  ticks_only w w' -> chained locs keys w w'.
Proof.
  intros (H1 & H2 & H3). split; [congruence|]. split; [congruence|].
  intros. now rewrite H2.
Qed.

Lemma chained_setitem locs keys l k v :
  In l locs -> In k keys -> evolves (chained locs keys) (setitem l k v).
Proof.
  intros Hl Hk w. cbn. split; [reflexivity|]. split; [reflexivity|].
  intros l' k' Hk'. cbn.
  rewrite heap_get_insert. destruct (decide (l = l')) as [->|]; [|reflexivity].
  rewrite dict_get_set. destruct (String.eqb_spec k k'); [|reflexivity].
  subst. tauto.
Qed.

Lemma chained_chain_output keys sorted_tasks task out :
  In (task_type task ++ "_result") keys ->
  evolves (chained (map input_data sorted_tasks) keys)
          (BuiltinAdapter.chain_output sorted_tasks task out).
Proof.
  intros Hk. unfold BuiltinAdapter.chain_output.
  apply (evolves_for_each (chained _ keys)). intros x [] Hx.
  destruct (negb _); [|apply (evolves_ret (chained _ keys))].
  apply chained_setitem; [|exact Hk]. now apply in_map.
Qed.

Lemma frame_execute_task self id task :
  frame (BuiltinAdapter.execute_task O self id task).
Proof.
  intros w.
  destruct (BuiltinAdapter_execute_task_spec self id task w)
    as (self' & r & w' & -> & Hw & _). exact Hw.
Qed.

Lemma chained_workflow_step keys cfg sorted_tasks task st :
  In (task_type task ++ "_result") keys ->
  evolves (chained (map input_data sorted_tasks) keys)
          (BuiltinAdapter.workflow_step O cfg sorted_tasks task st).
Proof.
  intros Hk. unfold BuiltinAdapter.workflow_step.
  repeat match goal with
    | |- evolves _ (BuiltinAdapter.execute_task _ _ _ _) =>
        eapply evolves_weaken; [apply ticks_only_chained|apply frame_execute_task]
    | |- evolves _ (BuiltinAdapter.chain_output _ _ _) =>
        now apply chained_chain_output
    | |- evolves ?R (ret _) => apply (evolves_ret R)
    | |- evolves ?R (bind _ _) => apply (evolves_bind R); [|intro]
    | |- evolves _ (if ?b then _ else _) => destruct b
    | |- evolves _ (match ?x with _ => _ end) => destruct x eqn:?
    end.
Qed.

Lemma chained_perm locs locs' keys keys' w w' :
  (forall l, In l locs -> In l locs') -> (forall k, In k keys -> In k keys') ->
  chained locs keys w w' -> chained locs' keys' w w'.
Proof.
  intros Hl Hk (H1 & H2 & H3). split; [exact H1|]. split; [exact H2|].
  intros l k Hn. apply H3. intros [? ?]. apply Hn. auto.
Qed.

Lemma chained_orchestrate_workflow self tasks cfg :
  evolves (chained (map input_data tasks) (chain_keys tasks))
          (BuiltinAdapter.orchestrate_workflow O self tasks cfg).
Proof.
  unfold BuiltinAdapter.orchestrate_workflow.
  set (sorted_tasks := sorted_by_priority tasks).
  assert (Hp : Permutation sorted_tasks tasks) by apply sorted_by_priority_perm.
  eapply evolves_weaken.
  - intros s s'.
    apply (chained_perm (map input_data sorted_tasks) _ (chain_keys sorted_tasks)).
    + intros l. apply Permutation_in, Permutation_map, Hp.
    + intros k. apply Permutation_in. unfold chain_keys.
      apply Permutation_map, Hp.
  - apply (evolves_for_each (chained _ _)). intros x st Hx.
    apply chained_workflow_step. unfold chain_keys.
    now apply (in_map (fun t => task_type t ++ "_result")).
Qed.

(** With [chain_outputs] off nothing is assigned. *)
Lemma frame_orchestrate_workflow_unchained self tasks cfg :
  chain_outputs cfg = false ->
  frame (BuiltinAdapter.orchestrate_workflow O self tasks (Some cfg)).
Proof.
  intros Hc. unfold BuiltinAdapter.orchestrate_workflow.
  change (default default_workflow_config (Some cfg)) with cfg.
  apply (evolves_for_each ticks_only). intros x st _.
  unfold BuiltinAdapter.workflow_step.
  repeat match goal with
    | |- evolves _ (BuiltinAdapter.execute_task _ _ _ _) =>
        apply frame_execute_task
    | |- context [chain_outputs cfg] => rewrite Hc, andb_false_r
    | |- evolves ?R (ret _) => apply (evolves_ret R)
    | |- evolves ?R (bind _ _) => apply (evolves_bind R); [|intro]
    | |- evolves _ (if ?b then _ else _) => destruct b
    | |- evolves _ (match ?x with _ => _ end) => destruct x eqn:?
    end.
Qed.
End BuiltinFacts.

(** ** The three adapters over third-party runtimes *)

(** An output dictionary without a [severity] entry. *)
Definition severity_free (v : value) : Prop :=
  exists d, v = VDict d /\ dict_get d "severity" = None.

Lemma severity_free_empty : severity_free (VDict []).
Proof. now exists []. Qed.

Definition framework_is (name : string) (r : AgentResult) : Prop :=
  metadata r = Some [("framework", VStr name)].

Section LangGraphFacts.
Variable O : Oracle.

Lemma total_LangGraph_execute_task self id task :
  total (LangGraphAdapter.execute_task O self id task).
Proof. unfold LangGraphAdapter.execute_task. step_total_env. Qed.

Lemma frame_LangGraph_invoke g st : frame (LangGraphAdapter.invoke O g st).
Proof.
  unfold LangGraphAdapter.invoke, LangGraphAdapter._analyze_node,
    LangGraphAdapter._diagnose_node, LangGraphAdapter._engage_node,
    LangGraphAdapter._schedule_node, LangGraphAdapter._generic_node.
  step_frame_env.
Qed.

Lemma frame_LangGraph_execute_task self id task :
  frame (LangGraphAdapter.execute_task O self id task).
Proof.
  unfold LangGraphAdapter.execute_task.
  repeat match goal with
    | |- evolves _ (LangGraphAdapter.invoke _ _ _) => apply frame_LangGraph_invoke
    | _ => progress step_frame_env
    end.
Qed.

(** What a node leaves in [output_data]. *)
Definition node_state (v : value) : Prop :=
  exists d out, v = VDict d /\ dict_get d "output_data" = Some out /\
                dict_get d "status" = Some (VStr "completed") /\
                severity_free out.

Lemma completed_node_state state out :
  severity_free out -> node_state (LangGraphAdapter.completed state out).
Proof.
  intros Hout. unfold LangGraphAdapter.completed.
  eexists _, out. split; [reflexivity|].
  rewrite !dict_get_set. cbn. auto.
Qed.

Lemma ensures_LangGraph_invoke g st :
  ensures (LangGraphAdapter.invoke O g st) node_state.
Proof.
  unfold LangGraphAdapter.invoke, LangGraphAdapter._analyze_node,
    LangGraphAdapter._diagnose_node, LangGraphAdapter._engage_node,
    LangGraphAdapter._schedule_node, LangGraphAdapter._generic_node.
  repeat match goal with
    | |- ensures (ret _) _ =>
        apply ensures_ret, completed_node_state; eexists; split; reflexivity
    | |- ensures (raise _) _ => apply ensures_raise
    | |- ensures (bind _ _) _ => apply ensures_bind; intro
    | |- ensures (match ?x with _ => _ end) _ => destruct x
    end.
Qed.

Lemma ensures_LangGraph_execute_task self id task :
  ensures (LangGraphAdapter.execute_task O self id task)
    (fun r => r_task_id r = task_id task /\ severity_free (output r) /\
              (metadata r = None \/ framework_is "langgraph" r)).
Proof.
  unfold LangGraphAdapter.execute_task.
  apply ensures_bind; intros start_time.
  destruct (dict_get _ id) as [agent|].
  2:{ apply ensures_ret. cbn. auto using severity_free_empty. }
  apply ensures_try.
  - apply ensures_bind; intros data.
    eapply ensures_bind_with; [apply ensures_LangGraph_invoke|].
    intros rs (d & out & -> & Hout & Hst & Hfree).
    apply ensures_bind; intros t.
    apply ensures_bind; intros status.
    eapply ensures_bind_with.
    { apply ensures_lift with (P := fun v => v = out).
      cbn. rewrite Hout. cbn. congruence. }
    intros ? ->.
    apply ensures_bind; intros err.
    apply ensures_ret. cbn. unfold framework_is. cbn. auto.
  - intros e. apply ensures_bind; intros t.
    apply ensures_ret. cbn. auto using severity_free_empty.
Qed.

(** The orchestration loop. *)
Lemma total_LangGraph_orchestrate_workflow self tasks cfg :
  total (LangGraphAdapter.orchestrate_workflow O self tasks cfg).
Proof.
  unfold LangGraphAdapter.orchestrate_workflow. apply total_for_each.
  intros task results.
  repeat match goal with
    | |- total (LangGraphAdapter.execute_task _ _ _ _) =>
        apply total_LangGraph_execute_task
    | _ => progress step_total_env
    end.
Qed.

Lemma frame_LangGraph_orchestrate_workflow self tasks cfg :
  frame (LangGraphAdapter.orchestrate_workflow O self tasks cfg).
Proof.
  unfold LangGraphAdapter.orchestrate_workflow.
  apply (evolves_for_each ticks_only). intros task results _.
  repeat match goal with
    | |- evolves _ (LangGraphAdapter.execute_task _ _ _ _) =>
        apply frame_LangGraph_execute_task
    | _ => progress step_frame_env
    end.
Qed.

Lemma ensures_LangGraph_orchestrate_workflow self tasks cfg :
  ensures (LangGraphAdapter.orchestrate_workflow O self tasks cfg)
          (fun results => map r_task_id results
                          = map task_id (sorted_by_priority tasks)).
Proof.
  unfold LangGraphAdapter.orchestrate_workflow.
  apply (ensures_for_each _ _
           (fun done results => map r_task_id results = map task_id done))
    with (done := []); [|reflexivity].
  intros task done results Hdone.
  assert (Hret : forall r, r_task_id r = task_id task ->
            ensures (@ret World _ (results ++ [r])%list)
              (fun results' => map r_task_id results'
                               = map task_id (done ++ [task])%list)).
  { intros r Hr. apply ensures_ret. rewrite !List.map_app, Hdone. cbn.
    now rewrite Hr. }
  destruct (LangGraphAdapter._find_agent_for_task self task) as [agent_id|];
    [|now apply Hret].
  destruct (String.eqb agent_id ""); [now apply Hret|].
  eapply ensures_bind_with; [apply ensures_LangGraph_execute_task|].
  intros r (Hr & _). now apply Hret.
Qed.
End LangGraphFacts.

Ltac step_ensures_ret tac :=
  repeat match goal with
    | |- ensures (ret _) _ => apply ensures_ret; tac
    | |- ensures (raise _) _ => apply ensures_raise
    | |- ensures (try_except _ _) _ => apply ensures_try; [|intro]
    | |- ensures (bind _ _) _ => apply ensures_bind; intro
    | |- ensures (if ?b then _ else _) _ => destruct b eqn:?
    | |- ensures (match ?x with _ => _ end) _ => destruct x eqn:?
    end.

Section CrewAIFacts.
Variable O : Oracle.

Definition crewai_fallback_result (task : AgentTask) (r : AgentResult) : Prop :=
  r_task_id r = task_id task /\ success r = true /\ error r = None /\
  severity_free (output r) /\ framework_is "crewai_fallback" r.

Lemma total_CrewAI_fallback_execute self id task t :
  total (CrewAIAdapter._fallback_execute O self id task t).
Proof. unfold CrewAIAdapter._fallback_execute. step_total_env. Qed.

Lemma frame_CrewAI_fallback_execute self id task t :
  frame (CrewAIAdapter._fallback_execute O self id task t).
Proof. unfold CrewAIAdapter._fallback_execute. step_frame_env. Qed.

Lemma ensures_CrewAI_fallback_execute self id task t :
  ensures (CrewAIAdapter._fallback_execute O self id task t)
          (crewai_fallback_result task).
Proof.
  unfold CrewAIAdapter._fallback_execute.
  step_ensures_ret ltac:(repeat split; eexists; split; reflexivity).
Qed.

Lemma total_CrewAI_execute_task self id task :
  total (CrewAIAdapter.execute_task O self id task).
Proof.
  unfold CrewAIAdapter.execute_task.
  repeat match goal with
    | |- total (CrewAIAdapter._fallback_execute _ _ _ _ _) =>
        apply total_CrewAI_fallback_execute
    | _ => progress step_total_env
    end.
Qed.

Lemma frame_CrewAI_execute_task self id task :
  frame (CrewAIAdapter.execute_task O self id task).
Proof.
  unfold CrewAIAdapter.execute_task, CrewAIAdapter.new_task_and_crew,
    CrewAIAdapter.kickoff.
  repeat match goal with
    | |- evolves _ (CrewAIAdapter._fallback_execute _ _ _ _ _) =>
        apply frame_CrewAI_fallback_execute
    | _ => progress step_frame_env
    end.
Qed.

(** A registered worker always yields a successful result: the crew's, or
    the fallback one. *)
Lemma ensures_CrewAI_execute_task self id task :
  ensures (CrewAIAdapter.execute_task O self id task)
    (fun r => r_task_id r = task_id task /\ severity_free (output r) /\
              match dict_get (CrewAIAdapter.agents self) id with
              | None => r = not_found_result id task
              | Some _ =>
                  success r = true /\ error r = None /\
                  (framework_is "crewai_fallback" r \/
                   (CREWAI_AVAILABLE O = true /\ framework_is "crewai" r))
              end).
Proof.
  unfold CrewAIAdapter.execute_task.
  apply ensures_bind; intros start_time.
  destruct (dict_get _ id) as [agent|].
  2:{ apply ensures_ret. cbn. auto using severity_free_empty. }
  assert (Hfb : forall t,
    ensures (CrewAIAdapter._fallback_execute O self id task t)
      (fun r => r_task_id r = task_id task /\ severity_free (output r) /\
                success r = true /\ error r = None /\
                (framework_is "crewai_fallback" r \/
                 (CREWAI_AVAILABLE O = true /\ framework_is "crewai" r)))).
  { intros t. eapply ensures_weaken; [apply ensures_CrewAI_fallback_execute|].
    intros r (? & ? & ? & ? & ?). auto 10. }
  destruct (CREWAI_AVAILABLE O) eqn:Hav; cbn [negb]; [|apply Hfb].
  apply ensures_try.
  - apply ensures_bind; intros _.
    apply ensures_bind; intros result.
    apply ensures_bind; intros t.
    apply ensures_ret. cbn.
    split; [reflexivity|]. split; [eexists; split; reflexivity|].
    unfold framework_is. cbn. auto.
  - intros e. apply ensures_bind; intros _. apply Hfb.
Qed.




(** Orchestration: the fallback loop and the crew loops. *)
Lemma total_CrewAI_fallback_orchestrate self tasks cfg :
  total (CrewAIAdapter._fallback_orchestrate O self tasks cfg).
Proof.
  unfold CrewAIAdapter._fallback_orchestrate. apply total_for_each.
  intros task results.
  repeat match goal with
    | |- total (CrewAIAdapter._fallback_execute _ _ _ _ _) =>
        apply total_CrewAI_fallback_execute
    | _ => progress step_total_env
    end.
Qed.

Lemma frame_CrewAI_fallback_orchestrate self tasks cfg :
  frame (CrewAIAdapter._fallback_orchestrate O self tasks cfg).
Proof.
  unfold CrewAIAdapter._fallback_orchestrate.
  apply (evolves_for_each ticks_only). intros task results _.
  repeat match goal with
    | |- evolves _ (CrewAIAdapter._fallback_execute _ _ _ _ _) =>
        apply frame_CrewAI_fallback_execute
    | _ => progress step_frame_env
    end.
Qed.

(** Every result of the fallback loop is a fallback result of its task. *)
Lemma ensures_CrewAI_fallback_orchestrate self tasks cfg :
  ensures (CrewAIAdapter._fallback_orchestrate O self tasks cfg)
          (fun results =>
             Forall2 crewai_fallback_result (sorted_by_priority tasks) results).
Proof.
  unfold CrewAIAdapter._fallback_orchestrate.
  apply (ensures_for_each _ _
           (fun done results => Forall2 crewai_fallback_result done results))
    with (done := []); [|constructor].
  intros task done results Hdone.
  apply ensures_bind; intros t.
  eapply ensures_bind_with; [apply ensures_CrewAI_fallback_execute|].
  intros r Hr. apply ensures_ret.
  apply Forall2_app; [exact Hdone|].
  constructor; [exact Hr|constructor].
Qed.

Lemma Forall2_task_ids {P : AgentTask -> AgentResult -> Prop} ts rs :
  (forall t r, P t r -> r_task_id r = task_id t) ->
  Forall2 P ts rs -> map r_task_id rs = map task_id ts.
Proof.
  intros HP H. induction H as [|t r ts rs Htr _ IH]; cbn; [reflexivity|].
  now rewrite IH, (HP _ _ Htr).
Qed.

Lemma total_CrewAI_orchestrate_workflow self tasks cfg :
  total (CrewAIAdapter.orchestrate_workflow O self tasks cfg).
Proof.
  unfold CrewAIAdapter.orchestrate_workflow.
  destruct (_ || _); [apply total_CrewAI_fallback_orchestrate|].
  apply total_try. intros _. apply total_CrewAI_fallback_orchestrate.
Qed.

Lemma frame_CrewAI_orchestrate_workflow self tasks cfg :
  frame (CrewAIAdapter.orchestrate_workflow O self tasks cfg).
Proof.
  unfold CrewAIAdapter.orchestrate_workflow.
  destruct (_ || _); [apply frame_CrewAI_fallback_orchestrate|].
  apply (evolves_try ticks_only); [|intros _; apply frame_CrewAI_fallback_orchestrate].
  apply (evolves_bind ticks_only).
  - unfold CrewAIAdapter.build_crewai_tasks.
    apply (evolves_for_each ticks_only). intros task acc _.
    unfold CrewAIAdapter.new_task_and_crew. step_frame_env.
  - intros crewai_tasks. unfold CrewAIAdapter.run_crewai_tasks.
    apply (evolves_for_each ticks_only). intros ta results _.
    unfold CrewAIAdapter.new_task_and_crew, CrewAIAdapter.kickoff.
    step_frame_env.
Qed.

Lemma ensures_CrewAI_orchestrate_workflow self tasks cfg :
  ensures (CrewAIAdapter.orchestrate_workflow O self tasks cfg)
          (fun results => map r_task_id results
                          = map task_id (sorted_by_priority tasks)).
Proof.
  assert (Hfb : ensures (CrewAIAdapter._fallback_orchestrate O self tasks cfg)
                  (fun results => map r_task_id results
                                  = map task_id (sorted_by_priority tasks))).
  { eapply ensures_weaken; [apply ensures_CrewAI_fallback_orchestrate|].
    intros results. apply Forall2_task_ids. now intros t r (? & _). }
  unfold CrewAIAdapter.orchestrate_workflow.
  destruct (_ || _); [exact Hfb|].
  apply ensures_try; [|intros _; exact Hfb].
  eapply ensures_bind_with with
    (P := fun acc => map fst acc = sorted_by_priority tasks).
  - unfold CrewAIAdapter.build_crewai_tasks.
    eapply ensures_weaken.
    + apply (ensures_for_each _ _ (fun done acc => map fst acc = done))
        with (done := []); [|reflexivity].
      intros task done acc Hacc.
      apply ensures_bind; intros _. apply ensures_ret.
      rewrite List.map_app, Hacc. reflexivity.
    + cbn. auto.
  - intros crewai_tasks <-. unfold CrewAIAdapter.run_crewai_tasks.
    eapply ensures_weaken.
    + apply (ensures_for_each _ _
               (fun done results =>
                  map r_task_id results = map task_id (map fst done)))
        with (done := []); [|reflexivity].
      intros [task agent] done results Hres. cbn [fst snd].
      apply ensures_bind; intros t. apply ensures_bind; intros _.
      eapply ensures_bind_with with (P := fun r => r_task_id r = task_id task).
      * step_ensures_ret ltac:(reflexivity).
      * intros r Hr. apply ensures_ret.
        rewrite !List.map_app, Hres. cbn. now rewrite Hr.
    + cbn. auto.
Qed.
End CrewAIFacts.

Section AutoGenFacts.
Variable O : Oracle.

Definition autogen_fallback_result (task : AgentTask) (r : AgentResult) : Prop :=
  r_task_id r = task_id task /\ success r = true /\ error r = None /\
  severity_free (output r) /\ framework_is "autogen_fallback" r.

Lemma total_AutoGen_responses ty : total (AutoGenAdapter.responses O ty).
Proof. unfold AutoGenAdapter.responses. step_total_env. Qed.

Lemma frame_AutoGen_responses ty : frame (AutoGenAdapter.responses O ty).
Proof. unfold AutoGenAdapter.responses. step_frame_env. Qed.

Lemma ensures_AutoGen_responses ty :
  ensures (AutoGenAdapter.responses O ty)
          (fun d => dict_get d "severity" = None).
Proof.
  unfold AutoGenAdapter.responses.
  repeat (apply ensures_bind; intro).
  apply ensures_ret. destruct ty; reflexivity.
Qed.

Lemma total_AutoGen_fallback_execute self id task t :
  total (AutoGenAdapter._fallback_execute O self id task t).
Proof.
  unfold AutoGenAdapter._fallback_execute.
  repeat match goal with
    | |- total (AutoGenAdapter.responses _ _) => apply total_AutoGen_responses
    | |- total (bind _ _) => apply total_bind; [|intro]
    | |- total (ret _) => apply total_ret
    | |- total (datetime_now_iso _) => apply total_datetime_now_iso
    | |- total (elapsed_ms _ _) => apply total_elapsed_ms
    end.
Qed.

Lemma frame_AutoGen_fallback_execute self id task t :
  frame (AutoGenAdapter._fallback_execute O self id task t).
Proof.
  unfold AutoGenAdapter._fallback_execute.
  repeat match goal with
    | |- evolves _ (AutoGenAdapter.responses _ _) => apply frame_AutoGen_responses
    | |- evolves ?R (bind _ _) => apply (evolves_bind R); [|intro]
    | |- evolves ?R (ret _) => apply (evolves_ret R)
    | |- evolves _ (datetime_now_iso _) => apply frame_datetime_now_iso
    | |- evolves _ (elapsed_ms _ _) => apply frame_elapsed_ms
    end.
Qed.

Lemma ensures_AutoGen_fallback_execute self id task t :
  ensures (AutoGenAdapter._fallback_execute O self id task t)
          (autogen_fallback_result task).
Proof.
  unfold AutoGenAdapter._fallback_execute.
  eapply ensures_bind_with; [apply ensures_AutoGen_responses|].
  intros out0 Hout. apply ensures_bind; intros timestamp.
  apply ensures_bind; intros ms. apply ensures_ret.
  repeat split. eexists. split; [reflexivity|].
  rewrite !dict_get_set. cbn. exact Hout.
Qed.

Lemma total_AutoGen_execute_task self id task :
  total (AutoGenAdapter.execute_task O self id task).
Proof.
  unfold AutoGenAdapter.execute_task.
  repeat match goal with
    | |- total (AutoGenAdapter._fallback_execute _ _ _ _ _) =>
        apply total_AutoGen_fallback_execute
    | _ => progress step_total_env
    end.
Qed.

Lemma frame_AutoGen_execute_task self id task :
  frame (AutoGenAdapter.execute_task O self id task).
Proof.
  unfold AutoGenAdapter.execute_task, AutoGenAdapter.initiate_chat.
  repeat match goal with
    | |- evolves _ (AutoGenAdapter._fallback_execute _ _ _ _ _) =>
        apply frame_AutoGen_fallback_execute
    | _ => progress step_frame_env
    end.
Qed.

Lemma ensures_AutoGen_execute_task self id task :
  ensures (AutoGenAdapter.execute_task O self id task)
    (fun r => r_task_id r = task_id task /\ severity_free (output r) /\
              match dict_get (AutoGenAdapter.agents self) id with
              | None => r = not_found_result id task
              | Some _ =>
                  success r = true /\ error r = None /\
                  (framework_is "autogen_fallback" r \/
                   (AUTOGEN_AVAILABLE O = true /\ framework_is "autogen" r))
              end).
Proof.
  unfold AutoGenAdapter.execute_task.
  apply ensures_bind; intros start_time.
  destruct (dict_get _ id) as [agent|].
  2:{ apply ensures_ret. cbn. auto using severity_free_empty. }
  assert (Hfb : forall t,
    ensures (AutoGenAdapter._fallback_execute O self id task t)
      (fun r => r_task_id r = task_id task /\ severity_free (output r) /\
                success r = true /\ error r = None /\
                (framework_is "autogen_fallback" r \/
                 (AUTOGEN_AVAILABLE O = true /\ framework_is "autogen" r)))).
  { intros t. eapply ensures_weaken; [apply ensures_AutoGen_fallback_execute|].
    intros r (? & ? & ? & ? & ?). auto 10. }
  destruct (AUTOGEN_AVAILABLE O) eqn:Hav; cbn [negb orb]; [|apply Hfb].
  destruct (AutoGenAdapter.user_proxy self); cbn [negb]; [|apply Hfb].
  apply ensures_try; [|intros e; apply Hfb].
  apply ensures_bind; intros messages.
  apply ensures_bind; intros t.
  apply ensures_bind; intros response.
  apply ensures_ret. cbn.
  split; [reflexivity|]. split; [eexists; split; reflexivity|].
  unfold framework_is. cbn. auto.
Qed.

Lemma AutoGen_unavailable_fallback self id task :
  AUTOGEN_AVAILABLE O = false \/ AutoGenAdapter.user_proxy self = false ->
  is_Some (dict_get (AutoGenAdapter.agents self) id) ->
  ensures (AutoGenAdapter.execute_task O self id task)
          (autogen_fallback_result task).
Proof.
  intros Hav [agent Hreg]. unfold AutoGenAdapter.execute_task.
  apply ensures_bind; intros start_time. rewrite Hreg.
  assert (negb (AUTOGEN_AVAILABLE O) || negb (AutoGenAdapter.user_proxy self)
          = true) as ->.
  { destruct Hav as [-> | ->]; [reflexivity|apply orb_true_r]. }
  apply ensures_AutoGen_fallback_execute.
Qed.



Lemma total_AutoGen_fallback_orchestrate self tasks cfg :
  total (AutoGenAdapter._fallback_orchestrate O self tasks cfg).
Proof.
  unfold AutoGenAdapter._fallback_orchestrate. apply total_for_each.
  intros task results.
  repeat match goal with
    | |- total (AutoGenAdapter._fallback_execute _ _ _ _ _) =>
        apply total_AutoGen_fallback_execute
    | _ => progress step_total_env
    end.
Qed.

Lemma frame_AutoGen_fallback_orchestrate self tasks cfg :
  frame (AutoGenAdapter._fallback_orchestrate O self tasks cfg).
Proof.
  unfold AutoGenAdapter._fallback_orchestrate.
  apply (evolves_for_each ticks_only). intros task results _.
  repeat match goal with
    | |- evolves _ (AutoGenAdapter._fallback_execute _ _ _ _ _) =>
        apply frame_AutoGen_fallback_execute
    | _ => progress step_frame_env
    end.
Qed.

Lemma ensures_AutoGen_fallback_orchestrate self tasks cfg :
  ensures (AutoGenAdapter._fallback_orchestrate O self tasks cfg)
          (fun results =>
             Forall2 autogen_fallback_result (sorted_by_priority tasks) results).
Proof.
  unfold AutoGenAdapter._fallback_orchestrate.
  apply (ensures_for_each _ _
           (fun done results => Forall2 autogen_fallback_result done results))
    with (done := []); [|constructor].
  intros task done results Hdone.
  apply ensures_bind; intros t.
  eapply ensures_bind_with; [apply ensures_AutoGen_fallback_execute|].
  intros r Hr. apply ensures_ret.
  apply Forall2_app; [exact Hdone|]. constructor; [exact Hr|constructor].
Qed.

Lemma total_AutoGen_orchestrate_workflow self tasks cfg :
  total (AutoGenAdapter.orchestrate_workflow O self tasks cfg).
Proof.
  unfold AutoGenAdapter.orchestrate_workflow.
  destruct (_ || _); [apply total_AutoGen_fallback_orchestrate|].
  apply total_for_each. intros task results.
  repeat match goal with
    | |- total (AutoGenAdapter.execute_task _ _ _ _) =>
        apply total_AutoGen_execute_task
    | _ => progress step_total_env
    end.
Qed.

Lemma frame_AutoGen_orchestrate_workflow self tasks cfg :
  frame (AutoGenAdapter.orchestrate_workflow O self tasks cfg).
Proof.
  unfold AutoGenAdapter.orchestrate_workflow.
  destruct (_ || _); [apply frame_AutoGen_fallback_orchestrate|].
  apply (evolves_for_each ticks_only). intros task results _.
  repeat match goal with
    | |- evolves _ (AutoGenAdapter.execute_task _ _ _ _) =>
        apply frame_AutoGen_execute_task
    | _ => progress step_frame_env
    end.
Qed.

Lemma ensures_AutoGen_orchestrate_workflow self tasks cfg :
  ensures (AutoGenAdapter.orchestrate_workflow O self tasks cfg)
          (fun results => map r_task_id results
                          = map task_id (sorted_by_priority tasks)).
Proof.
  unfold AutoGenAdapter.orchestrate_workflow.
  destruct (_ || _).
  { eapply ensures_weaken; [apply ensures_AutoGen_fallback_orchestrate|].
    intros results. apply Forall2_task_ids. now intros t r (? & _). }
  apply (ensures_for_each _ _
           (fun done results => map r_task_id results = map task_id done))
    with (done := []); [|reflexivity].
  intros task done results Hdone.
  assert (Hret : forall r, r_task_id r = task_id task ->
            ensures (@ret World _ (results ++ [r])%list)
              (fun results' => map r_task_id results'
                               = map task_id (done ++ [task])%list)).
  { intros r Hr. apply ensures_ret. rewrite !List.map_app, Hdone. cbn.
    now rewrite Hr. }
  destruct (AutoGenAdapter._select_agent_for_task self task) as [agent_id|];
    [|now apply Hret].
  destruct (String.eqb agent_id ""); [now apply Hret|].
  eapply ensures_bind_with; [apply ensures_AutoGen_execute_task|].
  intros r (Hr & _). now apply Hret.
Qed.
End AutoGenFacts.

(** ** The handlers of the built-in agent *)

(** Whether the health indicators [h] mark component [k] with a warning. *)
Definition warns (h : dict) (k : string) : bool :=
  py_eq_str (default VNone (dict_get h k)) "warning".

(** The severity by the last branch taken: the branches are tried in the order
    engine, oil, battery, brakes, and the last one taken decides. *)
Definition severity_branches : list (string * string) :=
  [("engine", "high"); ("oil", "high"); ("battery", "medium"); ("brakes", "high")].

Definition last_branch_severity (h : dict) : string :=
  fold_left (fun sev ks => if warns h (fst ks) then snd ks else sev)
            severity_branches "low".

Definition diagnosis_input_ok (data : dict) (h : dict) : Prop :=
  exists a, default (VDict []) (dict_get data "analysis") = VDict a /\
            default (VDict []) (dict_get a "health_indicators") = VDict h.

Section HandlerFacts.
Variable O : Oracle.

(** The diagnosis of well-formed inputs. *)
Lemma diagnose_severity data h w :
  diagnosis_input_ok data h ->
  exists out w',
    BuiltinAgent._diagnose O data w = (Ok (VDict out), w') /\
    dict_get out "severity" = Some (VStr (last_branch_severity h)) /\
    In (last_branch_severity h) ["low"; "medium"; "high"].
Proof.
  intros (a & Ha & Hh). unfold BuiltinAgent._diagnose.
  rewrite Ha. cbn [py_get lift bind ret uuid4_hex8_upper uuid4_hex8 next_tick
                   fst snd].
  rewrite Hh. cbn [py_get lift bind ret fst snd].
  unfold last_branch_severity, warns. cbn [fold_left severity_branches fst snd].
  destruct (py_eq_str (default VNone (dict_get h "engine")) "warning"),
           (py_eq_str (default VNone (dict_get h "oil")) "warning"),
           (py_eq_str (default VNone (dict_get h "battery")) "warning"),
           (py_eq_str (default VNone (dict_get h "brakes")) "warning");
    cbn; eexists _, _; (split; [reflexivity|]); cbn; auto.
Qed.

(** Shape of any diagnosis that is returned. *)
Definition diagnosis_shape (analysis out : value) : Prop :=
  exists vid code f fs rcs sev acts,
    out = VDict [("vehicle_id", vid); ("diagnosis_code", VStr code);
                 ("findings", VList (VStr f :: fs)); ("root_causes", VList rcs);
                 ("severity", VStr sev); ("recommended_actions", VList acts)] /\
    py_get analysis "vehicle_id" (VStr "unknown") = Ok vid /\
    In sev ["low"; "medium"; "high"].

Lemma ensures_diagnose data :
  ensures (BuiltinAgent._diagnose O data)
          (diagnosis_shape (default (VDict []) (dict_get data "analysis"))).
Proof.
  intros w out w'. unfold BuiltinAgent._diagnose.
  destruct (default (VDict []) (dict_get data "analysis")) as [| | | | | |a|];
    try discriminate.
  cbn [py_get lift bind ret uuid4_hex8_upper uuid4_hex8 next_tick fst snd].
  destruct (default (VDict []) (dict_get a "health_indicators")) as [| | | | | |h|];
    try discriminate.
  cbn [py_get lift bind ret fst snd].
  destruct (py_eq_str (default VNone (dict_get h "engine")) "warning"),
           (py_eq_str (default VNone (dict_get h "oil")) "warning"),
           (py_eq_str (default VNone (dict_get h "battery")) "warning"),
           (py_eq_str (default VNone (dict_get h "brakes")) "warning");
    cbn; intros H; inversion H; subst;
    do 7 eexists; (split; [reflexivity|]); split; try reflexivity; cbn; auto.
Qed.

(** The analysis carries the telemetry's vehicle id. *)
Definition analysis_shape (telemetry out : value) : Prop :=
  exists vid rest,
    out = VDict (("vehicle_id", vid) :: rest) /\
    py_get telemetry "vehicle_id" (VStr "unknown") = Ok vid.

Lemma ensures_analyze data :
  ensures (BuiltinAgent._analyze data)
          (analysis_shape (default (VDict []) (dict_get data "telemetry"))).
Proof.
  intros w out w'. unfold BuiltinAgent._analyze.
  destruct (default (VDict []) (dict_get data "telemetry")) as [| | | | | |t|];
    try discriminate.
  cbn [py_get lift bind ret fst snd].
  repeat match goal with
    | |- context [py_lt ?a ?b] => destruct (py_lt a b); cbn [bind lift fst snd];
                                  try discriminate
    | |- context [py_gt ?a ?b] => destruct (py_gt a b); cbn [bind lift fst snd];
                                  try discriminate
    end.
  intros H. inversion H; subst. eexists _, _. split; reflexivity.
Qed.
End HandlerFacts.

Section ScheduleFacts.
Variable O : Oracle.

(** The appointment made from a built-in diagnosis can be serialised when
    the vehicle id can. *)
Lemma ensures_schedule_json analysis dout name v :
  diagnosis_shape analysis dout ->
  (forall vid, py_get analysis "vehicle_id" (VStr "unknown") = Ok vid ->
               json_bad vid = None) ->
  ensures (BuiltinAgent._schedule O
             [("diagnosis", dout); ("customer", MasterAgent.customer_of name);
              ("vehicle_id", v)])
          (fun out => json_bad out = None).
Proof.
  intros (vid & code & f & fs & rcs & sev & acts & -> & Hvid & _) Hsafe.
  specialize (Hsafe _ Hvid).
  intros w out w'. unfold BuiltinAgent._schedule, bind, lift, ret. cbn.
  repeat match goal with
    | |- context [if str_contains ?a ?b then _ else _] =>
        destruct (str_contains a b); cbn
    end;
    intros H; inversion H; subst; cbn; now rewrite Hsafe.
Qed.
End ScheduleFacts.

(** ** Any adapter *)

Definition same_class (a a' : Adapter) : Prop :=
  match a, a' with
  | Builtin _, Builtin _ | LangGraph _, LangGraph _
  | CrewAI _, CrewAI _ | AutoGen _, AutoGen _ => True
  | _, _ => False
  end.

Lemma same_class_refl a : same_class a a.
Proof. destruct a; exact I. Qed.

Lemma same_class_trans a b c : same_class a b -> same_class b c -> same_class a c.
Proof. destruct a, b, c; cbn; tauto. Qed.

(** What an adapter's result can be: the built-in adapter runs the handler
    of the task type or returns an empty output; the others never produce
    a severity. *)
Definition handled (O : Oracle) (a : Adapter) (task : AgentTask) (w : World)
    (r : AgentResult) : Prop :=
  match a with
  | Builtin _ =>
      output r = VDict [] \/
      exists w1 w2,
        BuiltinAgent.run_handler O (task_type task)
          (heap_get (heap w) (input_data task)) w1 = (Ok (output r), w2)
  | _ => severity_free (output r)
  end.

Lemma Adapter_execute_task_spec O a id task w :
  exists a' r w',
    Adapter_execute_task O a id task w = (Ok (a', r), w') /\
    ticks_only w w' /\ same_class a a' /\
    r_task_id r = task_id task /\ handled O a task w r.
Proof.
  destruct a as [b|l|c|g]; cbn [Adapter_execute_task with_class].
  - destruct (BuiltinAdapter_execute_task_spec O b id task w)
      as (b' & r & w' & Hrun & Hw & Hid & _ & _ & Hcase).
    exists (Builtin b'), r, w'. cbn [adapter_execute_task Builtin_adapter].
    unfold bind. rewrite Hrun. cbn.
    split; [reflexivity|]. split; [exact Hw|]. split; [exact I|].
    split; [exact Hid|].
    destruct (dict_get (BuiltinAdapter.agents b) id).
    + destruct (BuiltinAgent.run_handler O (task_type task)
                  (heap_get (heap w) (input_data task)) (started O w))
        as [[out|e] w2] eqn:E; cbn in Hcase.
      * right. exists (started O w), w2. destruct Hcase as (_ & -> & _). exact E.
      * left. tauto.
    + left. destruct Hcase as [-> _]. reflexivity.
  - destruct (run_spec ticks_only _ _
                (total_LangGraph_execute_task O l id task)
                (ensures_LangGraph_execute_task O l id task)
                (frame_LangGraph_execute_task O l id task) w)
      as (r & w' & Hrun & (Hid & Hfree & _) & Hw).
    exists (LangGraph l), r, w'. cbn [adapter_execute_task LangGraph_adapter].
    unfold keep, bind. rewrite Hrun. cbn. auto.
  - destruct (run_spec ticks_only _ _
                (total_CrewAI_execute_task O c id task)
                (ensures_CrewAI_execute_task O c id task)
                (frame_CrewAI_execute_task O c id task) w)
      as (r & w' & Hrun & (Hid & Hfree & _) & Hw).
    exists (CrewAI c), r, w'. cbn [adapter_execute_task CrewAI_adapter].
    unfold keep, bind. rewrite Hrun. cbn. auto.
  - destruct (run_spec ticks_only _ _
                (total_AutoGen_execute_task O g id task)
                (ensures_AutoGen_execute_task O g id task)
                (frame_AutoGen_execute_task O g id task) w)
      as (r & w' & Hrun & (Hid & Hfree & _) & Hw).
    exists (AutoGen g), r, w'. cbn [adapter_execute_task AutoGen_adapter].
    unfold keep, bind. rewrite Hrun. cbn. auto.
Qed.

(** ** The master agent *)

Lemma bind_ok {S A B} (m : ST S A) (k : A -> ST S B) s a s' :
  m s = (Ok a, s') -> bind m k s = k a s'.
Proof. intros H. unfold bind. now rewrite H. Qed.

Lemma bind_raise {S A B} (m : ST S A) (k : A -> ST S B) s e s' :
  m s = (Raise e, s') -> bind m k s = (Raise e, s').
Proof. intros H. unfold bind. now rewrite H. Qed.

(** Reading the stage dictionary back from the object store. *)
Ltac heap_simpl :=
  repeat (rewrite heap_get_insert;
          first [ rewrite decide_True by (first [reflexivity | lia])
                | rewrite decide_False by lia ]);
  cbn [dict_set String.eqb Ascii.eqb Bool.eqb].

Lemma bind_assoc_run {S A B C} (m : ST S A) (k : A -> ST S B) (k' : B -> ST S C) s :
  bind (bind m k) k' s = bind m (fun a => bind (k a) k') s.
Proof. unfold bind. destruct (m s) as [[a|e] s1]; reflexivity. Qed.

Section MasterFacts.
Variable O : Oracle.

(** The worker roster the workflow dispatches to. *)
Definition roster_keys : list string :=
  ["data_analysis"; "diagnosis"; "customer_engagement"; "scheduling"].

Definition has_roster (m : MasterAgent.t) : Prop :=
  is_Some (MasterAgent.adapter m) /\
  Forall (fun key => is_Some (dict_get (MasterAgent.worker_agents m) key))
         roster_keys.

(** The world once a request has gone out. *)
Definition posted (w : World) (url : string) (body : value) : World :=
  {| tick := S (tick w); next_loc := next_loc w; heap := heap w;
     sent := (sent w ++ [(url, body)])%list |}.

Definition ueba_body (action : value) : value := VDict [("agent_action", action)].

Definition ueba_neutral : dict := [("alert", VBool false); ("score", VInt 0)].

Definition ueba_reply (w : World) (url : string) (body : value) : value :=
  match http_post O (tick w) url body with
  | Ok response =>
      if status_code response =? 200
      then match json_body response with
           | Ok v => v
           | Raise e => VDict (ueba_neutral ++ [("error", VStr (exn_str e))])%list
           end
      else VDict ueba_neutral
  | Raise e => VDict (ueba_neutral ++ [("error", VStr (exn_str e))])%list
  end.

Lemma report_to_ueba_run action m w :
  let url := MasterAgent.ueba_service_url m ++ "/score" in
  MasterAgent._report_to_ueba O action (m, w)
  = (Ok (ueba_reply w url (ueba_body action)), (m, posted w url (ueba_body action))).
Proof.
  cbn zeta. unfold MasterAgent._report_to_ueba, ueba_reply, ueba_body, posted,
    try_except, bind,
    MasterAgent.post, MasterAgent.world, MasterAgent.get_self, lift, ret.
  cbn.
  destruct (http_post O (tick w) _ _) as [response|e]; cbn; [|reflexivity].
  destruct (status_code response =? 200); [|reflexivity].
  destruct (json_body response); reflexivity.
Qed.

Definition ml_reply (w : World) (url : string) (body : value) : value :=
  match http_post O (tick w) url body with
  | Ok response =>
      if status_code response =? 200
      then match json_body response with
           | Ok v => v
           | Raise e => VDict [("error", VStr (exn_str e))]
           end
      else VDict []
  | Raise e => VDict [("error", VStr (exn_str e))]
  end.

Lemma get_ml_prediction_run telemetry m w :
  let url := MasterAgent.ml_service_url m ++ "/predict" in
  MasterAgent._get_ml_prediction O telemetry (m, w)
  = (Ok (ml_reply w url (VDict telemetry)), (m, posted w url (VDict telemetry))).
Proof.
  cbn zeta. unfold MasterAgent._get_ml_prediction, ml_reply, posted,
    try_except, bind,
    MasterAgent.post, MasterAgent.world, MasterAgent.get_self, lift, ret.
  cbn.
  destruct (http_post O (tick w) _ _) as [response|e]; cbn; [|reflexivity].
  destruct (status_code response =? 200); [|reflexivity].
  destruct (json_body response); reflexivity.
Qed.

Lemma execute_on_run key task m w a id :
  MasterAgent.adapter m = Some a ->
  dict_get (MasterAgent.worker_agents m) key = Some id ->
  exists a' r w',
    MasterAgent.execute_on O key task (m, w)
    = (Ok r, (MasterAgent.set_adapter m (Some a'), w')) /\
    ticks_only w w' /\ same_class a a' /\
    r_task_id r = task_id task /\ handled O a task w r.
Proof.
  intros Ha Hk.
  destruct (Adapter_execute_task_spec O a id task w)
    as (a' & r & w' & Hrun & Hrest).
  exists a', r, w'. split; [|exact Hrest].
  unfold MasterAgent.execute_on, MasterAgent.on_adapter, bind,
    MasterAgent.get_self, MasterAgent.world, MasterAgent.put_self, ret.
  cbn [fst snd]. rewrite Ha, Hk. cbn [fst snd]. rewrite Ha. cbn [fst snd].
  rewrite Hrun. reflexivity.
Qed.

Lemma execute_on_missing key task m w a :
  MasterAgent.adapter m = Some a ->
  dict_get (MasterAgent.worker_agents m) key = None ->
  MasterAgent.execute_on O key task (m, w) = (Raise (KeyError_str key), (m, w)).
Proof.
  intros Ha Hk. unfold MasterAgent.execute_on, bind, MasterAgent.get_self.
  cbn [fst snd]. now rewrite Ha, Hk.
Qed.

(** [r] is what the adapter returned for a task of type [kind] whose
    input map is [input], run under the id the roster has for [key]. *)
Definition dispatched (m : MasterAgent.t) (key kind : string) (input : dict)
    (r : AgentResult) : Prop :=
  exists a0 a id task wt a' wt',
    MasterAgent.adapter m = Some a0 /\ same_class a0 a /\
    dict_get (MasterAgent.worker_agents m) key = Some id /\
    task_type task = kind /\
    heap_get (heap wt) (input_data task) = input /\
    Adapter_execute_task O a id task wt = (Ok (a', r), wt').

Lemma execute_on_dispatch key task m w a id :
  MasterAgent.adapter m = Some a ->
  dict_get (MasterAgent.worker_agents m) key = Some id ->
  exists a' r w',
    MasterAgent.execute_on O key task (m, w)
    = (Ok r, (MasterAgent.set_adapter m (Some a'), w')) /\
    ticks_only w w' /\ same_class a a' /\
    r_task_id r = task_id task /\ handled O a task w r /\
    Adapter_execute_task O a id task w = (Ok (a', r), w').
Proof.
  intros Ha Hk.
  destruct (Adapter_execute_task_spec O a id task w)
    as (a' & r & w' & Hrun & Hw & Hc & Hid & Hh).
  exists a', r, w'. split; [|auto 6].
  unfold MasterAgent.execute_on, MasterAgent.on_adapter, bind,
    MasterAgent.get_self, MasterAgent.world, MasterAgent.put_self, ret.
  cbn [fst snd]. rewrite Ha, Hk. cbn [fst snd]. rewrite Ha. cbn [fst snd].
  rewrite Hrun. reflexivity.
Qed.

(** *** What a run of the stages leaves behind *)

Definition base_stages (u : value) (ra : AgentResult) (p : value) : dict :=
  [("ueba_check", u); ("analysis", MasterAgent.stage_entry ra); ("prediction", p)].

(** The request that reports the scheduling action [rs] to UEBA. *)
Definition scheduling_report (url : string) (rs : AgentResult)
    (request : string * value) : Prop :=
  exists action,
    request = (url, ueba_body (VDict action)) /\
    dict_get action "agent_type" = Some (VStr "scheduling") /\
    dict_get action "action_type" = Some (VStr "schedule") /\
    dict_get action "target_entity" = Some (VStr "appointment") /\
    dict_get action "success" = Some (VBool (success rs)).

(** The first three stages of a run on [telemetry] started in [w]: the
    answer [u] of the behaviour service, the result [ra] of the analysis
    task and the answer [p] of the prediction service. *)
Definition reached (m : MasterAgent.t) (w : World) (telemetry : dict)
    (u : value) (ra : AgentResult) (p : value) : Prop :=
  (exists body, u = ueba_reply w (MasterAgent.ueba_service_url m ++ "/score") body) /\
  dispatched m "data_analysis" "analyze" [("telemetry", VDict telemetry)] ra /\
  (exists wp, p = ml_reply wp (MasterAgent.ml_service_url m ++ "/predict")
                           (VDict telemetry)).

(** The diagnosis task is run on the analysis output and the prediction. *)
Definition diagnosed (m : MasterAgent.t) (ra : AgentResult) (p : value)
    (rd : AgentResult) : Prop :=
  dispatched m "diagnosis" "diagnose"
             [("analysis", output ra); ("prediction", p)] rd.

(** The engagement and scheduling tasks are run on the diagnosis output. *)
Definition serviced (m : MasterAgent.t) (telemetry : dict)
    (rd re rs : AgentResult) : Prop :=
  let vehicle_id := default (VStr "unknown") (dict_get telemetry "vehicle_id") in
  let customer := MasterAgent.customer_of (py_str O vehicle_id) in
  (exists service_type,
      dispatched m "customer_engagement" "engage"
                 [("appointment", VDict [("service_type", service_type)]);
                  ("customer", customer); ("diagnosis", output rd)] re) /\
  dispatched m "scheduling" "schedule"
             [("diagnosis", output rd); ("customer", customer);
              ("vehicle_id", vehicle_id)] rs.

(** The ways the [try] block of [process_telemetry] can end for a run on
    [telemetry] started in [w], with the stage dictionary [D] and the
    requests sent during the run. *)
Inductive stages_outcome (m : MasterAgent.t) (w : World) (telemetry : dict)
    (r : res bool) (D : dict) (requests : list (string * value)) : Prop :=
| Failed_early e :
    r = Raise e ->
    (D = [] /\ json_dumps_len O (VDict telemetry) = Raise e) \/
    (exists u body,
        D = [("ueba_check", u)] /\
        u = ueba_reply w (MasterAgent.ueba_service_url m ++ "/score") body /\
        py_get u "alert" VNone = Raise e) ->
    stages_outcome m w telemetry r D requests
| Undecided u ra p e q1 q2 :
    r = Raise e ->
    D = base_stages u ra p ->
    MasterAgent.needs_diagnosis p (output ra) = Raise e ->
    requests = [q1; q2] ->
    reached m w telemetry u ra p ->
    stages_outcome m w telemetry r D requests
| Healthy u ra p q1 q2 :
    r = Ok false ->
    D = base_stages u ra p ->
    MasterAgent.needs_diagnosis p (output ra) = Ok false ->
    requests = [q1; q2] ->
    reached m w telemetry u ra p ->
    stages_outcome m w telemetry r D requests
| Diagnosed u ra p rd sev q1 q2 :
    r = Ok true ->
    D = (base_stages u ra p ++ [("diagnosis", MasterAgent.stage_entry rd)])%list ->
    MasterAgent.needs_diagnosis p (output ra) = Ok true ->
    py_get (output rd) "severity" (VStr "low") = Ok sev ->
    MasterAgent.needs_service sev = false ->
    requests = [q1; q2] ->
    reached m w telemetry u ra p ->
    diagnosed m ra p rd ->
    stages_outcome m w telemetry r D requests
| Serviced u ra p rd sev re rs q1 q2 q3 :
    r = Ok true ->
    D = (base_stages u ra p ++
         [("diagnosis", MasterAgent.stage_entry rd);
          ("engagement", MasterAgent.stage_entry re);
          ("scheduling", MasterAgent.stage_entry rs)])%list ->
    MasterAgent.needs_diagnosis p (output ra) = Ok true ->
    py_get (output rd) "severity" (VStr "low") = Ok sev ->
    MasterAgent.needs_service sev = true ->
    requests = [q1; q2; q3] ->
    scheduling_report (MasterAgent.ueba_service_url m ++ "/score") rs q3 ->
    reached m w telemetry u ra p ->
    diagnosed m ra p rd ->
    serviced m telemetry rd re rs ->
    stages_outcome m w telemetry r D requests.

Lemma json_bad_entry d k v :
  json_bad (VDict d) = None -> dict_get d k = Some v -> json_bad v = None.
Proof.
  cbn. induction d as [|[k0 v0] r IH]; cbn; [discriminate|].
  destruct (json_bad v0) eqn:E; [discriminate|].
  intros Hr. destruct (String.eqb k0 k).
  - intros H. inversion H; subst. exact E.
  - now apply IH.
Qed.

Definition is_builtin (a : Adapter) : Prop :=
  match a with Builtin _ => True | _ => False end.

Lemma same_class_builtin a a' : same_class a a' -> is_builtin a -> is_builtin a'.
Proof. destruct a, a'; cbn; tauto. Qed.

Lemma same_class_builtin_back a a' :
  same_class a a' -> is_builtin a' -> is_builtin a.
Proof. destruct a, a'; cbn; tauto. Qed.

(** The vehicle id in an analysis made by the built-in adapter is the
    telemetry's, hence JSON data when the telemetry is. *)
Lemma analysis_vehicle_id_json a task w ra telemetry :
  handled O a task w ra -> is_builtin a ->
  task_type task = "analyze" ->
  heap_get (heap w) (input_data task) = [("telemetry", VDict telemetry)] ->
  json_bad (VDict telemetry) = None ->
  forall vid, py_get (output ra) "vehicle_id" (VStr "unknown") = Ok vid ->
              json_bad vid = None.
Proof.
  destruct a as [b| | |]; cbn [is_builtin handled]; try tauto.
  intros [Hout|(w1 & w2 & Hrun)] _ Hty Hdata Hjson vid.
  - rewrite Hout. cbn. intros E. now inversion E.
  - rewrite Hty, Hdata in Hrun.
    apply (ensures_analyze [("telemetry", VDict telemetry)]) in Hrun.
    destruct Hrun as (vid0 & rest & -> & Hvid0).
    cbn in Hvid0 |- *. intros E. inversion E; subst. inversion Hvid0; subst.
    destruct (dict_get telemetry "vehicle_id") as [x|] eqn:Ex; cbn.
    + eapply json_bad_entry; [exact Hjson|exact Ex].
    + reflexivity.
Qed.

Lemma diagnosis_output_cases a task w rd :
  handled O a task w rd ->
  task_type task = "diagnose" ->
  severity_free (output rd) \/
  (is_builtin a /\
   diagnosis_shape
     (default (VDict []) (dict_get (heap_get (heap w) (input_data task)) "analysis"))
     (output rd)).
Proof.
  destruct a as [b| | |]; cbn [handled]; auto.
  intros [Hout|(w1 & w2 & Hrun)] Hty.
  - left. rewrite Hout. apply severity_free_empty.
  - right. split; [exact I|]. rewrite Hty in Hrun.
    exact (ensures_diagnose O _ _ _ _ Hrun).
Qed.

Lemma schedule_output_json a task w rs analysis dout name v :
  handled O a task w rs -> is_builtin a ->
  task_type task = "schedule" ->
  heap_get (heap w) (input_data task)
  = [("diagnosis", dout); ("customer", MasterAgent.customer_of name);
     ("vehicle_id", v)] ->
  diagnosis_shape analysis dout ->
  (forall vid, py_get analysis "vehicle_id" (VStr "unknown") = Ok vid ->
               json_bad vid = None) ->
  json_bad (output rs) = None.
Proof.
  destruct a as [b| | |]; cbn [is_builtin handled]; try tauto.
  intros [Hout|(w1 & w2 & Hrun)] _ Hty Hdata Hshape Hsafe.
  - now rewrite Hout.
  - rewrite Hty, Hdata in Hrun.
    exact (ensures_schedule_json O _ _ _ _ Hshape Hsafe _ _ _ Hrun).
Qed.

Lemma severity_free_low v :
  severity_free v -> py_get v "severity" (VStr "low") = Ok (VStr "low").
Proof. intros (d & -> & Hd). cbn. now rewrite Hd. Qed.

Lemma run_stages_outcome wf telemetry stages m w :
  has_roster m ->
  heap_get (heap w) stages = [] ->
  (stages < next_loc w)%nat ->
  let vehicle_id := default (VStr "unknown") (dict_get telemetry "vehicle_id") in
  exists r m' w' requests,
    MasterAgent.run_stages O wf vehicle_id telemetry stages (m, w)
    = (r, (m', w')) /\
    sent w' = (sent w ++ requests)%list /\
    MasterAgent.ueba_service_url m' = MasterAgent.ueba_service_url m /\
    stages_outcome m w telemetry r (heap_get (heap w') stages) requests.
Proof.
  intros [[a Ha] Hroster] Hempty Hfresh vehicle_id.
  unfold roster_keys in Hroster.
  repeat match goal with
    | H : Forall _ (_ :: _) |- _ => inversion H; subst; clear H
    | H : Forall _ [] |- _ => clear H
    end.
  repeat match goal with
    | H : is_Some (dict_get _ _) |- _ => destruct H as [? ?]
    end.
  unfold MasterAgent.run_stages.
  rewrite (bind_ok _ _ (m, w) m (m, w)) by reflexivity.
  (* stage 1 *)
  unfold json_dumps_len at 1.
  destruct (json_bad (VDict telemetry)) as [bad|] eqn:Hjson.
  { eexists _, _, _, []. rewrite (bind_raise _ _ (m, w) _ (m, w)) by reflexivity.
    split; [reflexivity|]. split; [now rewrite List.app_nil_r|].
    split; [reflexivity|].
    eapply Failed_early; [reflexivity|]. left. split; [exact Hempty|].
    unfold json_dumps_len. now rewrite Hjson. }
  rewrite (bind_ok _ _ (m, w) _ (m, w)) by reflexivity.
  erewrite bind_ok by apply report_to_ueba_run.
  set (u := ueba_reply _ _ _).
  set (q1 := ueba_body _).
  unfold MasterAgent.world at 1. 
  erewrite bind_ok by (cbn [setitem posted fst snd heap next_loc tick sent]; reflexivity).
  (* the alert flag is read *)
  destruct (py_get u "alert" VNone) as [alert|e] eqn:Halert.
  2:{ eexists _, _, _, [_].
      rewrite (bind_raise _ _ _ e _) by reflexivity.
      split; [reflexivity|]. split; [reflexivity|]. split; [reflexivity|].
      eapply Failed_early; [reflexivity|]. right. exists u, q1.
      split; [|split; [reflexivity|exact Halert]].
      cbn [heap]. rewrite heap_get_insert. rewrite decide_True by reflexivity.
      now rewrite Hempty. }
  erewrite bind_ok by reflexivity.
  (* stage 2 *)
  unfold MasterAgent.world at 1.
  erewrite bind_ok by (cbn [alloc fst snd heap next_loc tick sent]; reflexivity).
  match goal with
  | |- context [bind (MasterAgent.execute_on O ?k ?t) _ (?mm, ?ww)] =>
      destruct (execute_on_dispatch k t mm ww a x2 Ha H1)
        as (a1 & ra & w2 & Hrun2 & (Hnl2 & Hheap2 & Hsent2) & Hclass1 & _ & Hra & He2);
      assert (Hda : dispatched m "data_analysis" "analyze"
                               [("telemetry", VDict telemetry)] ra)
        by (exists a, a, x2, t, ww, a1, w2;
            split; [exact Ha|]; split; [apply same_class_refl|];
            split; [exact H1|]; split; [reflexivity|]; split; [|exact He2];
            cbn [heap input_data mkTask]; heap_simpl; reflexivity)
  end.
  rewrite (bind_ok _ _ _ _ _ Hrun2). clear Hrun2.
  destruct w2 as [t2 nl2 h2 s2]. cbn [next_loc heap sent] in Hnl2, Hheap2, Hsent2.
  subst nl2 h2 s2. rewrite Hempty in *. cbn [dict_set] in *.
  set (m1 := MasterAgent.set_adapter m (Some a1)).
  unfold MasterAgent.world at 1.
  erewrite bind_ok by (cbn [setitem fst snd heap next_loc tick sent]; reflexivity).
  heap_simpl.
  (* stage 3 *)
  erewrite bind_ok by apply get_ml_prediction_run.
  set (p := ml_reply _ _ _).
  unfold MasterAgent.world at 1.
  erewrite bind_ok
    by (cbn [setitem posted fst snd heap next_loc tick sent]; reflexivity).
  heap_simpl.
  set (q2 := (MasterAgent.ml_service_url m1 ++ "/predict", VDict telemetry)).
  assert (Hreach : reached m w telemetry u ra p).
  { split; [exists q1; reflexivity|]. split; [exact Hda|]. eexists. reflexivity. }
  (* stage 4 *)
  destruct (MasterAgent.needs_diagnosis p (output ra)) as [[|]|e] eqn:Hneed.
  3:{ eexists _, _, _, [_; _].
      rewrite (bind_raise _ _ _ e _) by reflexivity.
      split; [reflexivity|]. split; [cbn [sent]; now rewrite <- List.app_assoc|].
      split; [reflexivity|]. cbn [heap]. heap_simpl.
      eapply Undecided; [reflexivity|reflexivity|exact Hneed|reflexivity|exact Hreach]. }
  2:{ eexists _, _, _, [_; _].
      erewrite bind_ok by reflexivity. cbv iota.
      erewrite bind_ok by reflexivity.
      split; [reflexivity|]. split; [cbn [sent]; now rewrite <- List.app_assoc|].
      split; [reflexivity|]. cbn [heap]. heap_simpl.
      eapply Healthy; [reflexivity|reflexivity|exact Hneed|reflexivity|exact Hreach]. }
  erewrite bind_ok by reflexivity. cbv iota.
  rewrite bind_assoc_run. unfold MasterAgent.world at 1.
  erewrite bind_ok by (cbn [alloc fst snd heap next_loc tick sent]; reflexivity).
  rewrite bind_assoc_run.
  match goal with
  | |- context [bind (MasterAgent.execute_on O ?k ?t) _ (?mm, ?ww)] =>
      destruct (execute_on_dispatch k t mm ww a1 x1 eq_refl H2)
        as (a2 & rd & w3 & Hrun3 & (Hnl3 & Hheap3 & Hsent3) & Hclass2 & _ & Hrd & He3);
      assert (Hdd : diagnosed m ra p rd)
        by (exists a, a1, x1, t, ww, a2, w3;
            split; [exact Ha|]; split; [exact Hclass1|];
            split; [exact H2|]; split; [reflexivity|]; split; [|exact He3];
            cbn [heap input_data mkTask]; heap_simpl; reflexivity)
  end.
  rewrite (bind_ok _ _ _ _ _ Hrun3). clear Hrun3.
  destruct w3 as [t3 nl3 h3 s3]. cbn [next_loc heap sent] in Hnl3, Hheap3, Hsent3.
  subst nl3 h3 s3.
  set (m2 := MasterAgent.set_adapter m1 (Some a2)).
  rewrite bind_assoc_run.
  unfold MasterAgent.world at 1.
  erewrite bind_ok by (cbn [setitem fst snd heap next_loc tick sent]; reflexivity).
  heap_simpl. rewrite bind_assoc_run.
  apply diagnosis_output_cases in Hrd; [|reflexivity].
  cbn [heap input_data mkTask] in Hrd. revert Hrd. heap_simpl.
  cbn [dict_get String.eqb Ascii.eqb Bool.eqb default from_option id].
  intros Hrd.
  destruct Hrd as [Hfree|[Hb1 Hshape]].
  { (* no severity: the service workflow is not entered *)
    eexists _, _, _, [_; _].
    erewrite bind_ok by (rewrite (severity_free_low _ Hfree); reflexivity).
    cbn [MasterAgent.needs_service existsb py_eq_str String.eqb Ascii.eqb
         Bool.eqb orb].
    erewrite bind_ok by reflexivity.
    split; [reflexivity|]. split; [cbn [sent]; now rewrite <- List.app_assoc|].
    split; [reflexivity|]. cbn [heap]. heap_simpl.
    eapply Diagnosed;
      [reflexivity|reflexivity|exact Hneed|exact (severity_free_low _ Hfree)
      |reflexivity|reflexivity|exact Hreach|exact Hdd]. }
  pose proof Hshape as (vid & code & f & fs & rcs & sev & acts & Hout & Hvid & Hsev).
  assert (Hsevget : py_get (output rd) "severity" (VStr "low") = Ok (VStr sev))
    by now rewrite Hout.
  destruct (MasterAgent.needs_service (VStr sev)) eqn:Hserv.
  2:{ eexists _, _, _, [_; _].
      erewrite bind_ok by (rewrite Hsevget; reflexivity).
      rewrite Hserv.
      erewrite bind_ok by reflexivity.
      split; [reflexivity|]. split; [cbn [sent]; now rewrite <- List.app_assoc|].
      split; [reflexivity|]. cbn [heap]. heap_simpl.
      eapply Diagnosed;
        [reflexivity|reflexivity|exact Hneed|exact Hsevget|exact Hserv|reflexivity
        |exact Hreach|exact Hdd]. }
  (* stage 5: the service workflow *)
  erewrite bind_ok by (rewrite Hsevget; reflexivity).
  rewrite Hserv. unfold MasterAgent._initiate_service_workflow.
  rewrite bind_assoc_run.
  erewrite bind_ok by (rewrite Hout; cbn; reflexivity).
  rewrite bind_assoc_run.
  erewrite bind_ok by reflexivity.
  rewrite bind_assoc_run.
  unfold MasterAgent.world at 1.
  erewrite bind_ok by (cbn [alloc fst snd heap next_loc tick sent]; reflexivity).
  rewrite bind_assoc_run.
  match goal with
  | |- context [bind (MasterAgent.execute_on O ?k ?t) _ (?mm, ?ww)] =>
      destruct (execute_on_dispatch k t mm ww a2 x0 eq_refl H0)
        as (a3 & re & w4 & Hrun4 & (Hnl4 & Hheap4 & Hsent4) & Hclass3 & _ & _ & He4);
      assert (Hde : exists service_type,
                 dispatched m "customer_engagement" "engage"
                   [("appointment", VDict [("service_type", service_type)]);
                    ("customer",
                     MasterAgent.customer_of (py_str O vehicle_id));
                    ("diagnosis", output rd)] re)
        by (eexists; exists a, a2, x0, t, ww, a3, w4;
            split; [exact Ha|];
            split; [eapply same_class_trans; eassumption|];
            split; [exact H0|]; split; [reflexivity|]; split; [|exact He4];
            cbn [heap input_data mkTask]; heap_simpl; reflexivity)
  end.
  rewrite (bind_ok _ _ _ _ _ Hrun4). clear Hrun4.
  destruct w4 as [t4 nl4 h4 s4]. cbn [next_loc heap sent] in Hnl4, Hheap4, Hsent4.
  subst nl4 h4 s4.
  set (m3 := MasterAgent.set_adapter m2 (Some a3)).
  rewrite bind_assoc_run.
  unfold MasterAgent.world at 1.
  erewrite bind_ok by (cbn [setitem fst snd heap next_loc tick sent]; reflexivity).
  heap_simpl. rewrite bind_assoc_run.
  unfold MasterAgent.world at 1.
  erewrite bind_ok by (cbn [alloc fst snd heap next_loc tick sent]; reflexivity).
  rewrite bind_assoc_run.
  match goal with
  | |- context [bind (MasterAgent.execute_on O ?k ?t) _ (?mm, ?ww)] =>
      destruct (execute_on_dispatch k t mm ww a3 x eq_refl H)
        as (a4 & rs & w5 & Hrun5 & (Hnl5 & Hheap5 & Hsent5) & Hclass4 & _ & Hrs & He5);
      assert (Hds : dispatched m "scheduling" "schedule"
                      [("diagnosis", output rd);
                       ("customer",
                        MasterAgent.customer_of (py_str O vehicle_id));
                       ("vehicle_id", vehicle_id)] rs)
        by (exists a, a3, x, t, ww, a4, w5;
            split; [exact Ha|];
            split; [eapply same_class_trans;
                    [eapply same_class_trans; eassumption|eassumption]|];
            split; [exact H|]; split; [reflexivity|]; split; [|exact He5];
            cbn [heap input_data mkTask]; heap_simpl; reflexivity)
  end.
  rewrite (bind_ok _ _ _ _ _ Hrun5). clear Hrun5.
  destruct w5 as [t5 nl5 h5 s5]. cbn [next_loc heap sent] in Hnl5, Hheap5, Hsent5.
  subst nl5 h5 s5.
  set (m4 := MasterAgent.set_adapter m3 (Some a4)).
  rewrite bind_assoc_run.
  unfold MasterAgent.world at 1.
  erewrite bind_ok by (cbn [setitem fst snd heap next_loc tick sent]; reflexivity).
  heap_simpl. rewrite bind_assoc_run.
  erewrite bind_ok by reflexivity.
  cbv beta. unfold m4, m3, m2, m1.
  cbn [fst snd MasterAgent.worker_agents MasterAgent.set_adapter].
  rewrite H. rewrite bind_assoc_run.
  erewrite bind_ok by reflexivity. rewrite bind_assoc_run.
  assert (Hjs : json_bad (output rs) = None).
  { eapply schedule_output_json with (analysis := output ra);
      [exact Hrs| |reflexivity| |exact Hshape|].
    - eapply same_class_builtin; [exact Hclass3|].
      eapply same_class_builtin; [exact Hclass2|exact Hb1].
    - cbn [heap input_data mkTask]. heap_simpl. reflexivity.
    - eapply analysis_vehicle_id_json;
        [exact Hra| |reflexivity| |exact Hjson].
      + eapply same_class_builtin_back; [exact Hclass1|exact Hb1].
      + cbn [heap input_data mkTask]. heap_simpl. reflexivity. }
  unfold json_dumps_len at 1. rewrite Hjs.
  erewrite bind_ok by reflexivity. rewrite bind_assoc_run.
  erewrite bind_ok by apply report_to_ueba_run.
  erewrite bind_ok by reflexivity.
  eexists _, _, _, [_; _; _].
  split; [reflexivity|].
  split; [cbn [sent posted]; now rewrite <- !List.app_assoc|].
  split; [reflexivity|]. cbn [heap posted]. heap_simpl.
  eapply Serviced;
    [reflexivity|reflexivity|exact Hneed|exact Hsevget|exact Hserv|reflexivity|
    |exact Hreach|exact Hdd|split; [exact Hde|exact Hds]].
  eexists. split; [reflexivity|]. repeat split; reflexivity.
Qed.

(** *** The summary returned by [process_telemetry] *)

Definition summary_tail (r : res bool) : dict :=
  match r with
  | Ok needed => [("status", VStr "completed"); ("requires_action", VBool needed)]
  | Raise e => [("status", VStr "failed"); ("error", VStr (exn_str e))]
  end.

(** The run identifier, the stage dictionary's address and the world in
    which the stages start. *)
Definition workflow_id_at (w : World) : string :=
  "WF-" ++ str_upper (String.substring 0 8 (uuid4_hex O (tick w))).

Definition stages_world (w : World) : World :=
  {| tick := S (S (tick w)); next_loc := S (next_loc w);
     heap := <[next_loc w := []]> (heap w); sent := sent w |}.

Lemma process_telemetry_run telemetry m w r m' w' :
  let vehicle_id := default (VStr "unknown") (dict_get telemetry "vehicle_id") in
  MasterAgent.run_stages O (workflow_id_at w) vehicle_id telemetry (next_loc w)
    (m, stages_world w) = (r, (m', w')) ->
  MasterAgent.process_telemetry O telemetry (m, w)
  = (Ok (VDict ([("workflow_id", VStr (workflow_id_at w));
                 ("vehicle_id", vehicle_id);
                 ("timestamp", VStr (now_isoformat O (S (tick w))));
                 ("stages", VDict (heap_get (heap w') (next_loc w)))]
                ++ summary_tail r)%list),
     (m', w')).
Proof.
  intros vehicle_id Hrun. unfold MasterAgent.process_telemetry.
  unfold MasterAgent.world at 1.
  erewrite bind_ok by (cbn [uuid4_hex8_upper uuid4_hex8 bind next_tick ret fst snd
                            tick next_loc heap sent]; reflexivity).
  unfold MasterAgent.world at 1.
  erewrite bind_ok by (cbn [datetime_now_iso bind next_tick ret fst snd
                            tick next_loc heap sent]; reflexivity).
  unfold MasterAgent.world at 1.
  erewrite bind_ok by (cbn [alloc fst snd tick next_loc heap sent]; reflexivity).
  unfold try_except, bind at 1. unfold bind at 1.
  fold vehicle_id. unfold workflow_id_at, stages_world in Hrun.
  rewrite Hrun. destruct r as [needed|e]; reflexivity.
Qed.

(** Without a roster the analysis cannot be dispatched. *)
Lemma run_stages_without_roster wf vehicle_id telemetry stages m w a :
  MasterAgent.adapter m = Some a ->
  MasterAgent.worker_agents m = [] ->
  heap_get (heap w) stages = [] ->
  (stages < next_loc w)%nat ->
  exists e w',
    MasterAgent.run_stages O wf vehicle_id telemetry stages (m, w)
    = (Raise e, (m, w')) /\
    dict_get (heap_get (heap w') stages) "analysis" = None.
Proof.
  intros Ha Hw Hempty Hfresh. unfold MasterAgent.run_stages.
  rewrite (bind_ok _ _ (m, w) m (m, w)) by reflexivity.
  unfold json_dumps_len at 1.
  destruct (json_bad (VDict telemetry)) as [bad|] eqn:Hjson.
  { eexists _, _. rewrite (bind_raise _ _ (m, w) _ (m, w)) by reflexivity.
    split; [reflexivity|]. now rewrite Hempty. }
  rewrite (bind_ok _ _ (m, w) _ (m, w)) by reflexivity.
  erewrite bind_ok by apply report_to_ueba_run.
  set (u := ueba_reply _ _ _).
  unfold MasterAgent.world at 1.
  erewrite bind_ok by (cbn [setitem posted fst snd heap next_loc tick sent]; reflexivity).
  destruct (py_get u "alert" VNone) as [alert|e] eqn:Halert.
  2:{ eexists _, _. rewrite (bind_raise _ _ _ e _) by reflexivity.
      split; [reflexivity|]. cbn [heap]. heap_simpl. now rewrite Hempty. }
  erewrite bind_ok by reflexivity.
  unfold MasterAgent.world at 1.
  erewrite bind_ok by (cbn [alloc fst snd heap next_loc tick sent]; reflexivity).
  erewrite bind_raise.
  2:{ apply execute_on_missing with (a := a); [exact Ha|]. now rewrite Hw. }
  eexists _, _. split; [reflexivity|]. cbn [heap]. heap_simpl.
  now rewrite Hempty.
Qed.
End MasterFacts.

(** *** Initialisation of the master agent *)

Lemma bind_ret_true_not_false {S A} (m : ST S A) s s' :
  bind m (fun _ => ret true) s <> (Ok false, s').
Proof. unfold bind. destruct (m s) as [[a|e] s1]; intros H; inversion H. Qed.

(** Initialising an adapter never raises and registers nothing; the
    built-in adapter always reports success. *)
Lemma Adapter_initialize_spec O a w :
  exists a1 ok w1,
    Adapter_initialize O a w = (Ok (a1, ok), w1) /\
    same_class a a1 /\
    Adapter_list_agents a1 = Adapter_list_agents a /\
    (is_builtin a -> ok = true).
Proof.
  destruct a as [b|l|c|g];
    cbn [Adapter_initialize with_class adapter_initialize Builtin_adapter
         LangGraph_adapter CrewAI_adapter AutoGen_adapter is_builtin].
  - eexists _, _, _. split; [reflexivity|]. cbn. auto.
  - unfold LangGraphAdapter.initialize.
    destruct (LANGGRAPH_AVAILABLE O); cbn [negb].
    + unfold try_except, bind.
      destruct (py_truthy _); cbn;
        [destruct (ChatOpenAI_new O (tick w)); cbn|];
        eexists _, _, _; (split; [reflexivity|]); cbn; tauto.
    + eexists _, _, _. split; [reflexivity|]. cbn. tauto.
  - unfold CrewAIAdapter.initialize.
    destruct (CREWAI_AVAILABLE O); cbn [negb];
      eexists _, _, _; (split; [reflexivity|]); cbn; tauto.
  - unfold AutoGenAdapter.initialize.
    destruct (AUTOGEN_AVAILABLE O); cbn [negb].
    + unfold try_except, bind. cbn.
      destruct (autogen_UserProxyAgent_new O (tick w)); cbn;
        eexists _, _, _; (split; [reflexivity|]); cbn; tauto.
    + eexists _, _, _. split; [reflexivity|]. cbn. tauto.
Qed.

(** The adapter [MasterAgent.initialize] builds for a framework name. *)
Definition adapter_for (framework : string) (cfg : dict) : Adapter :=
  if String.eqb framework "langgraph" then LangGraph (LangGraphAdapter.__init__ (Some cfg))
  else if String.eqb framework "crewai" then CrewAI (CrewAIAdapter.__init__ (Some cfg))
  else if String.eqb framework "autogen" then AutoGen (AutoGenAdapter.__init__ (Some cfg))
  else Builtin (BuiltinAdapter.__init__ (Some cfg)).

Lemma adapter_for_fresh framework cfg :
  Adapter_list_agents (adapter_for framework cfg) = [].
Proof.
  unfold adapter_for.
  repeat match goal with |- context [if ?b then _ else _] => destruct b end;
    reflexivity.
Qed.

Lemma initialize_false O m0 w m1 w1 :
  MasterAgent.initialize O (m0, w) = (Ok false, (m1, w1)) ->
  MasterAgent.worker_agents m1 = MasterAgent.worker_agents m0 /\
  exists a, MasterAgent.adapter m1 = Some a /\ Adapter_list_agents a = [] /\
            ~ is_builtin a.
Proof.
  unfold MasterAgent.initialize.
  set (fw := text_lower O _).
  erewrite bind_ok by reflexivity. cbv beta.
  change (if String.eqb fw "langgraph" then _ else _)
    with (adapter_for fw (MasterAgent.config m0)).
  set (a0 := adapter_for fw (MasterAgent.config m0)).
  erewrite bind_ok by reflexivity.
  destruct (Adapter_initialize_spec O a0 w)
    as (a1 & ok & w2 & Hinit & Hclass & Hlist & Hb).
  erewrite bind_ok.
  2:{ unfold MasterAgent.on_adapter.
      erewrite bind_ok by reflexivity. cbv beta.
      cbn [MasterAgent.adapter MasterAgent.set_adapter fst snd].
      erewrite bind_ok
        by (unfold MasterAgent.world; cbn [fst snd]; rewrite Hinit; reflexivity).
      erewrite bind_ok by reflexivity.
      erewrite bind_ok by reflexivity. reflexivity. }
  cbn [snd]. destruct ok; cbn [negb].
  - intros H. exfalso. exact (bind_ret_true_not_false _ _ _ H).
  - intros H. inversion H; subst. cbn. split; [reflexivity|].
    exists a1. split; [reflexivity|]. split.
    + rewrite Hlist. apply adapter_for_fresh.
    + intros Hb1. apply (same_class_builtin_back _ _ Hclass) in Hb1.
      specialize (Hb Hb1). discriminate.
Qed.

Definition roster_after (ws : list (string * string))
    (configs : list (AgentType * string)) : list (string * string) :=
  fold_left (fun ws tc => dict_set ws (AgentType_value (fst tc)) (snd tc)) configs ws.

(** A loop of [_create_worker_agents] that runs through fills the roster. *)
Lemma create_workers_run O configs m w a m' w' :
  MasterAgent.adapter m = Some a ->
  for_each configs
    (fun tc (_ : unit) =>
       MasterAgent.on_adapter "create_agent"
         (fun a => a' <- Adapter_create_agent O a (fst tc) (snd tc) ;; ret (a', tt)) ;;;
       self <- MasterAgent.get_self ;;
       MasterAgent.put_self
         (MasterAgent.set_worker_agents self
            (dict_set (MasterAgent.worker_agents self)
                      (AgentType_value (fst tc)) (snd tc))))
    tt (m, w)
  = (Ok tt, (m', w')) ->
  is_Some (MasterAgent.adapter m') /\
  MasterAgent.worker_agents m'
  = roster_after (MasterAgent.worker_agents m) configs.
Proof.
  revert m w a. induction configs as [|[ty id] rest IH]; intros m w a Ha.
  - cbn. intros [= <- <-]. split; [eauto|reflexivity].
  - cbn [for_each fst snd].
    destruct (Adapter_create_agent O a ty id w) as [[a1|e] w1] eqn:Hc.
    + set (m1 := MasterAgent.set_worker_agents (MasterAgent.set_adapter m (Some a1))
                   (dict_set (MasterAgent.worker_agents m) (AgentType_value ty) id)).
      erewrite bind_ok.
      2:{ erewrite bind_ok.
          2:{ unfold MasterAgent.on_adapter.
              erewrite bind_ok by reflexivity. cbv beta. cbn [fst]. rewrite Ha.
              erewrite bind_ok.
              2:{ unfold MasterAgent.world, bind. cbn [fst snd].
                  rewrite Hc. reflexivity. }
              erewrite bind_ok by reflexivity. erewrite bind_ok by reflexivity.
              reflexivity. }
          erewrite bind_ok by reflexivity. reflexivity. }
      intros Hrun. exact (IH m1 w1 a1 eq_refl Hrun).
    + erewrite bind_raise.
      2:{ erewrite bind_raise; [reflexivity|].
          unfold MasterAgent.on_adapter.
          erewrite bind_ok by reflexivity. cbv beta. cbn [fst]. rewrite Ha.
          erewrite bind_raise; [reflexivity|].
          unfold MasterAgent.world, bind. cbn [fst snd]. rewrite Hc. reflexivity. }
      discriminate.
Qed.

(** A successful [initialize] leaves the full roster. *)
Lemma initialize_true_roster O m0 w m1 w1 :
  MasterAgent.initialize O (m0, w) = (Ok true, (m1, w1)) -> has_roster m1.
Proof.
  unfold MasterAgent.initialize.
  set (fw := text_lower O _).
  erewrite bind_ok by reflexivity. cbv beta.
  change (if String.eqb fw "langgraph" then _ else _)
    with (adapter_for fw (MasterAgent.config m0)).
  set (a0 := adapter_for fw (MasterAgent.config m0)).
  erewrite bind_ok by reflexivity.
  destruct (Adapter_initialize_spec O a0 w)
    as (a1 & ok & w2 & Hinit & Hclass & Hlist & Hb).
  erewrite bind_ok.
  2:{ unfold MasterAgent.on_adapter.
      erewrite bind_ok by reflexivity. cbv beta.
      cbn [MasterAgent.adapter MasterAgent.set_adapter fst snd].
      erewrite bind_ok
        by (unfold MasterAgent.world; cbn [fst snd]; rewrite Hinit; reflexivity).
      erewrite bind_ok by reflexivity.
      erewrite bind_ok by reflexivity. reflexivity. }
  cbn [snd]. destruct ok; cbn [negb]; [|intros H; inversion H].
  unfold MasterAgent._create_worker_agents.
  match goal with
  | |- context [bind (for_each ?cs ?f tt) _ (?mm, ?ww)] =>
      destruct (for_each cs f tt (mm, ww)) as [[[]|e] [m' w']] eqn:Hrun;
        [destruct (create_workers_run O MasterAgent.worker_configs mm ww a1 m' w'
                     eq_refl Hrun) as [Ha' Hw']|]
  end.
  2:{ erewrite bind_raise by exact Hrun. discriminate. }
  erewrite bind_ok by exact Hrun.
  intros H. inversion H; subst. split; [exact Ha'|].
  rewrite Hw'. unfold roster_after, MasterAgent.worker_configs, roster_keys.
  cbn [fold_left fst snd AgentType_value].
  repeat constructor; rewrite !dict_get_set; cbn; eauto.
Qed.

(** ** Concrete environments *)

(** No collaborator service is reachable. *)
Definition offline (n : nat) (url : string) (body : value) : res HttpResponse :=
  Raise (Exn "ConnectError" "All connection attempts failed").

(** An environment with the framework named by [AGENT_FRAMEWORK], the
    third-party packages installed or not, and third-party calls that
    succeed. *)
Definition demo_oracle (framework : option string) (installed : bool)
    (http : nat -> string -> value -> res HttpResponse) : Oracle :=
  {| uuid4_hex := fun n => "3f2a9c41d07b4e5f8a6b1c2d3e4f5a6b";
     time_time := fun n => inject_Z (Z.of_nat n);
     now_isoformat := fun n => "2024-05-01T12:00:00";
     py_repr := fun v => "<" ++ type_name v ++ ">";
     unicode_title := fun s => s;
     unicode_lower := fun s => s;
     float_ms := fun t t0 => ((t - t0) * 1000)%Q;
     json_len := fun v => 2;
     getenv := fun k => if String.eqb k "AGENT_FRAMEWORK" then framework else None;
     http_post := http;
     LANGGRAPH_AVAILABLE := installed;
     CREWAI_AVAILABLE := installed;
     AUTOGEN_AVAILABLE := installed;
     ChatOpenAI_new := fun n => None;
     StateGraph_compile_fault := fun n => None;
     StateGraph_invoke_fault := fun n => None;
     crewai_Agent_new := fun n => None;
     crewai_Task_Crew_new := fun n => None;
     crewai_kickoff := fun n => Ok "done";
     autogen_UserProxyAgent_new := fun n => None;
     autogen_AssistantAgent_new := fun n => None;
     autogen_initiate_chat := fun n => Ok [] |}.

Definition fresh_world : World :=
  {| tick := 0; next_loc := 0; heap := ∅; sent := [] |}.

(** The master agent and the world right after [initialize]. *)
Definition after_initialize (O : Oracle) : res bool * (MasterAgent.t * World) :=
  MasterAgent.initialize O (MasterAgent.__init__ O None, fresh_world).

Definition builtin_offline : Oracle := demo_oracle None true offline.
Definition crewai_missing : Oracle := demo_oracle (Some "crewai") false offline.

(** ** The workflow of the master agent *)

Lemma dict_get_app_l {V} (d d' : list (string * V)) k v :
  dict_get d k = Some v -> dict_get (d ++ d')%list k = Some v.
Proof.
  induction d as [|[k0 v0] r IH]; cbn; [discriminate|].
  destruct (String.eqb k0 k); auto.
Qed.

Lemma dict_get_app_r {V} (d d' : list (string * V)) k :
  dict_get d k = None -> dict_get (d ++ d')%list k = dict_get d' k.
Proof.
  induction d as [|[k0 v0] r IH]; cbn; [reflexivity|].
  destruct (String.eqb k0 k); [discriminate|auto].
Qed.

(** The diagnosis condition evaluated on what a run recorded. *)
Definition recorded_condition (D : dict) : option (res bool) :=
  match dict_get D "prediction", dict_get D "analysis" with
  | Some p, Some a =>
      match py_get a "output" VNone with
      | Ok analysis_output => Some (MasterAgent.needs_diagnosis p analysis_output)
      | Raise _ => None
      end
  | _, _ => None
  end.

(** On a numeric failure probability the condition is the disjunction the
    workflow description gives. *)
Lemma needs_diagnosis_typed pd ad q :
  num_of (default (VInt 0) (dict_get pd "failure_probability")) = Some q ->
  MasterAgent.needs_diagnosis (VDict pd) (VDict ad)
  = Ok (Qlt_bool float_0_3 q
        || py_eq_str (default VNone (dict_get ad "overall_status")) "needs_attention").
Proof.
  intros Hq. unfold MasterAgent.needs_diagnosis. cbn [py_get].
  unfold py_gt. rewrite Hq. cbn [num_of].
  destruct (Qlt_bool float_0_3 q); reflexivity.
Qed.

(** The severities that start the service workflow. *)
Definition service_severity (sev : value) : Prop :=
  In sev [VStr "medium"; VStr "high"; VStr "critical"].

Lemma needs_service_iff sev :
  MasterAgent.needs_service sev = true <-> service_severity sev.
Proof.
  unfold MasterAgent.needs_service, service_severity. cbn [existsb In].
  rewrite !orb_true_iff. destruct sev; cbn [py_eq_str];
    try (split; [intros [?|[?|[?|?]]]; discriminate
                |intros [?|[?|[?|[]]]]; discriminate]).
  rewrite !String.eqb_eq. split.
  - intros [->|[->|[->|?]]]; auto; discriminate.
  - intros [E|[E|[E|[]]]]; inversion E; auto.
Qed.

(** A collaborator that answers every request with status 200: [prediction]
    on the prediction endpoint and [ueba] elsewhere. *)
Definition http_stub (ueba prediction : value) (n : nat) (url : string)
    (body : value) : res HttpResponse :=
  Ok {| status_code := 200;
        json_body := Ok (if str_ends_with "/predict" url then prediction else ueba) |}.

Definition quiet_ueba : value := VDict [("alert", VBool false); ("score", VInt 0)].

(** The built-in backend with a prediction service that reports [p]. *)
Definition builtin_predicting (p : value) : Oracle :=
  demo_oracle None true (http_stub quiet_ueba (VDict [("failure_probability", p)])).

Definition hot_engine : dict :=
  [("vehicle_id", VStr "MH12AB1234"); ("engine_temp", VInt 120)].

(** The stages start on an empty stage dictionary. *)
Lemma stages_world_fresh w :
  heap_get (heap (stages_world w)) (next_loc w) = []
  /\ (next_loc w < next_loc (stages_world w))%nat.
Proof.
  unfold stages_world. cbn [heap next_loc]. rewrite heap_get_insert.
  rewrite decide_True by reflexivity. split; [reflexivity|lia].
Qed.

(** A run of [process_telemetry] with a roster: the summary, the stage
    dictionary and how the [try] block ended. *)
Lemma process_telemetry_outcome O telemetry m w :
  has_roster m ->
  exists r D requests m' w',
    MasterAgent.process_telemetry O telemetry (m, w)
    = (Ok (VDict ([("workflow_id", VStr (workflow_id_at O w));
                   ("vehicle_id", default (VStr "unknown") (dict_get telemetry "vehicle_id"));
                   ("timestamp", VStr (now_isoformat O (S (tick w))));
                   ("stages", VDict D)] ++ summary_tail r)%list), (m', w')) /\
    sent w' = (sent w ++ requests)%list /\
    stages_outcome O m (stages_world w) telemetry r D requests.
Proof.
  intros Hm. destruct (stages_world_fresh w) as [Hempty Hfresh].
  destruct (run_stages_outcome O (workflow_id_at O w) telemetry (next_loc w) m
              (stages_world w) Hm Hempty Hfresh)
    as (r & m' & w' & requests & Hrun & Hsent & _ & Hout).
  exists r, (heap_get (heap w') (next_loc w)), requests, m', w'.
  split; [exact (process_telemetry_run O telemetry m w r m' w' Hrun)|].
  split; [exact Hsent|exact Hout].
Qed.

(** Every JSON answer of a collaborator service is a map. *)
Definition answers_are_maps (O : Oracle) : Prop :=
  forall n url body response v,
    http_post O n url body = Ok response -> json_body response = Ok v ->
    exists d, v = VDict d.

Lemma ueba_reply_map O w url body :
  answers_are_maps O -> exists d, ueba_reply O w url body = VDict d.
Proof.
  intros Hmaps. unfold ueba_reply.
  destruct (http_post O (tick w) url body) as [response|e] eqn:E; [|eauto].
  destruct (status_code response =? 200); [|eauto].
  destruct (json_body response) as [v|e] eqn:Ev; [|eauto].
  exact (Hmaps _ _ _ _ _ E Ev).
Qed.

(** With telemetry that can be serialised and services that answer with
    maps, a run gets as far as the diagnosis condition, and the condition
    decides how it goes on. *)
Lemma stages_reached O m w telemetry r D requests :
  stages_outcome O m w telemetry r D requests ->
  json_bad (VDict telemetry) = None ->
  answers_are_maps O ->
  exists u ra p rest,
    D = (base_stages u ra p ++ rest)%list /\
    reached O m w telemetry u ra p /\
    match MasterAgent.needs_diagnosis p (output ra) with
    | Ok true =>
        r = Ok true /\
        exists rd rest', rest = ("diagnosis", MasterAgent.stage_entry rd) :: rest' /\
                         diagnosed O m ra p rd
    | Ok false => r = Ok false /\ rest = []
    | Raise e => r = Raise e /\ rest = []
    end.
Proof.
  intros Hout Hjson Hmaps.
  destruct Hout as [e Hr HD|u ra p e q1 q2 Hr HD Hn _ Hreach|u ra p q1 q2 Hr HD Hn _ Hreach
                   |u ra p rd sev q1 q2 Hr HD Hn _ _ _ Hreach Hdd
                   |u ra p rd sev re rs q1 q2 q3 Hr HD Hn _ _ _ _ Hreach Hdd _].
  - exfalso. destruct HD as [[_ He]|(u & body & _ & Hu & He)].
    + unfold json_dumps_len in He. rewrite Hjson in He. discriminate.
    + destruct (ueba_reply_map O w (MasterAgent.ueba_service_url m ++ "/score") body
                  Hmaps) as [d Hd].
      rewrite Hu, Hd in He. cbn in He. destruct (dict_get d "alert"); discriminate.
  - exists u, ra, p, []. rewrite app_nil_r, Hn. auto.
  - exists u, ra, p, []. rewrite app_nil_r, Hn. auto.
  - exists u, ra, p, [("diagnosis", MasterAgent.stage_entry rd)]. rewrite Hn.
    split; [exact HD|]. split; [exact Hreach|]. split; [exact Hr|]. eauto.
  - exists u, ra, p, [("diagnosis", MasterAgent.stage_entry rd);
                      ("engagement", MasterAgent.stage_entry re);
                      ("scheduling", MasterAgent.stage_entry rs)]. rewrite Hn.
    split; [exact HD|]. split; [exact Hreach|]. split; [exact Hr|]. eauto.
Qed.

(** * The orchestrator's workflow *)

(** C7. In a run of [process_telemetry] by an initialised master agent, the
    diagnosis stage is recorded exactly when the condition of the source,
    evaluated on the recorded prediction and analysis output, is true.  For
    a numeric failure probability that condition is
    [failure_probability > 0.3] or [overall_status == "needs_attention"].
    When the condition is false the diagnosis stage is absent and
    [requires_action] is false; when the diagnosis stage is present
    [requires_action] is true.  What is recorded is what the run obtained:
    with telemetry that can be serialised and services that answer with
    maps, the run records the result of the analysis task dispatched on the
    telemetry and the answer of the prediction service to the telemetry,
    and the condition on these two decides the diagnosis stage and
    [requires_action]. *)
Theorem diagnosis_entered_iff_condition O telemetry m w :
  has_roster m ->
  exists summary D m' w',
    MasterAgent.process_telemetry O telemetry (m, w) = (Ok (VDict summary), (m', w')) /\
    dict_get summary "stages" = Some (VDict D) /\
    (json_bad (VDict telemetry) = None -> answers_are_maps O ->
     exists u ra p,
       reached O m (stages_world w) telemetry u ra p /\
       dict_get D "analysis" = Some (MasterAgent.stage_entry ra) /\
       dict_get D "prediction" = Some p /\
       (is_Some (dict_get D "diagnosis")
        <-> MasterAgent.needs_diagnosis p (output ra) = Ok true) /\
       (MasterAgent.needs_diagnosis p (output ra) = Ok true ->
        dict_get summary "requires_action" = Some (VBool true)) /\
       (MasterAgent.needs_diagnosis p (output ra) = Ok false ->
        dict_get summary "requires_action" = Some (VBool false))) /\
    (is_Some (dict_get D "diagnosis") <-> recorded_condition D = Some (Ok true)) /\
    (forall pd ok ad q,
        dict_get D "prediction" = Some (VDict pd) ->
        dict_get D "analysis"
        = Some (VDict [("success", VBool ok); ("output", VDict ad)]) ->
        num_of (default (VInt 0) (dict_get pd "failure_probability")) = Some q ->
        (is_Some (dict_get D "diagnosis") <->
         Qlt_bool float_0_3 q = true
         \/ dict_get ad "overall_status" = Some (VStr "needs_attention"))) /\
    (recorded_condition D = Some (Ok false) ->
     dict_get D "diagnosis" = None /\
     dict_get summary "requires_action" = Some (VBool false)) /\
    (is_Some (dict_get D "diagnosis") ->
     dict_get summary "requires_action" = Some (VBool true)).
Proof.
  intros Hm.
  destruct (process_telemetry_outcome O telemetry m w Hm)
    as (r & D & requests & m' & w' & Hrun & _ & Hout).
  eexists _, D, m', w'. split; [exact Hrun|]. split; [reflexivity|].
  split.
  { intros Hjson Hmaps.
    destruct (stages_reached _ _ _ _ _ _ _ Hout Hjson Hmaps)
      as (u & ra & p & rest & HD & Hreach & Hcase).
    exists u, ra, p. split; [exact Hreach|]. rewrite HD.
    split; [reflexivity|]. split; [reflexivity|].
    destruct (MasterAgent.needs_diagnosis p (output ra)) as [[|]|e].
    - destruct Hcase as (-> & rd & rest' & -> & _). cbn.
      split; [split; eauto|]. split; [reflexivity|discriminate].
    - destruct Hcase as (-> & ->). cbn.
      split; [split; [intros [? H]; discriminate H|discriminate]|].
      split; [discriminate|reflexivity].
    - destruct Hcase as (-> & ->). cbn.
      split; [split; [intros [? H]; discriminate H|discriminate]|].
      split; discriminate. }
  assert (Hcond : forall u ra p rest,
             dict_get rest "prediction" = None -> dict_get rest "analysis" = None ->
             recorded_condition (base_stages u ra p ++ rest)
             = Some (MasterAgent.needs_diagnosis p (output ra))).
  { intros u ra p rest _ _. reflexivity. }
  assert (Htyped : forall (present : Prop) b,
             (present <-> b = true) ->
             forall u ra p rest, D = (base_stages u ra p ++ rest)%list ->
             MasterAgent.needs_diagnosis p (output ra) = Ok b ->
             forall pd ok ad q,
               dict_get D "prediction" = Some (VDict pd) ->
               dict_get D "analysis"
               = Some (VDict [("success", VBool ok); ("output", VDict ad)]) ->
               num_of (default (VInt 0) (dict_get pd "failure_probability")) = Some q ->
               (present <->
                Qlt_bool float_0_3 q = true
                \/ dict_get ad "overall_status" = Some (VStr "needs_attention"))).
  { intros present b Hb u ra p rest -> Hn pd ok ad q Hp Ha Hq.
    cbn in Hp, Ha. inversion Hp; subst p. inversion Ha as [[Hs Ho]].
    rewrite Ho in Hn. rewrite (needs_diagnosis_typed pd ad q Hq) in Hn.
    inversion Hn as [Hb']. rewrite Hb, <- Hb', orb_true_iff.
    apply or_iff_compat_l.
    destruct (dict_get ad "overall_status") as [[| | | |s| | |]|]; cbn;
      try (split; [discriminate|intros E; discriminate E]).
    rewrite String.eqb_eq. split; [now intros ->|now intros [= ->]]. }
  destruct Hout as [e Hr HD|u ra p e q1 q2 Hr HD Hn _ _|u ra p q1 q2 Hr HD Hn _ _
                   |u ra p rd sev q1 q2 Hr HD Hn _ _ _ _ _
                   |u ra p rd sev re rs q1 q2 q3 Hr HD Hn _ _ _ _ _ _ _]; subst r.
  - assert (Hnone : dict_get D "diagnosis" = None /\ recorded_condition D = None
                    /\ dict_get D "prediction" = None).
    { destruct HD as [[-> _]|(u & body & -> & _)]; repeat split; reflexivity. }
    destruct Hnone as (Hd & Hc & Hp). rewrite Hd, Hc.
    split; [split; [intros [? ?]; discriminate|discriminate]|].
    split; [intros pd ok ad q Hp'; rewrite Hp in Hp'; discriminate|].
    split; [discriminate|intros [? ?]; discriminate].
  - split; [|split; [|split]].
    + rewrite HD, <- (app_nil_r (base_stages u ra p)), Hcond, Hn by reflexivity.
      cbn. split; [intros [? ?]; discriminate|intros [= E]; discriminate E].
    + intros pd ok ad q Hp Ha Hq. exfalso. rewrite HD in Hp, Ha. cbn in Hp, Ha.
      inversion Hp; subst p. inversion Ha as [[Hs Ho]]. rewrite Ho in Hn.
      rewrite (needs_diagnosis_typed pd ad q Hq) in Hn. discriminate.
    + rewrite HD, <- (app_nil_r (base_stages u ra p)), Hcond, Hn by reflexivity.
      intros [= E]; discriminate E.
    + rewrite HD. cbn. intros [? ?]; discriminate.
  - split; [|split; [|split]].
    + rewrite HD, <- (app_nil_r (base_stages u ra p)), Hcond, Hn by reflexivity.
      cbn. split; [intros [? ?]; discriminate|intros [= E]; discriminate E].
    + apply (Htyped _ false) with (u := u) (ra := ra) (p := p) (rest := []);
        [|now rewrite app_nil_r|exact Hn].
      rewrite HD. cbn. split; [intros [? ?]; discriminate|discriminate].
    + intros _. rewrite HD. split; reflexivity.
    + rewrite HD. cbn. intros [? ?]; discriminate.
  - split; [|split; [|split]].
    + rewrite HD, Hcond, Hn by reflexivity. cbn. split; eauto.
    + apply (Htyped _ true) with (u := u) (ra := ra) (p := p)
                                 (rest := [("diagnosis", MasterAgent.stage_entry rd)]);
        [|exact HD|exact Hn].
      rewrite HD. cbn. split; eauto.
    + rewrite HD, Hcond, Hn by reflexivity. intros [= E]; discriminate E.
    + intros _. reflexivity.
  - split; [|split; [|split]].
    + rewrite HD, Hcond, Hn by reflexivity. cbn. split; eauto.
    + apply (Htyped _ true) with (u := u) (ra := ra) (p := p)
                                 (rest := [("diagnosis", MasterAgent.stage_entry rd);
                                           ("engagement", MasterAgent.stage_entry re);
                                           ("scheduling", MasterAgent.stage_entry rs)]);
        [|exact HD|exact Hn].
      rewrite HD. cbn. split; eauto.
    + rewrite HD, Hcond, Hn by reflexivity. intros [= E]; discriminate E.
    + intros _. reflexivity.
Qed.

Lemma has_roster_after_initialize O :
  fst (after_initialize O) = Ok true ->
  has_roster (fst (snd (after_initialize O))).
Proof.
  unfold after_initialize.
  destruct (MasterAgent.initialize O _) as [r [m w]] eqn:E. cbn [fst snd].
  intros ->. exact (initialize_true_roster O _ _ _ _ E).
Qed.

(** A reading without a warning sign. *)
Definition healthy_reading : dict :=
  [("vehicle_id", VStr "MH12AB1234"); ("engine_temp", VInt 90)].

Lemma stub_answers_are_maps p :
  answers_are_maps (builtin_predicting p).
Proof.
  intros n url body response v H Hv. cbn in H. inversion H; subst. cbn in Hv.
  inversion Hv. unfold quiet_ueba. destruct (str_ends_with "/predict" url); eauto.
Qed.

Lemma roster_after_initialize p :
  has_roster (fst (snd (after_initialize (builtin_predicting p)))).
Proof.
  vm_compute. split; [eexists; reflexivity|].
  repeat constructor; eexists; reflexivity.
Qed.

Lemma diagnosis_entered_witness :
  (let O := builtin_predicting (VFloat (1 # 2)) in
   let m := fst (snd (after_initialize O)) in
   let w := snd (snd (after_initialize O)) in
   has_roster m /\
   exists summary D,
     fst (MasterAgent.process_telemetry O healthy_reading (m, w)) = Ok (VDict summary) /\
     dict_get summary "stages" = Some (VDict D) /\
     is_Some (dict_get D "diagnosis") /\
     dict_get summary "requires_action" = Some (VBool true)) /\
  (let O := builtin_predicting (VFloat (1 # 10)) in
   let m := fst (snd (after_initialize O)) in
   let w := snd (snd (after_initialize O)) in
   has_roster m /\
   exists summary D,
     fst (MasterAgent.process_telemetry O healthy_reading (m, w)) = Ok (VDict summary) /\
     dict_get summary "stages" = Some (VDict D) /\
     dict_get D "diagnosis" = None /\
     dict_get summary "requires_action" = Some (VBool false)).
Proof.
  split; intros O m w.
  - assert (Hm : has_roster m) by apply roster_after_initialize.
    split; [exact Hm|].
    destruct (diagnosis_entered_iff_condition O healthy_reading m w Hm)
      as (summary & D & m' & w' & Hrun & Hstages & Hreach & _).
    destruct (Hreach eq_refl (stub_answers_are_maps _))
      as (u & ra & p & (_ & _ & wp & Hp) & _ & _ & Hiff & Htrue & _).
    assert (Hn : MasterAgent.needs_diagnosis p (output ra) = Ok true)
      by (rewrite Hp; vm_compute; reflexivity).
    exists summary, D. rewrite Hrun. split; [reflexivity|]. split; [exact Hstages|].
    split; [apply Hiff, Hn|exact (Htrue Hn)].
  - assert (Hm : has_roster m) by apply roster_after_initialize.
    split; [exact Hm|].
    destruct (diagnosis_entered_iff_condition O healthy_reading m w Hm)
      as (summary & D & m' & w' & Hrun & Hstages & _).
    exists summary, D. rewrite Hrun. split; [reflexivity|]. split; [exact Hstages|].
    revert Hstages. vm_compute in Hrun. inversion Hrun; subst summary.
    cbn. intros [= <-]. split; reflexivity.
Defined.

(** C8. In a run of [process_telemetry] by an initialised master agent in
    which the diagnosis stage was recorded, the engagement and scheduling
    stages are recorded exactly when the severity read from the diagnosis
    output (default "low") is one of medium, high and critical.  Then the
    stage dictionary ends with diagnosis, engagement, scheduling in that
    order and the run sent a third request, which reports the scheduling
    action to the behaviour service.  Otherwise, and for "low" in
    particular, neither stage is recorded and only two requests were
    sent.  The stages are those of the run: the recorded diagnosis is the
    result of the diagnosis task dispatched on the analysis output and the
    prediction, the engagement and scheduling results are those of the
    tasks dispatched on the diagnosis output, and with telemetry that can
    be serialised and services that answer with maps the diagnosis stage
    is recorded whenever the diagnosis condition holds. *)
Theorem service_workflow_iff_severity O telemetry m w :
  has_roster m ->
  exists summary D requests m' w',
    MasterAgent.process_telemetry O telemetry (m, w) = (Ok (VDict summary), (m', w')) /\
    dict_get summary "stages" = Some (VDict D) /\
    sent w' = (sent w ++ requests)%list /\
    (json_bad (VDict telemetry) = None -> answers_are_maps O ->
     exists u ra p,
       reached O m (stages_world w) telemetry u ra p /\
       (MasterAgent.needs_diagnosis p (output ra) = Ok true ->
        is_Some (dict_get D "diagnosis"))) /\
    forall dstage,
      dict_get D "diagnosis" = Some dstage ->
      exists rd sev,
        dstage = MasterAgent.stage_entry rd /\
        (exists u ra p,
            reached O m (stages_world w) telemetry u ra p /\
            MasterAgent.needs_diagnosis p (output ra) = Ok true /\
            diagnosed O m ra p rd) /\
        py_get (output rd) "severity" (VStr "low") = Ok sev /\
        (service_severity sev <->
         is_Some (dict_get D "engagement") /\ is_Some (dict_get D "scheduling")) /\
        (service_severity sev ->
         exists before re rs q1 q2 q3,
           D = (before ++ [("diagnosis", dstage);
                           ("engagement", MasterAgent.stage_entry re);
                           ("scheduling", MasterAgent.stage_entry rs)])%list /\
           requests = [q1; q2; q3] /\
           scheduling_report (MasterAgent.ueba_service_url m ++ "/score") rs q3 /\
           serviced O m telemetry rd re rs) /\
        (~ service_severity sev ->
         dict_get D "engagement" = None /\ dict_get D "scheduling" = None /\
         exists q1 q2, requests = [q1; q2]) /\
        ~ service_severity (VStr "low").
Proof.
  intros Hm.
  destruct (process_telemetry_outcome O telemetry m w Hm)
    as (r & D & requests & m' & w' & Hrun & Hsent & Hout).
  eexists _, D, requests, m', w'. split; [exact Hrun|]. split; [reflexivity|].
  split; [exact Hsent|].
  split.
  { intros Hjson Hmaps.
    destruct (stages_reached _ _ _ _ _ _ _ Hout Hjson Hmaps)
      as (u & ra & p & rest & HD & Hreach & Hcase).
    exists u, ra, p. split; [exact Hreach|]. intros Hn. rewrite Hn in Hcase.
    destruct Hcase as (_ & rd & rest' & -> & _). rewrite HD. cbn. eauto. }
  assert (Hlow : ~ service_severity (VStr "low")).
  { rewrite <- needs_service_iff. discriminate. }
  intros dstage Hd.
  destruct Hout as [e Hr HD|u ra p e q1 q2 Hr HD Hn _ _|u ra p q1 q2 Hr HD Hn _ _
                   |u ra p rd sev q1 q2 Hr HD Hn Hsev Hsvc Hreq Hreach Hdd
                   |u ra p rd sev re rs q1 q2 q3 Hr HD Hn Hsev Hsvc Hreq Hq3
                      Hreach Hdd Hsv];
    try (exfalso; revert Hd; rewrite HD; discriminate).
  - exfalso. destruct HD as [[-> _]|(u & body & -> & _)]; discriminate.
  - assert (Hnot : ~ service_severity sev).
    { rewrite <- needs_service_iff, Hsvc. discriminate. }
    rewrite HD in Hd. cbn in Hd. inversion Hd; subst dstage.
    exists rd, sev. split; [reflexivity|].
    split; [exists u, ra, p; auto|]. split; [exact Hsev|].
    rewrite HD. cbn. split; [|split; [|split]].
    + split; [intros H; destruct (Hnot H)|]. intros [[? ?] _]. discriminate.
    + intros H. destruct (Hnot H).
    + intros _. eauto.
    + exact Hlow.
  - assert (Hyes : service_severity sev) by now apply needs_service_iff.
    rewrite HD in Hd. cbn in Hd. inversion Hd; subst dstage.
    exists rd, sev. split; [reflexivity|].
    split; [exists u, ra, p; auto|]. split; [exact Hsev|].
    split; [|split; [|split]].
    + rewrite HD. cbn. split; eauto.
    + intros _. exists (base_stages u ra p), re, rs, q1, q2, q3.
      split; [exact HD|]. split; [exact Hreq|]. split; [exact Hq3|exact Hsv].
    + intros H. destruct (H Hyes).
    + exact Hlow.
Qed.

Lemma service_workflow_witness :
  let O := builtin_predicting (VFloat (1 # 2)) in
  let m := fst (snd (after_initialize O)) in
  let w := snd (snd (after_initialize O)) in
  has_roster m /\
  exists summary D requests dout,
    fst (MasterAgent.process_telemetry O hot_engine (m, w)) = Ok (VDict summary) /\
    dict_get summary "stages" = Some (VDict D) /\
    sent (snd (snd (MasterAgent.process_telemetry O hot_engine (m, w))))
    = (sent w ++ requests)%list /\
    dict_keys D = ["ueba_check"; "analysis"; "prediction"; "diagnosis";
                   "engagement"; "scheduling"] /\
    dict_get D "diagnosis"
    = Some (VDict [("success", VBool true); ("output", dout)]) /\
    py_get dout "severity" (VStr "low") = Ok (VStr "high") /\
    exists q1 q2 q3 rs,
      requests = [q1; q2; q3] /\
      scheduling_report (MasterAgent.ueba_service_url m ++ "/score") rs q3.
Proof.
  intros O m w.
  assert (Hm : has_roster m) by apply roster_after_initialize.
  split; [exact Hm|].
  destruct (service_workflow_iff_severity O hot_engine m w Hm)
    as (summary & D & requests & m' & w' & Hrun & Hstages & Hsent & Hreach & Hdiag).
  destruct (Hreach eq_refl (stub_answers_are_maps _))
    as (u & ra & p & (_ & _ & wp & Hp) & Hentered).
  assert (Hn : MasterAgent.needs_diagnosis p (output ra) = Ok true)
    by (rewrite Hp; vm_compute; reflexivity).
  destruct (Hentered Hn) as [dstage Hd].
  destruct (Hdiag dstage Hd)
    as (rd & sev & Hrd & _ & Hsev & _ & Hyes & _).
  pose proof Hrun as Hc. vm_compute in Hc. inversion Hc; subst summary.
  clear Hc. cbn in Hstages. inversion Hstages; subst D. clear Hstages.
  cbn in Hd. rewrite Hrd in Hd. inversion Hd as [[Hok Hout]]. clear Hd.
  rewrite <- Hout in Hsev. cbn in Hsev. inversion Hsev; subst sev.
  destruct Hyes as (before & re & rs & q1 & q2 & q3 & _ & Hreq & Hq3 & _).
  { cbn. tauto. }
  eexists _, _, requests, _. rewrite Hrun. split; [reflexivity|].
  split; [reflexivity|]. split; [exact Hsent|]. split; [reflexivity|].
  split; [reflexivity|]. split; [reflexivity|].
  exists q1, q2, q3, rs. split; [exact Hreq|exact Hq3].
Defined.

(** C9 (as the code has it). For every telemetry bundle and every state of
    the master agent, [process_telemetry] returns a summary with the
    workflow id, the vehicle id, a timestamp, the stage dictionary and a
    status.  When the stages ran through, the status is "completed" and
    [requires_action] is present, with no error.  When a stage raised [e],
    the status is "failed", [error] holds [str(e)], the stage dictionary
    holds the stages recorded before the failure, and [requires_action] is
    absent. *)
Theorem summary_always_returned O telemetry m w :
  let vehicle_id := default (VStr "unknown") (dict_get telemetry "vehicle_id") in
  exists summary r m' w',
    MasterAgent.process_telemetry O telemetry (m, w) = (Ok (VDict summary), (m', w')) /\
    MasterAgent.run_stages O (workflow_id_at O w) vehicle_id telemetry (next_loc w)
      (m, stages_world w) = (r, (m', w')) /\
    dict_get summary "workflow_id" = Some (VStr (workflow_id_at O w)) /\
    dict_get summary "vehicle_id" = Some vehicle_id /\
    dict_get summary "timestamp" = Some (VStr (now_isoformat O (S (tick w)))) /\
    dict_get summary "stages" = Some (VDict (heap_get (heap w') (next_loc w))) /\
    match r with
    | Ok needed =>
        dict_get summary "status" = Some (VStr "completed") /\
        dict_get summary "requires_action" = Some (VBool needed) /\
        dict_get summary "error" = None
    | Raise e =>
        dict_get summary "status" = Some (VStr "failed") /\
        dict_get summary "error" = Some (VStr (exn_str e)) /\
        dict_get summary "requires_action" = None
    end.
Proof.
  intros vehicle_id.
  destruct (MasterAgent.run_stages O (workflow_id_at O w) vehicle_id telemetry
              (next_loc w) (m, stages_world w)) as [r [m' w']] eqn:Hrun.
  eexists _, r, m', w'.
  split; [exact (process_telemetry_run O telemetry m w r m' w' Hrun)|].
  split; [reflexivity|].
  destruct r as [needed|e]; repeat split; reflexivity.
Qed.

(** C9, counterexample. The prediction service answers with a failure
    probability that is a string: the comparison with 0.3 raises, the run
    is marked failed, and the summary has no [requires_action]. *)
Lemma summary_without_requires_action :
  let O := builtin_predicting (VStr "high") in
  let m := fst (snd (after_initialize O)) in
  let w := snd (snd (after_initialize O)) in
  exists summary,
    fst (MasterAgent.process_telemetry O hot_engine (m, w)) = Ok (VDict summary) /\
    dict_keys summary
    = ["workflow_id"; "vehicle_id"; "timestamp"; "stages"; "status"; "error"] /\
    dict_get summary "status" = Some (VStr "failed") /\
    dict_get summary "requires_action" = None.
Proof. vm_compute. eexists. repeat split; reflexivity. Qed.

(** C2 (as the code has it). When the configured backend's [initialize]
    returns false, [MasterAgent.initialize] returns false before any worker
    is created: the roster stays empty, the backend (never the built-in one)
    has no agent, and every later [process_telemetry] fails at the analysis
    stage, returning a summary with status "failed", no analysis stage and
    no [requires_action]. *)
Theorem initialize_false_leaves_no_roster O cfg w m1 w1 :
  MasterAgent.initialize O (MasterAgent.__init__ O cfg, w) = (Ok false, (m1, w1)) ->
  MasterAgent.worker_agents m1 = [] /\
  (exists a, MasterAgent.adapter m1 = Some a /\ Adapter_list_agents a = [] /\
             ~ is_builtin a) /\
  forall telemetry w2,
    exists summary D e w3,
      MasterAgent.process_telemetry O telemetry (m1, w2)
      = (Ok (VDict summary), (m1, w3)) /\
      dict_get summary "status" = Some (VStr "failed") /\
      dict_get summary "error" = Some (VStr (exn_str e)) /\
      dict_get summary "requires_action" = None /\
      dict_get summary "stages" = Some (VDict D) /\
      dict_get D "analysis" = None.
Proof.
  intros Hinit.
  destruct (initialize_false O _ w m1 w1 Hinit) as (Hworkers & a & Ha & Hagents & Hnb).
  cbn in Hworkers. split; [exact Hworkers|]. split; [eauto|].
  intros telemetry w2. destruct (stages_world_fresh w2) as [Hempty Hfresh].
  destruct (run_stages_without_roster O (workflow_id_at O w2)
              (default (VStr "unknown") (dict_get telemetry "vehicle_id"))
              telemetry (next_loc w2) m1 (stages_world w2) a Ha Hworkers Hempty Hfresh)
    as (e & w3 & Hrun & Hanalysis).
  eexists _, _, e, w3.
  split; [exact (process_telemetry_run O telemetry m1 w2 _ _ _ Hrun)|].
  repeat split; try reflexivity. exact Hanalysis.
Qed.

Lemma initialize_false_witness :
  let O := crewai_missing in
  fst (after_initialize O) = Ok false /\
  MasterAgent.worker_agents (fst (snd (after_initialize O))) = [].
Proof.
  intros O.
  assert (H : MasterAgent.initialize O (MasterAgent.__init__ O None, fresh_world)
              = (Ok false, snd (after_initialize O))) by (vm_compute; reflexivity).
  split; [vm_compute; reflexivity|].
  destruct (snd (after_initialize O)) as [m1 w1] eqn:E.
  exact (proj1 (initialize_false_leaves_no_roster O None fresh_world m1 w1 H)).
Defined.

(** C2, counterexample. With [AGENT_FRAMEWORK=crewai] and CrewAI not
    installed, [initialize] returns false, no worker is created, and the
    next [process_telemetry] fails on the missing [data_analysis] worker. *)
Lemma initialize_false_blocks_workflow :
  let O := crewai_missing in
  let m := fst (snd (after_initialize O)) in
  let w := snd (snd (after_initialize O)) in
  fst (after_initialize O) = Ok false /\
  MasterAgent.worker_agents m = [] /\
  exists summary,
    fst (MasterAgent.process_telemetry O hot_engine (m, w)) = Ok (VDict summary) /\
    dict_get summary "status" = Some (VStr "failed") /\
    dict_get summary "error" = Some (VStr "'data_analysis'") /\
    dict_get summary "stages"
    = Some (VDict [("ueba_check",
                    VDict [("alert", VBool false); ("score", VInt 0);
                           ("error", VStr "All connection attempts failed")])]).
Proof. vm_compute. split; [reflexivity|]. split; [reflexivity|]. eexists. repeat split; reflexivity. Qed.

(** * The dispatch log of the built-in adapter *)




Section DispatchLog.
Variable O : Oracle.





End DispatchLog.

(** * Workflows of any adapter *)

(** A batch run by any adapter: it returns, its results carry the task ids
    in priority order, and the object store changes at most by output
    chaining. *)
Lemma Adapter_orchestrate_workflow_spec O a tasks cfg w :
  exists a' results w',
    Adapter_orchestrate_workflow O a tasks cfg w = (Ok (a', results), w') /\
    same_class a a' /\
    map r_task_id results = map task_id (sorted_by_priority tasks) /\
    chained (map input_data tasks) (chain_keys tasks) w w' /\
    (~ is_builtin a -> ticks_only w w') /\
    (forall c, cfg = Some c -> chain_outputs c = false -> ticks_only w w').
Proof.
  destruct a as [b|l|c|g]; cbn [Adapter_orchestrate_workflow with_class].
  - destruct (run_spec (chained (map input_data tasks) (chain_keys tasks)) _ _
                (total_orchestrate_workflow O b tasks cfg)
                (ensures_orchestrate_workflow O b tasks cfg)
                (chained_orchestrate_workflow O b tasks cfg) w)
      as ([b' results] & w' & Hrun & Hids & Hw).
    exists (Builtin b'), results, w'.
    cbn [adapter_orchestrate_workflow Builtin_adapter].
    unfold bind. rewrite Hrun. cbn [fst snd ret].
    split; [reflexivity|]. split; [exact I|]. split; [exact Hids|].
    split; [exact Hw|]. split; [intros H; destruct (H I)|].
    intros c -> Hc.
    pose proof (frame_orchestrate_workflow_unchained O b tasks c Hc w) as Hf.
    now rewrite Hrun in Hf.
  - destruct (run_spec ticks_only _ _
                (total_LangGraph_orchestrate_workflow O l tasks cfg)
                (ensures_LangGraph_orchestrate_workflow O l tasks cfg)
                (frame_LangGraph_orchestrate_workflow O l tasks cfg) w)
      as (results & w' & Hrun & Hids & Hw).
    exists (LangGraph l), results, w'.
    cbn [adapter_orchestrate_workflow LangGraph_adapter].
    unfold keep, bind. rewrite Hrun. cbn [fst snd ret].
    split; [reflexivity|]. split; [exact I|]. split; [exact Hids|].
    split; [now apply ticks_only_chained|]. split; auto.
  - destruct (run_spec ticks_only _ _
                (total_CrewAI_orchestrate_workflow O c tasks cfg)
                (ensures_CrewAI_orchestrate_workflow O c tasks cfg)
                (frame_CrewAI_orchestrate_workflow O c tasks cfg) w)
      as (results & w' & Hrun & Hids & Hw).
    exists (CrewAI c), results, w'.
    cbn [adapter_orchestrate_workflow CrewAI_adapter].
    unfold keep, bind. rewrite Hrun. cbn [fst snd ret].
    split; [reflexivity|]. split; [exact I|]. split; [exact Hids|].
    split; [now apply ticks_only_chained|]. split; auto.
  - destruct (run_spec ticks_only _ _
                (total_AutoGen_orchestrate_workflow O g tasks cfg)
                (ensures_AutoGen_orchestrate_workflow O g tasks cfg)
                (frame_AutoGen_orchestrate_workflow O g tasks cfg) w)
      as (results & w' & Hrun & Hids & Hw).
    exists (AutoGen g), results, w'.
    cbn [adapter_orchestrate_workflow AutoGen_adapter].
    unfold keep, bind. rewrite Hrun. cbn [fst snd ret].
    split; [reflexivity|]. split; [exact I|]. split; [exact Hids|].
    split; [now apply ticks_only_chained|]. split; auto.
Qed.

(** A built-in adapter with one worker per role, as the master agent
    creates them. *)
Definition staffed_builtin : BuiltinAdapter.t :=
  BuiltinAdapter.set_agents (BuiltinAdapter.__init__ None)
    [("analysis-1", BuiltinAgent.__init__ "analysis-1" DATA_ANALYSIS None None);
     ("diagnosis-1", BuiltinAgent.__init__ "diagnosis-1" DIAGNOSIS None None);
     ("scheduling-1", BuiltinAgent.__init__ "scheduling-1" SCHEDULING None None)].

(** A world holding the input dictionaries [inputs] at addresses 0, 1, ... *)
Definition world_with (inputs : list dict) : World :=
  {| tick := 0; next_loc := List.length inputs;
     heap := fold_left (fun h ld => <[fst ld := snd ld]> h)
               (combine (seq 0 (List.length inputs)) inputs) ∅;
     sent := [] |}.

Definition reading : dict :=
  [("telemetry", VDict [("vehicle_id", VStr "MH12AB1234"); ("engine_temp", VInt 120)])].

(** Two tasks, the second more urgent than the first. *)
Definition urgent_last : list AgentTask :=
  [mkTask "T1" "analyze" "Analyze telemetry" 0 2;
   mkTask "T2" "analyze" "Analyze telemetry" 1 1].

Definition task_ids (out : res (Adapter * list AgentResult) * World) : list string :=
  match fst out with
  | Ok ar => map r_task_id (snd ar)
  | Raise _ => []
  end.

(** C1, counterexample. The built-in adapter is given T1 (priority 2) and
    then T2 (priority 1): the results come back as T2, T1. *)
Lemma results_not_in_input_order :
  task_ids (Adapter_orchestrate_workflow builtin_offline (Builtin staffed_builtin)
              urgent_last None (world_with [reading; reading]))
  = ["T2"; "T1"]
  /\ map task_id urgent_last = ["T1"; "T2"].
Proof. vm_compute. split; reflexivity. Qed.

(** C1 (as the code has it). For every adapter and every list of tasks,
    the empty one included, [orchestrate_workflow] returns one result per
    task, and the results are in execution order: the result at position i
    belongs to the i-th task of the batch sorted by ascending priority,
    ties in input order.  The results are aligned with the input when the
    input is already in ascending priority order. *)
Theorem workflow_results_in_priority_order O a tasks cfg w :
  exists a' results w',
    Adapter_orchestrate_workflow O a tasks cfg w = (Ok (a', results), w') /\
    List.length results = List.length tasks /\
    map r_task_id results = map task_id (sorted_by_priority tasks) /\
    Permutation (map r_task_id results) (map task_id tasks) /\
    (Sorted by_priority tasks -> map r_task_id results = map task_id tasks).
Proof.
  destruct (Adapter_orchestrate_workflow_spec O a tasks cfg w)
    as (a' & results & w' & Hrun & _ & Hids & _).
  exists a', results, w'. split; [exact Hrun|].
  split; [|split; [exact Hids|split]].
  - rewrite <- (length_map r_task_id), Hids, length_map.
    apply sorted_by_priority_length.
  - rewrite Hids. apply Permutation_map, sorted_by_priority_perm.
  - intros Hs. now rewrite Hids, sorted_by_priority_id.
Qed.

Lemma workflow_results_witness :
  Sorted by_priority (rev urgent_last) /\
  exists a' results w',
    Adapter_orchestrate_workflow builtin_offline (Builtin staffed_builtin)
      (rev urgent_last) None (world_with [reading; reading]) = (Ok (a', results), w') /\
    map r_task_id results = map task_id (rev urgent_last).
Proof.
  assert (Hs : Sorted by_priority (rev urgent_last)).
  { cbn. repeat constructor. unfold by_priority. cbn. lia. }
  split; [exact Hs|].
  destruct (workflow_results_in_priority_order builtin_offline (Builtin staffed_builtin)
              (rev urgent_last) None (world_with [reading; reading]))
    as (a' & results & w' & Hrun & _ & _ & _ & Hal).
  exists a', results, w'. split; [exact Hrun|exact (Hal Hs)].
Defined.




(** ** What output chaining writes *)

(** A loop invariant over the items done, the loop state and the world. *)
Lemma for_each_invariant {A S} (I : list A -> S -> World -> Prop)
    (l : list A) (body : A -> S -> M S) :
  (forall done x s w s' w',
      I done s w -> body x s w = (Ok s', w') -> I (done ++ [x])%list s' w') ->
  forall done s w s' w',
    I done s w -> for_each l body s w = (Ok s', w') -> I (done ++ l)%list s' w'.
Proof.
  intros Hstep. induction l as [|x r IH]; intros done s w s' w' Hi; cbn.
  - intros [= <- <-]. now rewrite app_nil_r.
  - unfold bind. destruct (body x s w) as [[s1|e] w1] eqn:E; [|discriminate].
    intros Hrun.
    replace (done ++ x :: r)%list with ((done ++ [x]) ++ r)%list
      by (rewrite <- app_assoc; reflexivity).
    eapply IH; [eapply Hstep; eassumption|exact Hrun].
Qed.

(** The key under which the output of [task] is handed on. *)
Definition chain_key (task : AgentTask) : string := task_type task ++ "_result".

(** After the inner loop every task with another id holds the output. *)
Lemma chain_output_writes l task out w :
  exists w',
    BuiltinAdapter.chain_output l task out w = (Ok tt, w') /\
    (forall tj, In tj l -> task_id tj <> task_id task ->
       dict_get (heap_get (heap w') (input_data tj)) (chain_key task) = Some out) /\
    (forall loc k,
       dict_get (heap_get (heap w') loc) k = dict_get (heap_get (heap w) loc) k \/
       (k = chain_key task /\ dict_get (heap_get (heap w') loc) k = Some out)).
Proof.
  unfold BuiltinAdapter.chain_output. revert w.
  induction l as [|x r IH]; intros w; cbn [for_each].
  - exists w. split; [reflexivity|]. split; [intros tj []|auto].
  - set (w1 := snd ((if negb (String.eqb (task_id x) (task_id task))
                     then setitem (input_data x) (chain_key task) out
                     else ret tt) w)).
    assert (Hstep : (if negb (String.eqb (task_id x) (task_id task))
                     then setitem (input_data x) (task_type task ++ "_result") out
                     else ret tt) w = (Ok tt, w1))
      by (unfold w1, chain_key; destruct (negb _); reflexivity).
    assert (Hw1 : forall loc k,
               dict_get (heap_get (heap w1) loc) k = dict_get (heap_get (heap w) loc) k \/
               (k = chain_key task /\ dict_get (heap_get (heap w1) loc) k = Some out)).
    { intros loc k. unfold w1. destruct (negb _); [|left; reflexivity].
      cbn [setitem snd heap]. rewrite heap_get_insert.
      destruct (decide (input_data x = loc)) as [->|]; [|left; reflexivity].
      rewrite dict_get_set. destruct (String.eqb_spec (chain_key task) k) as [<-|];
        [right; split; reflexivity|left; reflexivity]. }
    assert (Hx : task_id x <> task_id task ->
                 dict_get (heap_get (heap w1) (input_data x)) (chain_key task) = Some out).
    { intros Hne. unfold w1. apply String.eqb_neq in Hne. rewrite Hne.
      cbn [negb setitem snd heap]. rewrite heap_get_insert.
      rewrite decide_True by reflexivity. rewrite dict_get_set.
      now rewrite String.eqb_refl. }
    destruct (IH w1) as (w' & Hrun & Hall & Hrest).
    exists w'. split; [unfold bind; rewrite Hstep; exact Hrun|]. split.
    + intros tj [<-|Hin] Hne; [|now apply Hall].
      destruct (Hrest (input_data x) (chain_key task)) as [Heq|[_ Hset]];
        [rewrite Heq; now apply Hx|exact Hset].
    + intros loc k. destruct (Hrest loc k) as [Heq|Hset]; [|right; exact Hset].
      rewrite Heq. apply Hw1.
Qed.

(** What the tasks done so far have handed on: a task of the batch with
    another id holds, under the key of each successful task, the output of
    a successful task with that key. *)
Definition handed_on (sorted_tasks done : list AgentTask)
    (results : list AgentResult) (w : World) : Prop :=
  length results = length done /\
  forall i ti ri tj,
    nth_error done i = Some ti -> nth_error results i = Some ri ->
    success ri = true ->
    In tj sorted_tasks -> task_id tj <> task_id ti ->
    exists k tk rk,
      nth_error done k = Some tk /\ nth_error results k = Some rk /\
      success rk = true /\ chain_key tk = chain_key ti /\
      dict_get (heap_get (heap w) (input_data tj)) (chain_key ti) = Some (output rk).

Lemma handed_on_keep sorted_tasks done results w x r w' :
  handed_on sorted_tasks done results w ->
  heap w' = heap w -> success r = false ->
  handed_on sorted_tasks (done ++ [x]) (results ++ [r]) w'.
Proof.
  intros [Hlen Hinv] Hheap Hfail. split; [rewrite !length_app, Hlen; reflexivity|].
  intros i ti ri tj Hi Hr Hs Hin Hne.
  destruct (Nat.lt_ge_cases i (length done)) as [Hlt|Hge].
  - rewrite nth_error_app1 in Hi by exact Hlt.
    rewrite nth_error_app1 in Hr by (rewrite Hlen; exact Hlt).
    destruct (Hinv i ti ri tj Hi Hr Hs Hin Hne) as (k & tk & rk & Hk & Hrk & Hsk & Hkey & Hv).
    exists k, tk, rk.
    assert (Hklt : (k < length done)%nat) by (apply nth_error_Some; congruence).
    rewrite nth_error_app1 by exact Hklt.
    rewrite nth_error_app1 by (rewrite Hlen; exact Hklt).
    rewrite Hheap. auto.
  - rewrite nth_error_app2 in Hr by (rewrite Hlen; exact Hge).
    rewrite Hlen in Hr.
    destruct (i - length done)%nat as [|n]; cbn in Hr; [|destruct n; discriminate].
    inversion Hr; subst. congruence.
Qed.

Lemma handed_on_write sorted_tasks done results w x r w1 w2 :
  handed_on sorted_tasks done results w ->
  heap w1 = heap w -> success r = true ->
  (forall tj, In tj sorted_tasks -> task_id tj <> task_id x ->
     dict_get (heap_get (heap w2) (input_data tj)) (chain_key x) = Some (output r)) ->
  (forall loc k,
     dict_get (heap_get (heap w2) loc) k = dict_get (heap_get (heap w1) loc) k \/
     (k = chain_key x /\ dict_get (heap_get (heap w2) loc) k = Some (output r))) ->
  handed_on sorted_tasks (done ++ [x]) (results ++ [r]) w2.
Proof.
  intros [Hlen Hinv] Hheap Hok Hall Hrest.
  split; [rewrite !length_app, Hlen; reflexivity|].
  assert (Hlast : nth_error (done ++ [x]) (length done) = Some x /\
                  nth_error (results ++ [r]) (length done) = Some r).
  { split; [rewrite nth_error_app2, Nat.sub_diag by lia; reflexivity|].
    rewrite nth_error_app2, Hlen, Nat.sub_diag by lia. reflexivity. }
  destruct Hlast as [Hlx Hlr].
  intros i ti ri tj Hi Hr Hs Hin Hne.
  destruct (Nat.lt_ge_cases i (length done)) as [Hlt|Hge].
  - rewrite nth_error_app1 in Hi by exact Hlt.
    rewrite nth_error_app1 in Hr by (rewrite Hlen; exact Hlt).
    destruct (Hinv i ti ri tj Hi Hr Hs Hin Hne) as (k & tk & rk & Hk & Hrk & Hsk & Hkey & Hv).
    destruct (Hrest (input_data tj) (chain_key ti)) as [Heq|[Hkx Hset]].
    + exists k, tk, rk.
      assert (Hklt : (k < length done)%nat) by (apply nth_error_Some; congruence).
      rewrite nth_error_app1 by exact Hklt.
      rewrite nth_error_app1 by (rewrite Hlen; exact Hklt).
      rewrite Heq, Hheap. auto.
    + exists (length done), x, r. auto.
  - rewrite nth_error_app2 in Hi by exact Hge.
    rewrite nth_error_app2 in Hr by (rewrite Hlen; exact Hge).
    rewrite Hlen in Hr.
    destruct (i - length done)%nat as [|n]; cbn in Hi, Hr; [|destruct n; discriminate].
    inversion Hi; subst ti. inversion Hr; subst ri.
    exists (length done), x, r. split; [exact Hlx|]. split; [exact Hlr|].
    split; [exact Hok|]. split; [reflexivity|]. now apply Hall.
Qed.

Lemma handed_on_workflow_step O cfg sorted_tasks done x st w st' w' :
  chain_outputs cfg = true ->
  handed_on sorted_tasks done (snd st) w ->
  BuiltinAdapter.workflow_step O cfg sorted_tasks x st w = (Ok st', w') ->
  handed_on sorted_tasks (done ++ [x]) (snd st') w'.
Proof.
  intros Hchain Hinv. unfold BuiltinAdapter.workflow_step.
  assert (Hnone : forall self,
             (self, (snd st ++ [BuiltinAdapter.no_agent_result x])%list, w) = (st', w') ->
             handed_on sorted_tasks (done ++ [x]) (snd st') w').
  { intros self [= <- <-]. cbn [snd]. now apply handed_on_keep with w. }
  assert (Hrun : forall a,
             (sr <- BuiltinAdapter.execute_task O (fst st) a x ;;
              (if success (snd sr) && chain_outputs cfg
               then BuiltinAdapter.chain_output sorted_tasks x (output (snd sr))
               else ret tt) ;;;
              ret (fst sr, (snd st ++ [snd sr])%list)) w = (Ok st', w') ->
             handed_on sorted_tasks (done ++ [x]) (snd st') w').
  { intros a. unfold bind at 1.
    destruct (BuiltinAdapter_execute_task_spec O (fst st) a x w)
      as (self1 & r & w1 & -> & (_ & Hheap & _) & _).
    cbn [fst snd]. rewrite Hchain, andb_true_r.
    destruct (success r) eqn:Hs.
    - destruct (chain_output_writes sorted_tasks x (output r) w1)
        as (w2 & Hco & Hall & Hrest).
      unfold bind. rewrite Hco. cbn. intros [= <- <-]. cbn [snd].
      now apply handed_on_write with w w1.
    - cbn. intros [= <- <-]. cbn [snd]. now apply handed_on_keep with w. }
  destruct (match dict_get _ _ with Some _ => _ | None => _ end) as [a|];
    [|destruct (BuiltinAdapter._select_agent_for_task _ _) as [a|]];
    try (intros H; inversion H; subst; now apply (Hnone (fst st)));
    (destruct (String.eqb a "");
     [intros H; inversion H; subst; now apply (Hnone (fst st))|apply Hrun]).
Qed.

(** A batch run by the built-in adapter with chaining on. *)
Lemma handed_on_orchestrate_workflow O self tasks cfg self' results w w' :
  chain_outputs (default default_workflow_config cfg) = true ->
  BuiltinAdapter.orchestrate_workflow O self tasks cfg w = (Ok (self', results), w') ->
  handed_on (sorted_by_priority tasks) (sorted_by_priority tasks) results w'.
Proof.
  intros Hchain. unfold BuiltinAdapter.orchestrate_workflow. intros Hrun.
  refine (for_each_invariant
            (fun done st w => handed_on (sorted_by_priority tasks) done (snd st) w)
            _ _ _ [] (self, []) w (self', results) w' _ Hrun).
  - intros done x s w0 s' w0' Hi Hstep.
    eapply handed_on_workflow_step; eassumption.
  - split; [reflexivity|]. intros i ti ri tj Hi. destruct i; discriminate.
Qed.

Lemma length_append (s t : string) :
  String.length (s ++ t) = (String.length s + String.length t)%nat.
Proof.
  induction s as [|c s IH]; [reflexivity|].
  change (S (String.length (s ++ t)) = S (String.length s + String.length t)).
  now rewrite IH.
Qed.

Lemma append_inj_r (t s1 s2 : string) : s1 ++ t = s2 ++ t -> s1 = s2.
Proof.
  revert s2. induction s1 as [|c s1 IH]; intros [|d s2] H.
  - reflexivity.
  - apply (f_equal String.length) in H. rewrite !length_append in H. cbn in H. lia.
  - apply (f_equal String.length) in H. rewrite !length_append in H. cbn in H. lia.
  - cbn in H. injection H as -> H. f_equal. now apply IH.
Qed.

(** C5, counterexample. The built-in adapter runs an analysis and then a
    diagnosis: afterwards the input dictionary of the diagnosis task has a
    new key [analyze_result]. *)
Definition analysis_then_diagnosis : list AgentTask :=
  [mkTask "T1" "analyze" "Analyze telemetry" 0 1;
   mkTask "T2" "diagnose" "Diagnose issues" 1 2].

Lemma workflow_writes_input_data :
  let w := world_with [reading; []] in
  let w' := snd (Adapter_orchestrate_workflow builtin_offline (Builtin staffed_builtin)
                   analysis_then_diagnosis None w) in
  dict_keys (heap_get (heap w) 1) = [] /\
  dict_keys (heap_get (heap w') 1) = ["analyze_result"].
Proof. vm_compute. repeat split; reflexivity. Qed.

(** C5 (as the code has it). A task record is never changed by a workflow
    run; its input dictionary is, by output chaining.  A batch run by the
    built-in adapter with chaining on hands the output of each successful
    task to the tasks that run after it: afterwards the input dictionary
    of every later task with another id holds, under the key
    [<task type>_result], the output of a successful task of that type.
    Only keys of that form, for the task types of the batch, are ever
    assigned, and only in the input dictionaries of the batch: every other
    key and every other dictionary reads as before.  With [chain_outputs]
    false, and with every other adapter, the object store is left as it
    was. *)
Theorem workflow_writes_only_chained_keys O a tasks cfg w :
  exists a' results w',
    Adapter_orchestrate_workflow O a tasks cfg w = (Ok (a', results), w') /\
    (forall l k,
        ~ (In l (map input_data tasks) /\
           In k (map (fun t => task_type t ++ "_result") tasks)) ->
        dict_get (heap_get (heap w') l) k = dict_get (heap_get (heap w) l) k) /\
    (~ is_builtin a -> heap w' = heap w) /\
    (forall c, cfg = Some c -> chain_outputs c = false -> heap w' = heap w) /\
    (is_builtin a ->
     chain_outputs (default default_workflow_config cfg) = true ->
     forall pre ti mid tj post ri,
       sorted_by_priority tasks = (pre ++ ti :: mid ++ tj :: post)%list ->
       nth_error results (length pre) = Some ri -> success ri = true ->
       task_id tj <> task_id ti ->
       exists k tk rk,
         nth_error (sorted_by_priority tasks) k = Some tk /\
         nth_error results k = Some rk /\
         success rk = true /\ task_type tk = task_type ti /\
         dict_get (heap_get (heap w') (input_data tj)) (task_type ti ++ "_result")
         = Some (output rk)).
Proof.
  destruct (Adapter_orchestrate_workflow_spec O a tasks cfg w)
    as (a' & results & w' & Hrun & _ & _ & (_ & _ & Hch) & Hnb & Hoff).
  exists a', results, w'. split; [exact Hrun|]. split; [exact Hch|].
  split; [|split].
  - intros H. now destruct (Hnb H) as (_ & ? & _).
  - intros c Hc Hf. now destruct (Hoff c Hc Hf) as (_ & ? & _).
  - destruct a as [b| | |]; cbn [is_builtin]; try tauto. intros _ Hchain.
    revert Hrun. cbn [Adapter_orchestrate_workflow with_class
                      adapter_orchestrate_workflow Builtin_adapter].
    unfold bind.
    destruct (BuiltinAdapter.orchestrate_workflow O b tasks cfg w)
      as [[[b' rs]|e] w1] eqn:Hb; [|discriminate].
    cbn [fst snd ret]. intros [= <- <- <-].
    destruct (handed_on_orchestrate_workflow O b tasks cfg b' rs w w1 Hchain Hb)
      as [_ Hinv].
    intros pre ti mid tj post ri Hsorted Hri Hs Hne.
    destruct (Hinv (length pre) ti ri tj) as (k & tk & rk & Hk & Hrk & Hsk & Hkey & Hv).
    + rewrite Hsorted, nth_error_app2, Nat.sub_diag by lia. reflexivity.
    + exact Hri.
    + exact Hs.
    + rewrite Hsorted, in_app_iff. right. right. rewrite in_app_iff. right. now left.
    + exact Hne.
    + exists k, tk, rk. split; [exact Hk|]. split; [exact Hrk|]. split; [exact Hsk|].
      split; [exact (append_inj_r _ _ _ Hkey)|exact Hv].
Qed.

(** * Failures are reported in the result *)

(** A failed result names its error. *)
Definition reported (r : AgentResult) : Prop :=
  success r = false -> exists msg, error r = Some msg.

Lemma reported_success r : success r = true -> reported r.
Proof. intros H H'. congruence. Qed.

Lemma reported_error r msg : error r = Some msg -> reported r.
Proof. intros H _. eauto. Qed.

Lemma dict_get_None_keys {V} (d : list (string * V)) k :
  dict_get d k = None <-> ~ In k (dict_keys d).
Proof.
  induction d as [|[k0 v0] r IH]; cbn; [tauto|].
  destruct (String.eqb_spec k0 k) as [->|Hne].
  - split; [discriminate|]. intros H. destruct H. auto.
  - rewrite IH. tauto.
Qed.

Lemma not_found_message id task :
  exists msg, error (not_found_result id task) = Some msg /\ msg <> "".
Proof. eexists. split; [reflexivity|discriminate]. Qed.

Section ReportedFacts.
Variable O : Oracle.

Lemma reported_LangGraph_execute_task self id task :
  ensures (LangGraphAdapter.execute_task O self id task)
    (fun r => reported r /\
              (dict_get (LangGraphAdapter.agents self) id = None ->
               r = not_found_result id task)).
Proof.
  unfold LangGraphAdapter.execute_task.
  apply ensures_bind; intros start_time.
  destruct (dict_get _ id) as [agent|].
  2:{ apply ensures_ret. split; [(eapply reported_error; reflexivity)|auto]. }
  apply ensures_try.
  - apply ensures_bind; intros data.
    eapply ensures_bind_with; [apply ensures_LangGraph_invoke|].
    intros rs (d & out & -> & Hout & Hst & Hfree).
    apply ensures_bind; intros t.
    eapply ensures_bind_with.
    { apply ensures_lift with (P := fun v => v = VStr "completed").
      cbn. rewrite Hst. cbn. congruence. }
    intros ? ->.
    apply ensures_bind; intros out'. apply ensures_bind; intros err.
    apply ensures_ret. split; [now apply reported_success|discriminate].
  - intros e. apply ensures_bind; intros t. apply ensures_ret.
    split; [now apply reported_error with (msg := exn_str e)|discriminate].
Qed.

(** A fault of the graph runtime becomes a failed result with the
    exception's text. *)
Lemma LangGraph_fault_reported self id task w e :
  is_Some (dict_get (LangGraphAdapter.agents self) id) ->
  StateGraph_invoke_fault O (S (tick w)) = Some e ->
  exists r w',
    LangGraphAdapter.execute_task O self id task w = (Ok r, w') /\
    success r = false /\ error r = Some (exn_str e) /\ metadata r = None.
Proof.
  intros [agent Hreg] Hfault. unfold LangGraphAdapter.execute_task.
  unfold bind at 1. cbn [time_now bind next_tick ret fst snd].
  rewrite Hreg. unfold try_except, LangGraphAdapter.invoke, bind, deref, next_tick, ret.
  cbn [fst snd tick heap]. rewrite Hfault.
  cbn. eexists _, _. repeat split; reflexivity.
Qed.

Lemma reported_workflow_step cfg sorted_tasks task st :
  ensures (BuiltinAdapter.workflow_step O cfg sorted_tasks task st)
          (fun st' => exists r, snd st' = (snd st ++ [r])%list /\ reported r).
Proof.
  assert (Hnone : reported (BuiltinAdapter.no_agent_result task))
    by now apply reported_error with (msg := "No suitable agent found for task").
  unfold BuiltinAdapter.workflow_step.
  destruct (match dict_get _ _ with Some _ => _ | None => _ end) as [a|];
    [|destruct (BuiltinAdapter._select_agent_for_task _ _) as [a|]];
    try (apply ensures_ret; eauto);
    (destruct (String.eqb a ""); [apply ensures_ret; eauto|]);
    (eapply ensures_bind_with with (P := fun sr => reported (snd sr));
     [|intros sr Hsr; apply ensures_bind; intros _; apply ensures_ret; eauto]);
    intros w [self1 r1] w1 H;
    destruct (BuiltinAdapter_execute_task_spec O (fst st) a task w)
      as (self' & r & w' & H' & _ & _ & _ & _ & Hcase);
    rewrite H in H'; inversion H'; subst; cbn [snd];
    (destruct (dict_get _ a);
     [destruct (fst (BuiltinAgent.run_handler _ _ _ _));
      [apply reported_success; tauto
      |destruct Hcase as (_ & _ & He & _); eapply reported_error; exact He]
     |destruct Hcase as [-> _]; (eapply reported_error; reflexivity)]).
Qed.

Lemma reported_orchestrate_workflow self tasks cfg :
  ensures (BuiltinAdapter.orchestrate_workflow O self tasks cfg)
          (fun out => Forall reported (snd out)).
Proof.
  unfold BuiltinAdapter.orchestrate_workflow.
  apply (ensures_for_each _ _ (fun _ st => Forall reported (snd st)))
    with (done := []); [|constructor].
  intros x done st Hst.
  eapply ensures_weaken; [apply reported_workflow_step|].
  intros st' (r & -> & Hr). apply Forall_app. split; [exact Hst|].
  constructor; [exact Hr|constructor].
Qed.

Lemma reported_LangGraph_orchestrate_workflow self tasks cfg :
  ensures (LangGraphAdapter.orchestrate_workflow O self tasks cfg)
          (Forall reported).
Proof.
  unfold LangGraphAdapter.orchestrate_workflow.
  apply (ensures_for_each _ _ (fun _ results => Forall reported results))
    with (done := []); [|constructor].
  intros task done results Hdone.
  assert (Hret : forall r, reported r ->
            ensures (@ret World _ (results ++ [r])%list) (Forall reported)).
  { intros r Hr. apply ensures_ret, Forall_app. split; [exact Hdone|].
    constructor; [exact Hr|constructor]. }
  assert (Hnone : reported (LangGraphAdapter.no_agent_result task))
    by now apply reported_error with (msg := "No suitable agent found").
  destruct (LangGraphAdapter._find_agent_for_task self task) as [agent_id|];
    [|now apply Hret].
  destruct (String.eqb agent_id ""); [now apply Hret|].
  eapply ensures_bind_with; [apply reported_LangGraph_execute_task|].
  intros r (Hr & _). now apply Hret.
Qed.

Lemma Forall2_reported {P : AgentTask -> AgentResult -> Prop} ts rs :
  (forall t r, P t r -> success r = true) ->
  Forall2 P ts rs -> Forall reported rs.
Proof.
  intros HP H. induction H; constructor; auto.
  apply reported_success. eauto.
Qed.

Lemma reported_CrewAI_execute_task self id task :
  ensures (CrewAIAdapter.execute_task O self id task) reported.
Proof.
  eapply ensures_weaken; [apply ensures_CrewAI_execute_task|].
  intros r (_ & _ & Hcase). destruct (dict_get _ id).
  - apply reported_success. tauto.
  - rewrite Hcase. (eapply reported_error; reflexivity).
Qed.

Lemma reported_CrewAI_orchestrate_workflow self tasks cfg :
  ensures (CrewAIAdapter.orchestrate_workflow O self tasks cfg)
          (Forall reported).
Proof.
  assert (Hfb : ensures (CrewAIAdapter._fallback_orchestrate O self tasks cfg)
                  (Forall reported)).
  { eapply ensures_weaken; [apply ensures_CrewAI_fallback_orchestrate|].
    intros results. apply Forall2_reported. now intros t r (_ & ? & _). }
  unfold CrewAIAdapter.orchestrate_workflow.
  destruct (_ || _); [exact Hfb|].
  apply ensures_try; [|intros _; exact Hfb].
  apply ensures_bind; intros crewai_tasks.
  unfold CrewAIAdapter.run_crewai_tasks.
  apply (ensures_for_each _ _ (fun _ results => Forall reported results))
    with (done := []); [|constructor].
  intros [task agent] done results Hres. cbn [fst snd].
  apply ensures_bind; intros t. apply ensures_bind; intros _.
  eapply ensures_bind_with with (P := reported).
  - step_ensures_ret ltac:(first [ now apply reported_success
                                 | (eapply reported_error; reflexivity) ]).
  - intros r Hr. apply ensures_ret, Forall_app. split; [exact Hres|].
    constructor; [exact Hr|constructor].
Qed.

Lemma reported_AutoGen_execute_task self id task :
  ensures (AutoGenAdapter.execute_task O self id task) reported.
Proof.
  eapply ensures_weaken; [apply ensures_AutoGen_execute_task|].
  intros r (_ & _ & Hcase). destruct (dict_get _ id).
  - apply reported_success. tauto.
  - rewrite Hcase. (eapply reported_error; reflexivity).
Qed.

Lemma reported_AutoGen_orchestrate_workflow self tasks cfg :
  ensures (AutoGenAdapter.orchestrate_workflow O self tasks cfg)
          (Forall reported).
Proof.
  unfold AutoGenAdapter.orchestrate_workflow.
  destruct (_ || _).
  { eapply ensures_weaken; [apply ensures_AutoGen_fallback_orchestrate|].
    intros results. apply Forall2_reported. now intros t r (_ & ? & _). }
  apply (ensures_for_each _ _ (fun _ results => Forall reported results))
    with (done := []); [|constructor].
  intros task done results Hdone.
  assert (Hret : forall r, reported r ->
            ensures (@ret World _ (results ++ [r])%list) (Forall reported)).
  { intros r Hr. apply ensures_ret, Forall_app. split; [exact Hdone|].
    constructor; [exact Hr|constructor]. }
  assert (Hnone : reported (AutoGenAdapter.no_agent_result task))
    by (eapply reported_error; reflexivity).
  destruct (AutoGenAdapter._select_agent_for_task self task) as [agent_id|];
    [|now apply Hret].
  destruct (String.eqb agent_id ""); [now apply Hret|].
  eapply ensures_bind_with; [apply reported_AutoGen_execute_task|].
  intros r Hr. now apply Hret.
Qed.
End ReportedFacts.

(** * Execution by any adapter *)


(** The adapters that substitute a canned result for a failed call. *)
Definition falls_back (a : Adapter) : Prop :=
  match a with CrewAI _ | AutoGen _ => True | _ => False end.

Lemma Adapter_execute_task_reported O a id task w :
  exists a' r w',
    Adapter_execute_task O a id task w = (Ok (a', r), w') /\
    r_task_id r = task_id task /\ reported r /\
    (~ In id (Adapter_list_agents a) -> r = not_found_result id task) /\
    (is_builtin a -> success r = false ->
     exists msg, error r = Some msg /\ msg <> "") /\
    (In id (Adapter_list_agents a) -> falls_back a ->
     success r = true /\ error r = None).
Proof.
  destruct a as [b|l|c|g]; cbn [Adapter_execute_task with_class Adapter_list_agents
    adapter_list_agents adapter_execute_task Builtin_adapter LangGraph_adapter
    CrewAI_adapter AutoGen_adapter].
  - destruct (BuiltinAdapter_execute_task_spec O b id task w)
      as (b' & r & w' & Hrun & _ & Hid & _ & _ & Hcase).
    exists (Builtin b'), r, w'. unfold bind. rewrite Hrun. cbn [fst snd ret].
    split; [reflexivity|]. split; [exact Hid|].
    destruct (dict_get (BuiltinAdapter.agents b) id) as [agent|] eqn:E.
    + destruct (fst (BuiltinAgent.run_handler _ _ _ _)) as [out|e].
      * destruct Hcase as (Hs & _). split; [now apply reported_success|].
        split; [intros H; apply dict_get_None_keys in H; congruence|].
        split; [congruence|intros _ []].
      * destruct Hcase as (_ & _ & He & Hne).
        split; [eapply reported_error; exact He|].
        split; [intros H; apply dict_get_None_keys in H; congruence|].
        split; [eauto|intros _ []].
    + destruct Hcase as [-> _]. split; [eapply reported_error; reflexivity|].
      split; [reflexivity|]. split; [intros _ _; apply not_found_message|intros _ []].
  - destruct (run_spec ticks_only _ _
                (total_LangGraph_execute_task O l id task)
                (ensures_and _ _ _ (ensures_LangGraph_execute_task O l id task)
                                   (reported_LangGraph_execute_task O l id task))
                (frame_LangGraph_execute_task O l id task) w)
      as (r & w' & Hrun & ((Hid & _) & Hrep & Hnf) & _).
    exists (LangGraph l), r, w'. unfold keep, bind. rewrite Hrun. cbn [fst snd ret].
    split; [reflexivity|]. split; [exact Hid|]. split; [exact Hrep|].
    split; [intros H; apply dict_get_None_keys in H; auto|].
    split; [intros []|intros _ []].
  - destruct (run_spec ticks_only _ _
                (total_CrewAI_execute_task O c id task)
                (ensures_and _ _ _ (ensures_CrewAI_execute_task O c id task)
                                   (reported_CrewAI_execute_task O c id task))
                (frame_CrewAI_execute_task O c id task) w)
      as (r & w' & Hrun & ((Hid & _ & Hcase) & Hrep) & _).
    exists (CrewAI c), r, w'. unfold keep, bind. rewrite Hrun. cbn [fst snd ret].
    split; [reflexivity|]. split; [exact Hid|]. split; [exact Hrep|].
    destruct (dict_get (CrewAIAdapter.agents c) id) eqn:E.
    + split; [intros H; apply dict_get_None_keys in H; congruence|].
      split; [intros []|tauto].
    + split; [auto|]. split; [intros []|].
      intros H. apply dict_get_None_keys in E. contradiction.
  - destruct (run_spec ticks_only _ _
                (total_AutoGen_execute_task O g id task)
                (ensures_and _ _ _ (ensures_AutoGen_execute_task O g id task)
                                   (reported_AutoGen_execute_task O g id task))
                (frame_AutoGen_execute_task O g id task) w)
      as (r & w' & Hrun & ((Hid & _ & Hcase) & Hrep) & _).
    exists (AutoGen g), r, w'. unfold keep, bind. rewrite Hrun. cbn [fst snd ret].
    split; [reflexivity|]. split; [exact Hid|]. split; [exact Hrep|].
    destruct (dict_get (AutoGenAdapter.agents g) id) eqn:E.
    + split; [intros H; apply dict_get_None_keys in H; congruence|].
      split; [intros []|tauto].
    + split; [auto|]. split; [intros []|].
      intros H. apply dict_get_None_keys in E. contradiction.
Qed.

Lemma Adapter_orchestrate_workflow_reported O a tasks cfg w :
  exists a' results w',
    Adapter_orchestrate_workflow O a tasks cfg w = (Ok (a', results), w') /\
    Forall reported results.
Proof.
  destruct a as [b|l|c|g]; cbn [Adapter_orchestrate_workflow with_class
    adapter_orchestrate_workflow Builtin_adapter LangGraph_adapter
    CrewAI_adapter AutoGen_adapter].
  - destruct (total_orchestrate_workflow O b tasks cfg w) as ([b' rs] & w' & Hrun).
    exists (Builtin b'), rs, w'. unfold bind. rewrite Hrun.
    split; [reflexivity|]. exact (reported_orchestrate_workflow O b tasks cfg _ _ _ Hrun).
  - destruct (total_LangGraph_orchestrate_workflow O l tasks cfg w) as (rs & w' & Hrun).
    exists (LangGraph l), rs, w'. unfold keep, bind. rewrite Hrun.
    split; [reflexivity|].
    exact (reported_LangGraph_orchestrate_workflow O l tasks cfg _ _ _ Hrun).
  - destruct (total_CrewAI_orchestrate_workflow O c tasks cfg w) as (rs & w' & Hrun).
    exists (CrewAI c), rs, w'. unfold keep, bind. rewrite Hrun.
    split; [reflexivity|].
    exact (reported_CrewAI_orchestrate_workflow O c tasks cfg _ _ _ Hrun).
  - destruct (total_AutoGen_orchestrate_workflow O g tasks cfg w) as (rs & w' & Hrun).
    exists (AutoGen g), rs, w'. unfold keep, bind. rewrite Hrun.
    split; [reflexivity|].
    exact (reported_AutoGen_orchestrate_workflow O g tasks cfg _ _ _ Hrun).
Qed.


(** An environment whose crew and chat runs fail. *)
Definition with_failing_runtime (O : Oracle) : Oracle :=
  {| uuid4_hex := uuid4_hex O;
     time_time := time_time O;
     now_isoformat := now_isoformat O;
     py_repr := py_repr O;
     unicode_title := unicode_title O;
     unicode_lower := unicode_lower O;
     float_ms := float_ms O;
     json_len := json_len O;
     getenv := getenv O;
     http_post := http_post O;
     LANGGRAPH_AVAILABLE := LANGGRAPH_AVAILABLE O;
     CREWAI_AVAILABLE := CREWAI_AVAILABLE O;
     AUTOGEN_AVAILABLE := AUTOGEN_AVAILABLE O;
     ChatOpenAI_new := ChatOpenAI_new O;
     StateGraph_compile_fault := StateGraph_compile_fault O;
     StateGraph_invoke_fault := StateGraph_invoke_fault O;
     crewai_Agent_new := crewai_Agent_new O;
     crewai_Task_Crew_new := crewai_Task_Crew_new O;
     crewai_kickoff := fun n => Raise (Exn "RuntimeError" "LLM provider unreachable");
     autogen_UserProxyAgent_new := autogen_UserProxyAgent_new O;
     autogen_AssistantAgent_new := autogen_AssistantAgent_new O;
     autogen_initiate_chat :=
       fun n => Raise (Exn "RuntimeError" "LLM provider unreachable") |}.

Definition crewai_failing : Oracle :=
  with_failing_runtime (demo_oracle (Some "crewai") true offline).

Definition diagnose_task : AgentTask :=
  mkTask "WF-1-diagnosis" "diagnose" "Diagnose issues" 0 1.

(** A CrewAI adapter after [create_agent] for a diagnosis worker. *)
Definition crewai_staffed (O : Oracle) : CrewAIAdapter.t :=
  match CrewAIAdapter.create_agent O (CrewAIAdapter.__init__ None) DIAGNOSIS
          "diagnosis-agent" None None fresh_world with
  | (Ok (self, _), _) => self
  | (Raise _, _) => CrewAIAdapter.__init__ None
  end.






(** C4, counterexample. CrewAI is installed, the worker is registered, and
    the crew run raises: [execute_task] returns a result with [success]
    true and no error. *)
Lemma failed_call_reported_as_success :
  let O := crewai_failing in
  is_ok (crewai_kickoff O 2) = false /\
  exists a' r w',
    Adapter_execute_task O (CrewAI (crewai_staffed O)) "diagnosis-agent"
      diagnose_task fresh_world = (Ok (a', r), w') /\
    success r = true /\ error r = None.
Proof. vm_compute. split; [reflexivity|]. eexists _, _, _. repeat split; reflexivity. Qed.

(** C4 (as the code has it). For every adapter, worker id, task and batch,
    [execute_task] and [orchestrate_workflow] return; no exception reaches
    the caller.  A failed result always names its error: for an
    unregistered worker it is "Agent <id> not found"; for the built-in
    adapter it is the text of the handler's exception, which is never
    empty; for LangGraph it is the text of the runtime's exception.  An
    exception inside a registered CrewAI or AutoGen worker is not reported
    as a failure: the result has [success] true and no error. *)
Theorem execution_errors_become_results O a w :
  (forall id task,
      exists a' r w',
        Adapter_execute_task O a id task w = (Ok (a', r), w') /\
        r_task_id r = task_id task /\
        (success r = false -> exists msg, error r = Some msg) /\
        (~ In id (Adapter_list_agents a) ->
         success r = false /\ error r = Some ("Agent " ++ id ++ " not found")) /\
        (is_builtin a -> success r = false ->
         exists msg, error r = Some msg /\ msg <> "") /\
        (In id (Adapter_list_agents a) -> falls_back a ->
         success r = true /\ error r = None)) /\
  (forall b id task e,
      a = Builtin b ->
      is_Some (dict_get (BuiltinAdapter.agents b) id) ->
      fst (BuiltinAgent.run_handler O (task_type task)
             (heap_get (heap w) (input_data task)) (started O w)) = Raise e ->
      exists a' r w',
        Adapter_execute_task O a id task w = (Ok (a', r), w') /\
        success r = false /\ error r = Some (exn_str e) /\ exn_str e <> "") /\
  (forall l id task e,
      a = LangGraph l ->
      is_Some (dict_get (LangGraphAdapter.agents l) id) ->
      StateGraph_invoke_fault O (S (tick w)) = Some e ->
      exists a' r w',
        Adapter_execute_task O a id task w = (Ok (a', r), w') /\
        success r = false /\ error r = Some (exn_str e)) /\
  (forall tasks cfg,
      exists a' results w',
        Adapter_orchestrate_workflow O a tasks cfg w = (Ok (a', results), w') /\
        Forall (fun r => success r = false -> exists msg, error r = Some msg)
               results).
Proof.
  split; [|split; [|split]].
  - intros id task.
    destruct (Adapter_execute_task_reported O a id task w)
      as (a' & r & w' & Hrun & Hid & Hrep & Hnf & Hb & Hfb).
    exists a', r, w'. split; [exact Hrun|]. split; [exact Hid|].
    split; [exact Hrep|]. split; [|split; [exact Hb|exact Hfb]].
    intros Hnew. rewrite (Hnf Hnew). split; reflexivity.
  - intros b id task e -> [agent Hreg] Hraise.
    destruct (BuiltinAdapter_execute_task_spec O b id task w)
      as (b' & r & w' & Hrun & _ & _ & _ & _ & Hcase).
    rewrite Hreg, Hraise in Hcase. destruct Hcase as (Hs & _ & He & Hne).
    exists (Builtin b'), r, w'.
    cbn [Adapter_execute_task with_class adapter_execute_task Builtin_adapter].
    unfold bind. rewrite Hrun. auto.
  - intros l id task e -> Hreg Hfault.
    destruct (LangGraph_fault_reported O l id task w e Hreg Hfault)
      as (r & w' & Hrun & Hs & He & _).
    exists (LangGraph l), r, w'.
    cbn [Adapter_execute_task with_class adapter_execute_task LangGraph_adapter].
    unfold keep, bind. rewrite Hrun. auto.
  - intros tasks cfg. apply Adapter_orchestrate_workflow_reported.
Qed.

(** A diagnosis request whose analysis is a number. *)
Definition bad_analysis : dict := [("analysis", VInt 5)].

Lemma execution_errors_witness :
  let O := builtin_offline in
  let w := world_with [bad_analysis] in
  is_Some (dict_get (BuiltinAdapter.agents staffed_builtin) "diagnosis-1") /\
  exists a' r w',
    Adapter_execute_task O (Builtin staffed_builtin) "diagnosis-1" diagnose_task w
    = (Ok (a', r), w') /\
    success r = false /\
    error r = Some "'int' object has no attribute 'get'".
Proof.
  intros O w.
  assert (Hreg : is_Some (dict_get (BuiltinAdapter.agents staffed_builtin)
                            "diagnosis-1")) by (vm_compute; eexists; reflexivity).
  split; [exact Hreg|].
  destruct (proj1 (proj2 (execution_errors_become_results O (Builtin staffed_builtin) w))
              staffed_builtin "diagnosis-1" diagnose_task
              (AttributeError (VInt 5) "get") eq_refl Hreg)
    as (a' & r & w' & Hrun & Hs & He & _); [vm_compute; reflexivity|].
  exists a', r, w'. split; [exact Hrun|]. split; [exact Hs|exact He].
Defined.

(** * The built-in diagnosis *)

(** C10, counterexample. The analysis in the input map is a number:
    [_diagnose] raises and returns no output. *)
Lemma diagnose_raises_on_bad_analysis :
  exists e w',
    BuiltinAgent._diagnose builtin_offline bad_analysis fresh_world = (Raise e, w') /\
    exn_class e = "AttributeError" /\
    exn_str e = "'int' object has no attribute 'get'".
Proof. vm_compute. eexists _, _. repeat split; reflexivity. Qed.

(** C10 (as the code has it). For every input map whose [analysis] entry,
    when present, is a map, and whose [health_indicators] entry, when
    present, is a map, [_diagnose] returns an output whose [severity] is
    "low", "medium" or "high", never "critical", and equals the value
    assigned by the last warning branch taken, in the order engine (high),
    oil (high), battery (medium), brakes (high): "high" when the brakes
    warn; otherwise "medium" when the battery warns; otherwise "high" when
    the engine or the oil warns; otherwise "low". *)
Theorem diagnose_severity_is_last_branch O data h w :
  diagnosis_input_ok data h ->
  exists out w',
    BuiltinAgent._diagnose O data w = (Ok (VDict out), w') /\
    dict_get out "severity" = Some (VStr (last_branch_severity h)) /\
    In (last_branch_severity h) ["low"; "medium"; "high"] /\
    last_branch_severity h <> "critical" /\
    last_branch_severity h
    = (if warns h "brakes" then "high"
       else if warns h "battery" then "medium"
       else if warns h "engine" || warns h "oil" then "high"
       else "low").
Proof.
  intros Hok. destruct (diagnose_severity O data h w Hok) as (out & w' & Hrun & Hsev & Hin).
  exists out, w'. split; [exact Hrun|]. split; [exact Hsev|]. split; [exact Hin|].
  split.
  - intros Hc. rewrite Hc in Hin. cbn in Hin.
    destruct Hin as [H|[H|[H|[]]]]; discriminate H.
  - unfold last_branch_severity. cbn [fold_left severity_branches fst snd].
    destruct (warns h "engine"), (warns h "oil"), (warns h "battery"),
      (warns h "brakes"); reflexivity.
Qed.

Definition battery_warning : dict :=
  [("analysis",
    VDict [("vehicle_id", VStr "MH12AB1234");
           ("health_indicators",
            VDict [("engine", VStr "warning"); ("oil", VStr "good");
                   ("battery", VStr "warning"); ("brakes", VStr "good")])])].

Lemma diagnose_severity_witness :
  let h := [("engine", VStr "warning"); ("oil", VStr "good");
            ("battery", VStr "warning"); ("brakes", VStr "good")] in
  diagnosis_input_ok battery_warning h /\
  exists out w',
    BuiltinAgent._diagnose builtin_offline battery_warning fresh_world
    = (Ok (VDict out), w') /\
    dict_get out "severity" = Some (VStr "medium").
Proof.
  intros h.
  assert (Hok : diagnosis_input_ok battery_warning h).
  { eexists. split; reflexivity. }
  split; [exact Hok|].
  destruct (diagnose_severity_is_last_branch builtin_offline battery_warning h
              fresh_world Hok) as (out & w' & Hrun & Hsev & _).
  exists out, w'. split; [exact Hrun|exact Hsev].
Defined.

(** * Further properties of the built-in handlers *)

Lemma Qlt_bool_iff (a b : Q) : Qlt_bool a b = true <-> (a < b)%Q.
Proof.
  unfold Qlt_bool. rewrite negb_true_iff, <- not_true_iff_false, Qle_bool_iff.
  split; [apply Qnot_le_lt|apply Qlt_not_le].
Qed.

(** The four readings [_analyze] compares, with the defaults of the source. *)
Record readings : Type := {
  engine_temp : Q;
  oil_pressure : Q;
  battery_voltage : Q;
  brake_pad_wear_avg : Q
}.

Definition reads (telemetry : dict) (r : readings) : Prop :=
  num_of (default (VInt 90) (dict_get telemetry "engine_temp")) = Some (engine_temp r) /\
  num_of (default (VInt 40) (dict_get telemetry "oil_pressure")) = Some (oil_pressure r) /\
  num_of (default (VInt 12) (dict_get telemetry "battery_voltage"))
  = Some (battery_voltage r) /\
  num_of (default (VFloat float_0_5) (dict_get telemetry "brake_pad_wear_avg"))
  = Some (brake_pad_wear_avg r).

(** The indicators in the order of the source, each with whether it is good. *)
Definition indicators (r : readings) : list (string * bool) :=
  [("engine", Qlt_bool (engine_temp r) 100);
   ("oil", Qlt_bool 30 (oil_pressure r));
   ("battery", Qlt_bool float_11_5 (battery_voltage r));
   ("brakes", Qlt_bool float_0_2 (brake_pad_wear_avg r))].

Definition warning_names (r : readings) : list string :=
  map fst (List.filter (fun kb => negb (snd kb)) (indicators r)).

Definition analysis_of (telemetry : dict) (r : readings) : value :=
  VDict
    [("vehicle_id", default (VStr "unknown") (dict_get telemetry "vehicle_id"));
     ("health_indicators",
      VDict (map (fun kb => (fst kb, BuiltinAgent.health_of (snd kb))) (indicators r)));
     ("overall_status",
      VStr (match warning_names r with [] => "healthy" | _ => "needs_attention" end));
     ("recommendations",
      VList (map (fun n => VStr ("Check " ++ n ++ " system")) (warning_names r)))].

Lemma analyze_run data telemetry r w :
  default (VDict []) (dict_get data "telemetry") = VDict telemetry ->
  reads telemetry r ->
  BuiltinAgent._analyze data w = (Ok (analysis_of telemetry r), w).
Proof.
  intros Ht (He & Ho & Hb & Hk). unfold BuiltinAgent._analyze.
  rewrite Ht. cbn [py_get lift bind ret fst snd].
  unfold py_lt, py_gt. rewrite He, Ho, Hb, Hk. cbn [num_of lift bind ret fst snd].
  unfold analysis_of, warning_names, indicators.
  change (inject_Z 100) with (100%Q). change (inject_Z 30) with (30%Q).
  destruct (Qlt_bool (engine_temp r) 100), (Qlt_bool 30 (oil_pressure r)),
    (Qlt_bool float_11_5 (battery_voltage r)),
    (Qlt_bool float_0_2 (brake_pad_wear_avg r)); reflexivity.
Qed.

(** X1. On a telemetry map whose four readings are numbers (missing ones
    take the defaults 90, 40, 12 and 0.5), [_analyze] returns without
    touching the world; the status is "healthy" exactly when the engine is
    below 100, the oil above 30, the battery above 11.5 and the brake pads
    above 0.2, and "needs_attention" otherwise; there is one recommendation
    per warning, in the order engine, oil, battery, brakes. *)
Theorem analyze_status_by_thresholds data telemetry r w :
  default (VDict []) (dict_get data "telemetry") = VDict telemetry ->
  reads telemetry r ->
  exists out recs,
    BuiltinAgent._analyze data w = (Ok (VDict out), w) /\
    dict_get out "vehicle_id"
    = Some (default (VStr "unknown") (dict_get telemetry "vehicle_id")) /\
    (dict_get out "overall_status" = Some (VStr "healthy") <->
     (engine_temp r < 100 /\ 30 < oil_pressure r /\
      float_11_5 < battery_voltage r /\ float_0_2 < brake_pad_wear_avg r)%Q) /\
    (dict_get out "overall_status" = Some (VStr "healthy") \/
     dict_get out "overall_status" = Some (VStr "needs_attention")) /\
    dict_get out "recommendations" = Some (VList recs) /\
    recs = map (fun n => VStr ("Check " ++ n ++ " system")) (warning_names r) /\
    (recs = [] <-> dict_get out "overall_status" = Some (VStr "healthy")).
Proof.
  intros Ht Hr. rewrite (analyze_run data telemetry r w Ht Hr).
  unfold analysis_of.
  eexists _, (map (fun n => VStr ("Check " ++ n ++ " system")) (warning_names r)).
  split; [reflexivity|]. split; [reflexivity|].
  cbn [dict_get String.eqb Ascii.eqb Bool.eqb].
  rewrite <- !Qlt_bool_iff. unfold warning_names, indicators.
  destruct (Qlt_bool (engine_temp r) 100), (Qlt_bool 30 (oil_pressure r)),
    (Qlt_bool float_11_5 (battery_voltage r)),
    (Qlt_bool float_0_2 (brake_pad_wear_avg r)); cbn;
    (split; [split; [try discriminate; auto
                    |try reflexivity; intros (? & ? & ? & ?); discriminate]|]);
    (split; [auto|]); (split; [reflexivity|]); (split; [reflexivity|]);
    (split; [try discriminate; auto|try discriminate; auto]).
Qed.

Definition cool_engine : dict :=
  [("vehicle_id", VStr "MH12AB1234"); ("engine_temp", VInt 85);
   ("oil_pressure", VFloat (71 # 2))].

Lemma analyze_status_witness :
  let r := {| engine_temp := 85; oil_pressure := 71 # 2; battery_voltage := 12;
              brake_pad_wear_avg := float_0_5 |} in
  reads cool_engine r /\
  exists out,
    BuiltinAgent._analyze [("telemetry", VDict cool_engine)] fresh_world
    = (Ok (VDict out), fresh_world) /\
    dict_get out "overall_status" = Some (VStr "healthy").
Proof.
  intros r.
  assert (Hr : reads cool_engine r) by (repeat split; reflexivity).
  split; [exact Hr|].
  destruct (analyze_status_by_thresholds [("telemetry", VDict cool_engine)]
              cool_engine r fresh_world eq_refl Hr)
    as (out & recs & Hrun & _ & Hiff & _).
  exists out. split; [exact Hrun|]. apply Hiff. vm_compute. repeat split; reflexivity.
Defined.

(** X2. [_analyze] returns exactly when the telemetry entry is a map (or is
    missing) and each of the four readings is a number or missing; otherwise
    it raises: [AttributeError] for a telemetry that is no map, [TypeError]
    for a reading that cannot be compared. *)
Theorem analyze_returns_iff_numeric data w :
  let telemetry := default (VDict []) (dict_get data "telemetry") in
  (is_ok (fst (BuiltinAgent._analyze data w)) = true <->
   exists t r, telemetry = VDict t /\ reads t r) /\
  (forall e w', BuiltinAgent._analyze data w = (Raise e, w') ->
     w' = w /\
     ((exists t, telemetry = VDict t) -> exn_class e = "TypeError") /\
     ((forall t, telemetry <> VDict t) ->
      e = AttributeError telemetry "get")).
Proof.
  intros telemetry. unfold BuiltinAgent._analyze. fold telemetry.
  destruct telemetry as [| | | | | |t|] eqn:Et;
    try (cbn; split;
         [split; [discriminate|intros (t & r & Heq & _); discriminate]
         |intros e w' H; inversion H; subst; split; [reflexivity|];
          split; [intros (t & Heq); discriminate|reflexivity]]).
  cbn [py_get lift bind ret fst snd]. unfold py_lt, py_gt.
  destruct (num_of (default (VInt 90) (dict_get t "engine_temp"))) as [e0|] eqn:He.
  2:{ cbn. split.
      - split; [discriminate|]. intros (t' & r & Heq & (Hr & _)).
        inversion Heq; subst. congruence.
      - intros e w' H. inversion H; subst. split; [reflexivity|].
        split; [reflexivity|]. intros Hn. destruct (Hn t eq_refl). }
  cbn [num_of lift bind ret fst snd].
  destruct (num_of (default (VInt 40) (dict_get t "oil_pressure"))) as [p0|] eqn:Ho.
  2:{ cbn. split.
      - split; [discriminate|]. intros (t' & r & Heq & (_ & Hr & _)).
        inversion Heq; subst. congruence.
      - intros e w' H. inversion H; subst. split; [reflexivity|].
        split; [reflexivity|]. intros Hn. destruct (Hn t eq_refl). }
  cbn [num_of lift bind ret fst snd].
  destruct (num_of (default (VInt 12) (dict_get t "battery_voltage"))) as [b0|] eqn:Hb.
  2:{ cbn. split.
      - split; [discriminate|]. intros (t' & r & Heq & (_ & _ & Hr & _)).
        inversion Heq; subst. congruence.
      - intros e w' H. inversion H; subst. split; [reflexivity|].
        split; [reflexivity|]. intros Hn. destruct (Hn t eq_refl). }
  cbn [num_of lift bind ret fst snd].
  destruct (num_of (default (VFloat float_0_5) (dict_get t "brake_pad_wear_avg")))
    as [k0|] eqn:Hk.
  2:{ cbn. split.
      - split; [discriminate|]. intros (t' & r & Heq & (_ & _ & _ & Hr)).
        inversion Heq; subst. congruence.
      - intros e w' H. inversion H; subst. split; [reflexivity|].
        split; [reflexivity|]. intros Hn. destruct (Hn t eq_refl). }
  cbn. split.
  - split; [|reflexivity]. intros _.
    exists t, {| engine_temp := e0; oil_pressure := p0; battery_voltage := b0;
                 brake_pad_wear_avg := k0 |}.
    split; [reflexivity|]. repeat split; assumption.
  - intros e w' H. discriminate H.
Qed.

(** What [_diagnose] records for an indicator that warns: the finding, the
    root cause, the recommended action and the severity it assigns. *)
Definition diagnosis_rows : list (string * (string * string * string * string)) :=
  [("engine", ("Engine temperature elevated", "Possible cooling system issue",
               "Inspect coolant levels and thermostat", "high"));
   ("oil", ("Oil pressure below threshold", "Oil leak or pump degradation",
            "Check oil level and inspect for leaks", "high"));
   ("battery", ("Battery voltage low", "Battery aging or charging system issue",
                "Test battery and alternator", "medium"));
   ("brakes", ("Brake pads worn", "Normal wear", "Replace brake pads", "high"))].

(** The rows of the indicators of [h] that carry a warning, in the order
    of the source. *)
Definition rows_taken (h : dict) : list (string * string * string * string) :=
  map snd (List.filter (fun row => warns h (fst row)) diagnosis_rows).

Definition diagnosis_of (vehicle_id : value) (code : string) (h : dict) : value :=
  let rows := rows_taken h in
  VDict
    [("vehicle_id", vehicle_id);
     ("diagnosis_code", VStr ("DX-" ++ code));
     ("findings",
      VList (match rows with
             | [] => [VStr "No issues detected"]
             | _ => map (fun row => VStr (fst (fst (fst row)))) rows
             end));
     ("root_causes", VList (map (fun row => VStr (snd (fst (fst row)))) rows));
     ("severity", VStr (List.last (map snd rows) "low"));
     ("recommended_actions", VList (map (fun row => VStr (snd (fst row))) rows))].

Ltac four_flags h :=
  generalize (py_eq_str (default VNone (dict_get h "engine")) "warning"),
             (py_eq_str (default VNone (dict_get h "oil")) "warning"),
             (py_eq_str (default VNone (dict_get h "battery")) "warning"),
             (py_eq_str (default VNone (dict_get h "brakes")) "warning");
  let e := fresh "e" in let o := fresh "o" in
  let b := fresh "b" in let k := fresh "k" in
  intros e o b k; destruct e; [destruct o|destruct o];
  [destruct b|destruct b|destruct b|destruct b];
  [destruct k|destruct k|destruct k|destruct k
  |destruct k|destruct k|destruct k|destruct k].

Lemma diagnose_run O data a h w :
  default (VDict []) (dict_get data "analysis") = VDict a ->
  default (VDict []) (dict_get a "health_indicators") = VDict h ->
  BuiltinAgent._diagnose O data w
  = (Ok (diagnosis_of (default (VStr "unknown") (dict_get a "vehicle_id"))
                      (str_upper (String.substring 0 8 (uuid4_hex O (tick w)))) h),
     snd (next_tick w)).
Proof.
  intros Ha Hh. unfold BuiltinAgent._diagnose.
  rewrite Ha.
  lazy beta iota delta [py_get lift bind ret uuid4_hex8_upper uuid4_hex8 next_tick fst snd].
  rewrite Hh.
  lazy beta iota delta [py_get lift bind ret fst snd].
  unfold diagnosis_of, rows_taken, diagnosis_rows, warns.
  lazy beta iota delta [List.filter fst snd].
  four_flags h; reflexivity.
Qed.

(** X3. On well-formed input, [_diagnose] lists one finding, one root cause
    and one recommended action per warning indicator, in the order engine,
    oil, battery, brakes, and the severity is that of the last such
    indicator.  Without a warning the only finding is "No issues detected",
    the other two lists are empty, and only then is the severity "low".
    The call reads one UUID and changes nothing else. *)
Theorem diagnose_lists_follow_warnings O data h w :
  diagnosis_input_ok data h ->
  let rows := rows_taken h in
  exists out w',
    BuiltinAgent._diagnose O data w = (Ok (VDict out), w') /\
    dict_get out "findings"
    = Some (VList (match rows with
                   | [] => [VStr "No issues detected"]
                   | _ => map (fun row => VStr (fst (fst (fst row)))) rows
                   end)) /\
    dict_get out "root_causes"
    = Some (VList (map (fun row => VStr (snd (fst (fst row)))) rows)) /\
    dict_get out "recommended_actions"
    = Some (VList (map (fun row => VStr (snd (fst row))) rows)) /\
    dict_get out "severity" = Some (VStr (List.last (map snd rows) "low")) /\
    (List.last (map snd rows) "low" = "low" <-> rows = []) /\
    tick w' = S (tick w) /\ heap w' = heap w /\ sent w' = sent w.
Proof.
  intros (a & Ha & Hh) rows. rewrite (diagnose_run O data a h w Ha Hh).
  unfold diagnosis_of. fold rows. eexists _, _. split; [reflexivity|].
  split; [reflexivity|]. split; [reflexivity|]. split; [reflexivity|].
  split; [reflexivity|]. split; [|repeat split].
  unfold rows, rows_taken, diagnosis_rows, warns.
  lazy beta iota delta [List.filter fst snd].
  four_flags h; cbn; split; intros E; first [reflexivity|discriminate E].
Qed.

Lemma diagnose_lists_witness :
  let h := [("engine", VStr "warning"); ("oil", VStr "good");
            ("battery", VStr "warning"); ("brakes", VStr "good")] in
  diagnosis_input_ok battery_warning h /\
  exists out,
    fst (BuiltinAgent._diagnose builtin_offline battery_warning fresh_world)
    = Ok (VDict out) /\
    dict_get out "root_causes"
    = Some (VList [VStr "Possible cooling system issue";
                   VStr "Battery aging or charging system issue"]).
Proof.
  intros h.
  assert (Hok : diagnosis_input_ok battery_warning h) by (eexists; split; reflexivity).
  split; [exact Hok|].
  destruct (diagnose_lists_follow_warnings builtin_offline battery_warning h
              fresh_world Hok)
    as (out & w' & Hrun & _ & Hrcs & _).
  exists out. rewrite Hrun. split; [reflexivity|exact Hrcs].
Defined.

(** The severity a diagnosis gives to the analysis of readings [r]. *)
Definition severity_of (r : readings) : string :=
  if negb (Qlt_bool float_0_2 (brake_pad_wear_avg r)) then "high"
  else if negb (Qlt_bool float_11_5 (battery_voltage r)) then "medium"
  else if negb (Qlt_bool (engine_temp r) 100) || negb (Qlt_bool 30 (oil_pressure r))
       then "high"
  else "low".

(** X4. Analysis followed by diagnosis.  When [_analyze] is given numeric
    readings and its output is passed to [_diagnose] as [analysis], the
    diagnosis returns, keeps the vehicle id, has one root cause per
    recommendation of the analysis, and its severity is decided by the
    readings: "high" for worn brakes, else "medium" for a low battery, else
    "high" for a hot engine or low oil pressure, else "low".  The severity
    is "low" exactly when the analysis said "healthy". *)
Theorem diagnose_after_analyze O data telemetry r w data' w1 :
  default (VDict []) (dict_get data "telemetry") = VDict telemetry ->
  reads telemetry r ->
  exists analysis,
    BuiltinAgent._analyze data w = (Ok (VDict analysis), w) /\
    (dict_get data' "analysis" = Some (VDict analysis) ->
     exists out rcs w2,
       BuiltinAgent._diagnose O data' w1 = (Ok (VDict out), w2) /\
       dict_get out "vehicle_id" = dict_get analysis "vehicle_id" /\
       dict_get out "severity" = Some (VStr (severity_of r)) /\
       dict_get out "root_causes" = Some (VList rcs) /\
       List.length rcs = List.length (warning_names r) /\
       (severity_of r = "low" <->
        dict_get analysis "overall_status" = Some (VStr "healthy"))).
Proof.
  intros Ht Hr. rewrite (analyze_run data telemetry r w Ht Hr).
  unfold analysis_of. eexists. split; [reflexivity|]. intros Hd.
  set (h := map (fun kb : string * bool => (fst kb, BuiltinAgent.health_of (snd kb)))
                (indicators r)).
  erewrite (diagnose_run O data' _ h w1);
    [|rewrite Hd; reflexivity|reflexivity].
  unfold diagnosis_of.
  eexists _, (map (fun row => VStr (snd (fst (fst row)))) (rows_taken h)), _.
  split; [reflexivity|]. split; [reflexivity|].
  cbn [dict_get String.eqb Ascii.eqb Bool.eqb].
  unfold rows_taken, diagnosis_rows, warns, h, severity_of, warning_names, indicators.
  generalize (Qlt_bool (engine_temp r) 100), (Qlt_bool 30 (oil_pressure r)),
    (Qlt_bool float_11_5 (battery_voltage r)),
    (Qlt_bool float_0_2 (brake_pad_wear_avg r)).
  intros e o b k. destruct e; [destruct o|destruct o];
    [destruct b|destruct b|destruct b|destruct b];
    [destruct k|destruct k|destruct k|destruct k
    |destruct k|destruct k|destruct k|destruct k];
    (split; [reflexivity|]); (split; [reflexivity|]); (split; [reflexivity|]);
    (split; intros E; first [reflexivity|discriminate E]).
Qed.

Lemma diagnose_after_analyze_witness :
  let r := {| engine_temp := 120; oil_pressure := 40; battery_voltage := 12;
              brake_pad_wear_avg := float_0_5 |} in
  reads hot_engine r /\
  exists analysis,
    BuiltinAgent._analyze reading fresh_world = (Ok (VDict analysis), fresh_world) /\
    dict_get analysis "overall_status" = Some (VStr "needs_attention").
Proof.
  intros r.
  assert (Hr : reads hot_engine r) by (repeat split; reflexivity).
  split; [exact Hr|].
  destruct (diagnose_after_analyze builtin_offline reading hot_engine r fresh_world
              [] fresh_world eq_refl Hr) as (analysis & Hrun & _).
  exists analysis. split; [exact Hrun|].
  rewrite (analyze_run reading hot_engine r fresh_world eq_refl Hr) in Hrun.
  inversion Hrun; subst. reflexivity.
Defined.

(** The first element of a list entry, or a default when the entry is
    missing or empty. *)
Definition first_of (d : dict) (k dflt : string) : value :=
  match dict_get d k with
  | Some (VList (x :: _)) => x
  | _ => VStr dflt
  end.

Definition list_or_missing (d : dict) (k : string) : Prop :=
  match dict_get d k with
  | None | Some VNone | Some (VList _) => True
  | _ => False
  end.

(** X5. [_rca_capa] on a diagnosis whose [findings] and [root_causes] are
    lists, [None] or missing, and a vehicle record that is a map or
    missing, returns a draft report: the component is the first finding,
    the root cause the first root cause, with the defaults "Unknown" and
    "Under investigation" for a missing or empty list, and the one affected
    vehicle is the given vehicle id, "unknown" when there is none. *)
Theorem rca_capa_takes_first_entries O data d v w :
  default (VDict []) (dict_get data "diagnosis") = VDict d ->
  default (VDict []) (dict_get data "vehicle_data") = VDict v ->
  list_or_missing d "findings" ->
  list_or_missing d "root_causes" ->
  exists out w',
    BuiltinAgent._rca_capa O data w = (Ok (VDict out), w') /\
    dict_get out "component" = Some (first_of d "findings" "Unknown") /\
    dict_get out "root_cause" = Some (first_of d "root_causes" "Under investigation") /\
    dict_get out "affected_vehicles"
    = Some (VList [default (VStr "unknown") (dict_get v "vehicle_id")]) /\
    dict_get out "status" = Some (VStr "draft") /\
    heap w' = heap w /\ sent w' = sent w.
Proof.
  intros Hd Hv Hf Hr. unfold BuiltinAgent._rca_capa, BuiltinAgent.first_or.
  rewrite Hd, Hv. unfold list_or_missing, first_of in *.
  unfold uuid4_hex8_upper, uuid4_hex8, datetime_now_iso, bind, next_tick, lift, ret.
  cbn [py_get fst snd].
  destruct (dict_get d "findings") as [[| | | | |[|x xs]| |]|]; try contradiction;
    destruct (dict_get d "root_causes") as [[| | | | |[|y ys]| |]|]; try contradiction;
    cbn; eexists _, _; repeat split; reflexivity.
Qed.

Lemma rca_capa_witness :
  let d := [("findings", VList [VStr "Brake pads worn"]); ("root_causes", VList [])] in
  list_or_missing d "findings" /\ list_or_missing d "root_causes" /\
  exists out,
    fst (BuiltinAgent._rca_capa builtin_offline [("diagnosis", VDict d)] fresh_world)
    = Ok (VDict out) /\
    dict_get out "component" = Some (VStr "Brake pads worn") /\
    dict_get out "root_cause" = Some (VStr "Under investigation").
Proof.
  intros d.
  assert (Hf : list_or_missing d "findings") by exact I.
  assert (Hr : list_or_missing d "root_causes") by exact I.
  split; [exact Hf|]. split; [exact Hr|].
  destruct (rca_capa_takes_first_entries builtin_offline [("diagnosis", VDict d)] d []
              fresh_world eq_refl eq_refl Hf Hr)
    as (out & w' & Hrun & Hc & Hrc & _).
  exists out. rewrite Hrun. split; [reflexivity|]. split; [exact Hc|exact Hrc].
Defined.

(** The task types whose handlers read their input. *)
Definition input_reading_types : list string :=
  ["analyze"; "diagnose"; "schedule"; "engage"; "rca_capa"].

Lemma run_handler_other O ty data w :
  ~ In ty input_reading_types ->
  exists out w',
    BuiltinAgent.run_handler O ty data w = (Ok (VDict out), w') /\
    (ty <> "predict" -> ty <> "feedback" ->
     out = [("task_executed", VBool true);
            ("input_received", VList (map VStr (dict_keys data)));
            ("timestamp", VStr (now_isoformat O (tick w)))]).
Proof.
  unfold input_reading_types. cbn [In]. intros Hty.
  unfold BuiltinAgent.run_handler.
  repeat match goal with
    | |- context [String.eqb ty ?s] =>
        destruct (String.eqb_spec ty s) as [->|?]; [try (exfalso; tauto)|]
    end;
    eexists _, _; (split; [reflexivity|]); try reflexivity;
    intros; congruence.
Qed.

(** X6. A registered built-in worker accepts every task type: for
    "predict", "feedback" and any type it does not know, [execute_task]
    succeeds whatever the input holds and whatever the worker's own type
    is.  For an unknown type the output only lists the keys of the input. *)
Theorem unknown_task_types_succeed O self id task w :
  is_Some (dict_get (BuiltinAdapter.agents self) id) ->
  ~ In (task_type task) input_reading_types ->
  exists self' r w',
    BuiltinAdapter.execute_task O self id task w = (Ok (self', r), w') /\
    success r = true /\ error r = None /\ r_task_id r = task_id task /\
    (task_type task <> "predict" -> task_type task <> "feedback" ->
     exists ts,
       output r = VDict [("task_executed", VBool true);
                         ("input_received",
                          VList (map VStr (dict_keys (heap_get (heap w)
                                                        (input_data task)))));
                         ("timestamp", VStr ts)]).
Proof.
  intros [agent Hreg] Hty.
  destruct (BuiltinAdapter_execute_task_spec O self id task w)
    as (self' & r & w' & Hrun & _ & Hid & _ & _ & Hcase).
  rewrite Hreg in Hcase.
  destruct (run_handler_other O (task_type task)
              (heap_get (heap w) (input_data task)) (started O w) Hty)
    as (out & w2 & Hh & Hout).
  rewrite Hh in Hcase. cbn [fst] in Hcase. destruct Hcase as (Hs & Ho & He).
  exists self', r, w'. split; [exact Hrun|]. split; [exact Hs|].
  split; [exact He|]. split; [exact Hid|].
  intros H1 H2. eexists. rewrite Ho, (Hout H1 H2). reflexivity.
Qed.

Definition audit_task : AgentTask := mkTask "T9" "audit" "Audit the fleet" 0 1.

Lemma unknown_task_types_witness :
  is_Some (dict_get (BuiltinAdapter.agents staffed_builtin) "diagnosis-1") /\
  ~ In (task_type audit_task) input_reading_types /\
  exists self' r w',
    BuiltinAdapter.execute_task builtin_offline staffed_builtin "diagnosis-1"
      audit_task (world_with [reading]) = (Ok (self', r), w') /\
    success r = true.
Proof.
  assert (Hreg : is_Some (dict_get (BuiltinAdapter.agents staffed_builtin)
                            "diagnosis-1")) by (vm_compute; eexists; reflexivity).
  assert (Hty : ~ In (task_type audit_task) input_reading_types).
  { cbn. intros [H|[H|[H|[H|[H|[]]]]]]; discriminate H. }
  split; [exact Hreg|]. split; [exact Hty|].
  destruct (unknown_task_types_succeed builtin_offline staffed_builtin "diagnosis-1"
              audit_task (world_with [reading]) Hreg Hty)
    as (self' & r & w' & Hrun & Hs & _).
  exists self', r, w'. split; [exact Hrun|exact Hs].
Defined.

(** X7. [BuiltinAgent.execute] never raises and never changes the agent's
    id, type, tools, configuration or state.  A successful execution
    appends exactly one entry to the history, with the task's id and type
    and [success] true; a failed one leaves the agent as it was.  The
    result carries the task's id and the agent's id, and no metadata. *)
Theorem execute_records_successes O self task w :
  exists self' r w',
    BuiltinAgent.execute O self task w = (Ok (self', r), w') /\
    r_task_id r = task_id task /\
    r_agent_id r = BuiltinAgent.agent_id self /\
    metadata r = None /\
    BuiltinAgent.agent_id self' = BuiltinAgent.agent_id self /\
    BuiltinAgent.agent_type self' = BuiltinAgent.agent_type self /\
    BuiltinAgent.tools self' = BuiltinAgent.tools self /\
    BuiltinAgent.config self' = BuiltinAgent.config self /\
    BuiltinAgent.state self' = BuiltinAgent.state self /\
    (success r = true ->
     exists ts,
       BuiltinAgent.history self'
       = (BuiltinAgent.history self ++
          [[("task_id", VStr (task_id task)); ("task_type", VStr (task_type task));
            ("timestamp", VStr ts); ("success", VBool true)]])%list) /\
    (success r = false -> self' = self /\ output r = VDict []).
Proof.
  unfold BuiltinAgent.execute.
  unfold bind at 1. cbn [time_now bind next_tick ret fst snd].
  unfold try_except, bind at 1. cbn [deref heap fst snd].
  unfold bind at 1.
  destruct (BuiltinAgent.run_handler O _ _ _) as [[out|e] w2]; cbn;
    eexists _, _, _; (split; [reflexivity|]); cbn;
    repeat split; try reflexivity; try discriminate; eauto.
Qed.

(** * The registry of workers *)

Lemma dict_keys_set_absent {V} (d : list (string * V)) k v :
  dict_get d k = None -> dict_keys (dict_set d k v) = (dict_keys d ++ [k])%list.
Proof.
  induction d as [|[k0 v0] r IH]; simpl; [reflexivity|].
  destruct (String.eqb k0 k); [discriminate|]. intros H. simpl. now rewrite IH.
Qed.

Lemma dict_keys_set_cases {V} (d : list (string * V)) k v :
  (In k (dict_keys d) -> dict_keys (dict_set d k v) = dict_keys d) /\
  (~ In k (dict_keys d) -> dict_keys (dict_set d k v) = (dict_keys d ++ [k])%list).
Proof.
  split.
  - intros Hin. apply dict_keys_set_present. destruct (dict_get d k) eqn:E; [eauto|].
    apply dict_get_None_keys in E. contradiction.
  - intros Hnot. apply dict_keys_set_absent. now apply dict_get_None_keys.
Qed.

Lemma dict_keys_set_In {V} (d : list (string * V)) k v :
  (forall k', In k' (dict_keys d) -> In k' (dict_keys (dict_set d k v))) /\
  In k (dict_keys (dict_set d k v)).
Proof.
  destruct (dict_keys_set_cases d k v) as [Hin Hnot].
  destruct (dict_get d k) eqn:E.
  - assert (Hk : In k (dict_keys d)).
    { destruct (in_dec String.string_dec k (dict_keys d)) as [H|H]; [exact H|].
      apply dict_get_None_keys in H. congruence. }
    rewrite (Hin Hk). auto.
  - apply dict_get_None_keys in E. rewrite (Hnot E).
    split; [intros k' H|]; rewrite in_app_iff; cbn; auto.
Qed.

Lemma NoDup_dict_set {V} (d : list (string * V)) k v :
  List.NoDup (dict_keys d) -> List.NoDup (dict_keys (dict_set d k v)).
Proof.
  intros Hd. destruct (dict_keys_set_cases d k v) as [Hin Hnot].
  destruct (in_dec String.string_dec k (dict_keys d)) as [H|H].
  - now rewrite (Hin H).
  - rewrite (Hnot H). apply List.NoDup_app; [exact Hd| |].
    + repeat constructor. intros [].
    + intros x Hx [<-|[]]. contradiction.
Qed.

(** X8. [BuiltinAdapter.create_agent] followed by a lookup.  The call
    always registers a fresh worker (empty history and state) under the
    given id and returns it: [get_agent] finds it, every other id is
    looked up as before, and ids stay unique.  A new id goes last in
    [list_agents]; an id already registered keeps its place and its old
    worker, history included, is replaced.  Nothing in the world
    changes. *)
Theorem create_agent_then_get self ty id tools cfg w :
  let agent := BuiltinAgent.__init__ id ty tools cfg in
  exists self',
    BuiltinAdapter.create_agent self ty id tools cfg w = (Ok (self', agent), w) /\
    BuiltinAdapter.get_agent self' id = Some agent /\
    BuiltinAgent.history agent = [] /\
    (forall id', id' <> id ->
                 BuiltinAdapter.get_agent self' id' = BuiltinAdapter.get_agent self id') /\
    (In id (BuiltinAdapter.list_agents self) ->
     BuiltinAdapter.list_agents self' = BuiltinAdapter.list_agents self) /\
    (~ In id (BuiltinAdapter.list_agents self) ->
     BuiltinAdapter.list_agents self' = (BuiltinAdapter.list_agents self ++ [id])%list) /\
    (List.NoDup (BuiltinAdapter.list_agents self) ->
     List.NoDup (BuiltinAdapter.list_agents self')).
Proof.
  intros agent. eexists. split; [reflexivity|].
  unfold BuiltinAdapter.get_agent, BuiltinAdapter.list_agents.
  cbn [BuiltinAdapter.agents BuiltinAdapter.set_agents].
  split; [rewrite dict_get_set, String.eqb_refl; reflexivity|].
  split; [reflexivity|]. split.
  - intros id' Hne. rewrite dict_get_set.
    destruct (String.eqb_spec id id'); [congruence|reflexivity].
  - split; [apply dict_keys_set_cases|].
    split; [apply dict_keys_set_cases|apply NoDup_dict_set].
Qed.

(** X9. A worker just created by the built-in adapter runs the next task:
    [execute_task] under its id never answers "not found"; the result is
    the handler's output, or the failure with the handler's exception
    text. *)
Theorem create_agent_then_execute O self ty id tools cfg task w :
  exists self1 agent,
    BuiltinAdapter.create_agent self ty id tools cfg w = (Ok (self1, agent), w) /\
    exists self2 r w',
      BuiltinAdapter.execute_task O self1 id task w = (Ok (self2, r), w') /\
      r_task_id r = task_id task /\ r_agent_id r = id /\
      BuiltinAdapter.list_agents self2 = BuiltinAdapter.list_agents self1 /\
      match fst (BuiltinAgent.run_handler O (task_type task)
                   (heap_get (heap w) (input_data task)) (started O w)) with
      | Ok out => success r = true /\ output r = out /\ error r = None
      | Raise e => success r = false /\ output r = VDict [] /\
                   error r = Some (exn_str e)
      end.
Proof.
  eexists _, _. split; [reflexivity|].
  set (self1 := BuiltinAdapter.set_agents self _).
  assert (Hreg : dict_get (BuiltinAdapter.agents self1) id
                 = Some (BuiltinAgent.__init__ id ty tools cfg)).
  { unfold self1. cbn [BuiltinAdapter.agents BuiltinAdapter.set_agents].
    now rewrite dict_get_set, String.eqb_refl. }
  destruct (BuiltinAdapter_execute_task_spec O self1 id task w)
    as (self2 & r & w' & Hrun & _ & Hid & _ & Hkeys & Hcase).
  exists self2, r, w'. split; [exact Hrun|]. split; [exact Hid|].
  assert (Hagent : r_agent_id r = id).
  { revert Hrun. unfold BuiltinAdapter.execute_task. rewrite Hreg. unfold bind.
    destruct (BuiltinAgent_execute_spec O (BuiltinAgent.__init__ id ty tools cfg) task w)
      as (a' & r0 & w0 & -> & _ & _ & Hag & _).
    cbn. intros H. inversion H; subst. exact Hag. }
  split; [exact Hagent|]. split; [exact Hkeys|].
  rewrite Hreg in Hcase.
  destruct (fst (BuiltinAgent.run_handler _ _ _ _)); tauto.
Qed.

(** Whether [create_agent] run at [w] registers the worker. *)
Definition creation_succeeds (O : Oracle) (a : Adapter) (w : World) : bool :=
  match a with
  | Builtin _ => true
  | LangGraph _ => LANGGRAPH_AVAILABLE O
  | CrewAI _ =>
      CREWAI_AVAILABLE O
      && match crewai_Agent_new O (tick w) with None => true | Some _ => false end
  | AutoGen _ =>
      AUTOGEN_AVAILABLE O
      && match autogen_AssistantAgent_new O (tick w) with
         | None => true
         | Some _ => false
         end
  end.

(** The exception [create_agent] run at [w] lets escape: only LangGraph
    builds its graph outside a [try]. *)
Definition creation_raises (O : Oracle) (a : Adapter) (w : World) : option exn :=
  match a with
  | LangGraph _ =>
      if LANGGRAPH_AVAILABLE O then StateGraph_compile_fault O (tick w) else None
  | _ => None
  end.

(** What creating a worker does to an adapter. *)
Lemma Adapter_create_agent_effect O a ty id w :
  match creation_raises O a w with
  | Some e =>
      exists w', Adapter_create_agent O a ty id w = (Raise e, w') /\ ticks_only w w'
  | None =>
      exists a' w',
        Adapter_create_agent O a ty id w = (Ok a', w') /\
        same_class a a' /\ ticks_only w w' /\
        (forall id', In id' (Adapter_list_agents a) -> In id' (Adapter_list_agents a')) /\
        (creation_succeeds O a w = true -> In id (Adapter_list_agents a')) /\
        (creation_succeeds O a w = false -> a' = a)
  end.
Proof.
  assert (Hset : forall V (d : list (string * V)) v,
             (forall id', In id' (dict_keys d) -> In id' (dict_keys (dict_set d id v))) /\
             In id (dict_keys (dict_set d id v)))
    by (intros; apply dict_keys_set_In).
  destruct a as [b|l|c|g];
    cbn [Adapter_create_agent with_class adapter_create_agent Builtin_adapter
         LangGraph_adapter CrewAI_adapter AutoGen_adapter Adapter_list_agents
         adapter_list_agents creation_succeeds creation_raises same_class].
  - eexists _, _. split; [reflexivity|]. cbn. split; [exact I|].
    split; [apply ticks_only_refl|]. split; [apply Hset|].
    split; [intros _; apply Hset|discriminate].
  - unfold LangGraphAdapter.create_agent, LangGraphAdapter._create_agent_graph.
    destruct (LANGGRAPH_AVAILABLE O); cbn [negb].
    + unfold bind. cbn [next_tick fst snd].
      destruct (StateGraph_compile_fault O (tick w)) as [e|]; cbn.
      * eexists. split; [reflexivity|]. repeat split.
      * eexists _, _. split; [reflexivity|]. cbn. split; [exact I|].
        split; [repeat split|]. split; [apply Hset|].
        split; [intros _; apply Hset|discriminate].
    + eexists _, _. split; [reflexivity|]. cbn. split; [exact I|].
      split; [apply ticks_only_refl|]. split; [auto|].
      split; [discriminate|reflexivity].
  - unfold CrewAIAdapter.create_agent.
    destruct (CREWAI_AVAILABLE O); cbn [negb andb].
    2:{ eexists _, _. split; [reflexivity|]. cbn. split; [exact I|].
        split; [apply ticks_only_refl|]. split; [auto|].
        split; [discriminate|reflexivity]. }
    destruct (CrewAIAdapter.agent_configs ty) as [[r g] bs].
    unfold try_except, bind. cbn [next_tick fst snd].
    destruct (crewai_Agent_new O (tick w)) as [e|]; cbn;
      eexists _, _; (split; [reflexivity|]); cbn; (split; [exact I|]);
      (split; [repeat split|]).
    + split; [auto|]. split; [discriminate|reflexivity].
    + split; [apply Hset|]. split; [intros _; apply Hset|discriminate].
  - unfold AutoGenAdapter.create_agent.
    destruct (AUTOGEN_AVAILABLE O); cbn [negb andb].
    2:{ eexists _, _. split; [reflexivity|]. cbn. split; [exact I|].
        split; [apply ticks_only_refl|]. split; [auto|].
        split; [discriminate|reflexivity]. }
    unfold try_except, bind. cbn [next_tick fst snd].
    destruct (autogen_AssistantAgent_new O (tick w)) as [e|]; cbn;
      eexists _, _; (split; [reflexivity|]); cbn; (split; [exact I|]);
      (split; [repeat split|]).
    + split; [auto|]. split; [discriminate|reflexivity].
    + split; [apply Hset|]. split; [intros _; apply Hset|discriminate].
Qed.

(** X10. [create_agent] of the built-in, CrewAI and AutoGen adapters never
    raises: an exception of the third-party constructor is caught.
    LangGraph's builds its state graph outside any [try]: when the package
    is importable and building the graph raises, the exception escapes and
    nothing is registered.  In every other case the call returns, removes
    no worker, and registers the id when the adapter's package is
    importable and the third-party constructor does not raise (always, for
    the built-in adapter); otherwise the adapter is returned unchanged.
    The call itself writes no dictionary and sends no request. *)
Theorem create_agent_registers_or_keeps O a ty id w :
  match creation_raises O a w with
  | Some e =>
      exists w', Adapter_create_agent O a ty id w = (Raise e, w') /\ ticks_only w w'
  | None =>
      exists a' w',
        Adapter_create_agent O a ty id w = (Ok a', w') /\
        same_class a a' /\ ticks_only w w' /\
        (forall id', In id' (Adapter_list_agents a) -> In id' (Adapter_list_agents a')) /\
        (creation_succeeds O a w = true -> In id (Adapter_list_agents a')) /\
        (creation_succeeds O a w = false -> a' = a)
  end.
Proof. apply Adapter_create_agent_effect. Qed.

(** X11. [shutdown] of any adapter empties the registry and keeps the
    adapter's class: afterwards [list_agents] is empty and [execute_task]
    answers "Agent <id> not found" for every id, also for the workers that
    were registered before. *)
Theorem shutdown_forgets_workers O a id task w :
  same_class a (Adapter_shutdown a) /\
  Adapter_list_agents (Adapter_shutdown a) = [] /\
  exists a' w',
    Adapter_execute_task O (Adapter_shutdown a) id task w
    = (Ok (a', not_found_result id task), w') /\
    Adapter_list_agents a' = [].
Proof.
  split; [destruct a; exact I|]. split; [destruct a; reflexivity|].
  destruct a as [b|l|c|g];
    cbn [Adapter_shutdown Adapter_execute_task with_class adapter_shutdown
         adapter_execute_task Builtin_adapter LangGraph_adapter CrewAI_adapter
         AutoGen_adapter];
    eexists _, _; split; reflexivity.
Qed.

(** * Choosing a worker for a task *)

(** The first entry of an ordered dictionary that satisfies [p]. *)
Lemma first_key_Some {V} (p : V -> bool) (d : list (string * V)) k :
  first_key p d = Some k <->
  exists before v after,
    d = (before ++ (k, v) :: after)%list /\ p v = true /\
    Forall (fun kv => p (snd kv) = false) before.
Proof.
  induction d as [|[k0 v0] r IH]; cbn.
  - split; [discriminate|]. intros (b & v & a & H & _). now destruct b.
  - destruct (p v0) eqn:E.
    + split.
      * intros [= <-]. exists [], v0, r. repeat split; auto.
      * intros ([|[k1 v1] b] & v & a & H & Hv & Hb).
        -- now inversion H.
        -- inversion H; subst. inversion Hb; subst. cbn in *. congruence.
    + rewrite IH. split.
      * intros (b & v & a & -> & Hv & Hb). exists ((k0, v0) :: b), v, a.
        repeat split; auto.
      * intros ([|[k1 v1] b] & v & a & H & Hv & Hb).
        -- inversion H; subst. congruence.
        -- inversion H; subst. inversion Hb; subst. eauto 6.
Qed.

Lemma first_key_None {V} (p : V -> bool) (d : list (string * V)) :
  first_key p d = None <-> Forall (fun kv => p (snd kv) = false) d.
Proof.
  induction d as [|[k0 v0] r IH]; cbn.
  - split; auto.
  - destruct (p v0) eqn:E.
    + split; [discriminate|]. intros H. inversion H; subst. cbn in *. congruence.
    + rewrite IH. split; [intros H; constructor; auto|intros H; now inversion H].
Qed.

(** The agent type the built-in adapter looks for. *)
Definition wanted_type (task : AgentTask) : option AgentType :=
  dict_get BuiltinAdapter.task_agent_mapping (task_type task).

Definition is_of (ty : option AgentType) (agent : BuiltinAgent.t) : bool :=
  match ty with
  | Some t => AgentType_eqb (BuiltinAgent.agent_type agent) t
  | None => false
  end.

(** X12. [BuiltinAdapter._select_agent_for_task] returns the id of the
    first registered worker of the type mapped to the task type (predict
    goes to data analysis); when there is none, or the task type is not
    mapped, the id of the first registered master agent; and [None]
    exactly when neither exists.  It never returns an id that is not
    registered. *)
Theorem select_agent_prefers_type self task :
  let agents := BuiltinAdapter.agents self in
  let master a := AgentType_eqb (BuiltinAgent.agent_type a) MASTER in
  match BuiltinAdapter._select_agent_for_task self task with
  | Some id =>
      In id (BuiltinAdapter.list_agents self) /\
      exists before agent after,
        agents = (before ++ (id, agent) :: after)%list /\
        ((is_of (wanted_type task) agent = true /\
          Forall (fun kv => is_of (wanted_type task) (snd kv) = false) before)
         \/
         (Forall (fun kv => is_of (wanted_type task) (snd kv) = false) agents /\
          master agent = true /\
          Forall (fun kv => master (snd kv) = false) before))
  | None =>
      Forall (fun kv => is_of (wanted_type task) (snd kv) = false
                        /\ master (snd kv) = false) agents
  end.
Proof.
  intros agents master. unfold BuiltinAdapter._select_agent_for_task.
  fold (wanted_type task). fold agents.
  assert (Htyped : forall t, BuiltinAdapter.has_type t = is_of (Some t)) by reflexivity.
  assert (Hmaster : BuiltinAdapter.has_type MASTER = master) by reflexivity.
  assert (Hin : forall id before (agent : BuiltinAgent.t) after,
             agents = (before ++ (id, agent) :: after)%list ->
             In id (BuiltinAdapter.list_agents self)).
  { intros id before agent after H. unfold BuiltinAdapter.list_agents, dict_keys.
    fold agents. rewrite H, List.map_app, in_app_iff. cbn. auto. }
  assert (Hfallback :
            Forall (fun kv => is_of (wanted_type task) (snd kv) = false) agents ->
            match first_key (BuiltinAdapter.has_type MASTER) agents with
            | Some id =>
                In id (BuiltinAdapter.list_agents self) /\
                exists before agent after,
                  agents = (before ++ (id, agent) :: after)%list /\
                  ((is_of (wanted_type task) agent = true /\
                    Forall (fun kv => is_of (wanted_type task) (snd kv) = false) before)
                   \/
                   (Forall (fun kv => is_of (wanted_type task) (snd kv) = false) agents /\
                    master agent = true /\
                    Forall (fun kv => master (snd kv) = false) before))
            | None =>
                Forall (fun kv => is_of (wanted_type task) (snd kv) = false
                                  /\ master (snd kv) = false) agents
            end).
  { intros Hnone. rewrite Hmaster.
    destruct (first_key master agents) as [id|] eqn:E.
    - apply first_key_Some in E. destruct E as (b & v & a & Heq & Hv & Hb).
      split; [eapply Hin; exact Heq|]. exists b, v, a. split; [exact Heq|]. auto.
    - apply first_key_None in E. rewrite Forall_forall in *. intros kv Hkv.
      split; [apply Hnone|apply E]; exact Hkv. }
  destruct (wanted_type task) as [t|] eqn:Ew.
  - rewrite Htyped. destruct (first_key (is_of (Some t)) agents) as [id|] eqn:E.
    + apply first_key_Some in E. destruct E as (b & v & a & Heq & Hv & Hb).
      split; [eapply Hin; exact Heq|]. exists b, v, a. split; [exact Heq|]. auto.
    + apply first_key_None in E. exact (Hfallback E).
  - apply Hfallback. apply Forall_forall. intros kv _. reflexivity.
Qed.

(** The first entry that satisfies [p], else the first entry. *)
Lemma first_key_or_head {V} (p : V -> bool) (d : list (string * V)) :
  match (match first_key p d with
         | Some id => Some id
         | None => head (dict_keys d)
         end) with
  | Some id =>
      In id (dict_keys d) /\
      ((exists before v after,
           d = (before ++ (id, v) :: after)%list /\ p v = true /\
           Forall (fun kv => p (snd kv) = false) before) \/
       (Forall (fun kv => p (snd kv) = false) d /\ head (dict_keys d) = Some id))
  | None => d = []
  end.
Proof.
  destruct (first_key p d) as [id|] eqn:E.
  - pose proof E as H. apply first_key_Some in H.
    destruct H as (b & v & a & -> & Hv & Hb). split.
    + unfold dict_keys. rewrite List.map_app, in_app_iff. cbn. auto.
    + left. eauto 6.
  - apply first_key_None in E. destruct d as [|[k v] r]; cbn; [reflexivity|].
    split; [auto|]. right. split; [exact E|reflexivity].
Qed.

(** Whether a registered worker has the type mapped to the task type. *)
Definition has_mapped_type (mapping : list (string * AgentType)) (task : AgentTask)
    (ty : AgentType) : bool :=
  match dict_get mapping (task_type task) with
  | Some t => AgentType_eqb ty t
  | None => false
  end.

Lemma first_key_false {V} (d : list (string * V)) :
  first_key (fun _ => false) d = None.
Proof. apply first_key_None, List.Forall_forall. reflexivity. Qed.

(** X13. The LangGraph and AutoGen adapters choose differently: they
    return the id of the first registered worker of the type mapped to the
    task type and, when there is none or the task type is not mapped, the
    id of the first registered worker, whatever its type.  The choice is
    [None] only for an empty registry, and is always a registered id. *)
Theorem alternates_select_any_worker task :
  (forall l : LangGraphAdapter.t,
      let agents := LangGraphAdapter.agents l in
      let wanted e :=
        has_mapped_type LangGraphAdapter.task_type_mapping task
                        (LangGraphAdapter.e_type e) in
      match LangGraphAdapter._find_agent_for_task l task with
      | Some id =>
          In id (dict_keys agents) /\
          ((exists before e after,
               agents = (before ++ (id, e) :: after)%list /\ wanted e = true /\
               Forall (fun kv => wanted (snd kv) = false) before) \/
           (Forall (fun kv => wanted (snd kv) = false) agents /\
            head (dict_keys agents) = Some id))
      | None => agents = []
      end) /\
  (forall g : AutoGenAdapter.t,
      let agents := AutoGenAdapter.agents g in
      let wanted e :=
        has_mapped_type AutoGenAdapter.task_type_mapping task
                        (AutoGenAdapter.e_type e) in
      match AutoGenAdapter._select_agent_for_task g task with
      | Some id =>
          In id (dict_keys agents) /\
          ((exists before e after,
               agents = (before ++ (id, e) :: after)%list /\ wanted e = true /\
               Forall (fun kv => wanted (snd kv) = false) before) \/
           (Forall (fun kv => wanted (snd kv) = false) agents /\
            head (dict_keys agents) = Some id))
      | None => agents = []
      end).
Proof.
  split.
  - intros l agents wanted.
    assert (Heq : LangGraphAdapter._find_agent_for_task l task
                  = match first_key wanted agents with
                    | Some id => Some id
                    | None => head (dict_keys agents)
                    end).
    { unfold LangGraphAdapter._find_agent_for_task, wanted, has_mapped_type, agents.
      destruct (dict_get LangGraphAdapter.task_type_mapping (task_type task));
        [reflexivity|now rewrite first_key_false]. }
    rewrite Heq. apply first_key_or_head.
  - intros g agents wanted.
    assert (Heq : AutoGenAdapter._select_agent_for_task g task
                  = match first_key wanted agents with
                    | Some id => Some id
                    | None => head (dict_keys agents)
                    end).
    { unfold AutoGenAdapter._select_agent_for_task, wanted, has_mapped_type, agents.
      destruct (dict_get AutoGenAdapter.task_type_mapping (task_type task));
        [reflexivity|now rewrite first_key_false]. }
    rewrite Heq. apply first_key_or_head.
Qed.

(** * Initialising and running an adapter *)

Definition initialized (a : Adapter) : bool :=
  match a with
  | Builtin b => BuiltinAdapter.is_initialized b
  | LangGraph l => LangGraphAdapter.is_initialized l
  | CrewAI c => CrewAIAdapter.is_initialized c
  | AutoGen g => AutoGenAdapter.is_initialized g
  end.

(** Whether [initialize] run at [w] can succeed. *)
Definition can_initialize (O : Oracle) (a : Adapter) (w : World) : bool :=
  match a with
  | Builtin _ => true
  | LangGraph _ => LANGGRAPH_AVAILABLE O
  | CrewAI _ => CREWAI_AVAILABLE O
  | AutoGen _ =>
      AUTOGEN_AVAILABLE O
      && match autogen_UserProxyAgent_new O (tick w) with
         | None => true
         | Some _ => false
         end
  end.

(** What initialising does to an adapter. *)
Lemma Adapter_initialize_effect O a w :
  exists a1 ok w1,
    Adapter_initialize O a w = (Ok (a1, ok), w1) /\
    same_class a a1 /\ ticks_only w w1 /\
    Adapter_list_agents a1 = Adapter_list_agents a /\
    ok = can_initialize O a w /\
    initialized a1 = (ok || initialized a).
Proof.
  destruct a as [b|l|c|g];
    cbn [Adapter_initialize with_class adapter_initialize Builtin_adapter
         LangGraph_adapter CrewAI_adapter AutoGen_adapter can_initialize initialized
         Adapter_list_agents adapter_list_agents same_class].
  - eexists _, _, _. split; [reflexivity|]. cbn. repeat split.
  - unfold LangGraphAdapter.initialize.
    destruct (LANGGRAPH_AVAILABLE O); cbn [negb].
    + unfold try_except, bind.
      destruct (py_truthy _); cbn;
        [destruct (ChatOpenAI_new O (tick w)); cbn|];
        eexists _, _, _; (split; [reflexivity|]); cbn; repeat split.
    + eexists _, _, _. split; [reflexivity|]. cbn. repeat split.
  - unfold CrewAIAdapter.initialize.
    destruct (CREWAI_AVAILABLE O); cbn [negb];
      eexists _, _, _; (split; [reflexivity|]); cbn; repeat split.
  - unfold AutoGenAdapter.initialize.
    destruct (AUTOGEN_AVAILABLE O); cbn [negb andb].
    + unfold try_except, bind. cbn [next_tick fst snd].
      destruct (autogen_UserProxyAgent_new O (tick w)); cbn;
        eexists _, _, _; (split; [reflexivity|]); cbn; repeat split.
    + eexists _, _, _. split; [reflexivity|]. cbn. repeat split.
Qed.

(** X14. [initialize] of any adapter never raises, registers no worker and
    leaves the object store and the network alone.  It returns true, and
    marks the adapter initialised, exactly when the adapter's package is
    importable (always for the built-in adapter) and, for AutoGen, the
    user proxy can be built; a failure to create the LangGraph LLM client
    does not make it fail.  When it returns false the initialised flag is
    as before. *)
Theorem initialize_succeeds_iff_available O a w :
  exists a1 ok w1,
    Adapter_initialize O a w = (Ok (a1, ok), w1) /\
    same_class a a1 /\ ticks_only w w1 /\
    Adapter_list_agents a1 = Adapter_list_agents a /\
    ok = can_initialize O a w /\
    initialized a1 = (ok || initialized a).
Proof. apply Adapter_initialize_effect. Qed.

(** What [execute_task] leaves alone. *)
Lemma Adapter_execute_task_keeps O a id task w :
  exists a' r w',
    Adapter_execute_task O a id task w = (Ok (a', r), w') /\
    heap w' = heap w /\ sent w' = sent w /\ next_loc w' = next_loc w /\
    same_class a a' /\
    Adapter_list_agents a' = Adapter_list_agents a /\
    initialized a' = initialized a.
Proof.
  destruct a as [b|l|c|g];
    cbn [Adapter_execute_task with_class adapter_execute_task Builtin_adapter
         LangGraph_adapter CrewAI_adapter AutoGen_adapter Adapter_list_agents
         adapter_list_agents same_class initialized].
  - destruct (BuiltinAdapter_execute_task_spec O b id task w)
      as (b' & r & w' & Hrun & (Hn & Hh & Hs) & _ & _ & Hkeys & _).
    exists (Builtin b'), r, w'. unfold bind. rewrite Hrun. cbn [fst snd ret].
    split; [reflexivity|]. repeat split; try assumption.
    revert Hrun. unfold BuiltinAdapter.execute_task.
    destruct (dict_get _ _); [|intros H; now inversion H].
    unfold bind. destruct (BuiltinAgent.execute O _ task w) as [[[? ?]|?] ?];
      intros H; inversion H; reflexivity.
  - destruct (total_LangGraph_execute_task O l id task w) as (r & w' & Hrun).
    pose proof (frame_LangGraph_execute_task O l id task w) as Hf.
    rewrite Hrun in Hf. destruct Hf as (Hn & Hh & Hs).
    exists (LangGraph l), r, w'. unfold keep, bind. rewrite Hrun.
    repeat split; assumption.
  - destruct (total_CrewAI_execute_task O c id task w) as (r & w' & Hrun).
    pose proof (frame_CrewAI_execute_task O c id task w) as Hf.
    rewrite Hrun in Hf. destruct Hf as (Hn & Hh & Hs).
    exists (CrewAI c), r, w'. unfold keep, bind. rewrite Hrun.
    repeat split; assumption.
  - destruct (total_AutoGen_execute_task O g id task w) as (r & w' & Hrun).
    pose proof (frame_AutoGen_execute_task O g id task w) as Hf.
    rewrite Hrun in Hf. destruct Hf as (Hn & Hh & Hs).
    exists (AutoGen g), r, w'. unfold keep, bind. rewrite Hrun.
    repeat split; assumption.
Qed.

(** X15. [execute_task] of any adapter, for any worker id and task,
    returns a result and keeps the adapter's class, its initialised flag
    and its registered ids; the LangGraph, CrewAI and AutoGen adapters are
    left exactly as they were.  The built-in adapter, whose handlers are
    all in this code, only consumes clock and UUID readings: it sends no
    request, allocates nothing and leaves every object of the store, the
    task's input included, as it was. *)
Theorem execute_task_keeps_store O a id task w :
  exists a' r w',
    Adapter_execute_task O a id task w = (Ok (a', r), w') /\
    same_class a a' /\
    Adapter_list_agents a' = Adapter_list_agents a /\
    initialized a' = initialized a /\
    match a with
    | Builtin _ => heap w' = heap w /\ sent w' = sent w /\ next_loc w' = next_loc w
    | _ => a' = a
    end.
Proof.
  destruct (Adapter_execute_task_keeps O a id task w)
    as (a' & r & w' & Hrun & Hh & Hs & Hn & Hc & Hl & Hi).
  exists a', r, w'. split; [exact Hrun|]. split; [exact Hc|]. split; [exact Hl|].
  split; [exact Hi|].
  destruct a as [b|l|c|g]; [auto| | |];
    revert Hrun;
    cbn [Adapter_execute_task with_class adapter_execute_task LangGraph_adapter
         CrewAI_adapter AutoGen_adapter];
    unfold keep, bind;
    match goal with
    | |- context [?m w] => destruct (m w) as [[r0|e] w0]
    end; cbn; intros H; inversion H; reflexivity.
Qed.

Lemma sorted_by_priority_idem tasks :
  sorted_by_priority (sorted_by_priority tasks) = sorted_by_priority tasks.
Proof. apply sorted_by_priority_id, sorted_by_priority_sorted. Qed.

(** X16. Sorting a batch by priority before handing it to
    [orchestrate_workflow] changes nothing: for every adapter the run on
    the sorted batch equals the run on the batch, result for result and
    effect for effect. *)
Theorem presorted_batch_runs_the_same O a tasks cfg w :
  Adapter_orchestrate_workflow O a (sorted_by_priority tasks) cfg w
  = Adapter_orchestrate_workflow O a tasks cfg w.
Proof.
  destruct a as [b|l|c|g];
    cbn [Adapter_orchestrate_workflow with_class adapter_orchestrate_workflow
         Builtin_adapter LangGraph_adapter CrewAI_adapter AutoGen_adapter];
    unfold BuiltinAdapter.orchestrate_workflow, LangGraphAdapter.orchestrate_workflow,
      CrewAIAdapter.orchestrate_workflow, CrewAIAdapter._fallback_orchestrate,
      CrewAIAdapter.build_crewai_tasks,
      AutoGenAdapter.orchestrate_workflow, AutoGenAdapter._fallback_orchestrate;
    rewrite !sorted_by_priority_idem; reflexivity.
Qed.

(** The worker an explicit [agent_mapping] names for a task. *)
Definition mapped_agent (cfg : WorkflowConfig) (task : AgentTask) : option string :=
  match dict_get (agent_mapping cfg) (task_type task) with
  | Some a => if String.eqb a "" then None else Some a
  | None => None
  end.

Definition unserved (cfg : WorkflowConfig) (task : AgentTask) : AgentResult :=
  match mapped_agent cfg task with
  | Some a => not_found_result a task
  | None => BuiltinAdapter.no_agent_result task
  end.

Lemma empty_registry_loop O self c all l acc w :
  BuiltinAdapter.agents self = [] ->
  for_each l (BuiltinAdapter.workflow_step O c all) (self, acc) w
  = (Ok (self, (acc ++ map (unserved c) l)%list), w).
Proof.
  intros Hempty. revert acc. induction l as [|t rest IH]; intros acc.
  - cbn. now rewrite List.app_nil_r.
  - cbn [for_each map].
    assert (Hstep : BuiltinAdapter.workflow_step O c all t (self, acc) w
                    = (Ok (self, (acc ++ [unserved c t])%list), w)).
    { unfold BuiltinAdapter.workflow_step, unserved, mapped_agent.
      cbn [fst snd].
      unfold BuiltinAdapter._select_agent_for_task. rewrite Hempty.
      destruct (dict_get (agent_mapping c) (task_type t)) as [a|].
      - destruct (String.eqb a "") eqn:Ea.
        + destruct (dict_get BuiltinAdapter.task_agent_mapping (task_type t));
            reflexivity.
        + rewrite Ea. unfold BuiltinAdapter.execute_task. rewrite Hempty.
          reflexivity.
      - destruct (dict_get BuiltinAdapter.task_agent_mapping (task_type t));
          reflexivity. }
    unfold bind at 1. rewrite Hstep. rewrite IH.
    now rewrite <- List.app_assoc.
Qed.

(** X17. A built-in adapter without workers serves no task: a batch
    returns one failed result per task, in priority order, and neither the
    adapter nor the world changes, not even the clock is read.  A task
    whose type the [agent_mapping] assigns to a worker fails with
    "Agent <id> not found", every other task with "No suitable agent found
    for task". *)
Theorem empty_registry_serves_nothing O self tasks cfg w :
  BuiltinAdapter.agents self = [] ->
  let c := default default_workflow_config cfg in
  BuiltinAdapter.orchestrate_workflow O self tasks cfg w
  = (Ok (self, map (unserved c) (sorted_by_priority tasks)), w)
  /\ Forall (fun r => success r = false /\ output r = VDict [] /\
                      exists msg, error r = Some msg /\ msg <> "")
            (map (unserved c) (sorted_by_priority tasks)).
Proof.
  intros Hempty c. split.
  - unfold BuiltinAdapter.orchestrate_workflow. fold c.
    now rewrite empty_registry_loop.
  - apply List.Forall_forall. intros r Hr. apply in_map_iff in Hr.
    destruct Hr as (t & <- & _). unfold unserved.
    destruct (mapped_agent c t); cbn; repeat split; eexists; split;
      try reflexivity; discriminate.
Qed.

Lemma empty_registry_witness :
  BuiltinAdapter.agents (BuiltinAdapter.__init__ None) = [] /\
  map error (snd (match fst (BuiltinAdapter.orchestrate_workflow builtin_offline
                               (BuiltinAdapter.__init__ None) urgent_last None
                               fresh_world) with
                  | Ok out => out
                  | Raise _ => (BuiltinAdapter.__init__ None, [])
                  end))
  = [Some "No suitable agent found for task"; Some "No suitable agent found for task"].
Proof.
  split; [reflexivity|].
  rewrite (proj1 (empty_registry_serves_nothing builtin_offline
                    (BuiltinAdapter.__init__ None) urgent_last None fresh_world
                    eq_refl)).
  reflexivity.
Defined.

(** X18. Output chaining skips the task that produced the output, and it
    compares tasks by id: a batch whose tasks all carry the same id, a
    single task in particular, runs without any write to an input
    dictionary. *)
Theorem same_id_batch_writes_nothing O self tasks cfg w :
  (forall t t', In t tasks -> In t' tasks -> task_id t = task_id t') ->
  exists out w',
    BuiltinAdapter.orchestrate_workflow O self tasks cfg w = (Ok out, w') /\
    List.length (snd out) = List.length tasks /\
    heap w' = heap w /\ sent w' = sent w /\ next_loc w' = next_loc w.
Proof.
  intros Hsame.
  assert (Hin : forall t, In t (sorted_by_priority tasks) -> In t tasks).
  { intros t. apply Permutation_in, sorted_by_priority_perm. }
  assert (Hframe : frame (BuiltinAdapter.orchestrate_workflow O self tasks cfg)).
  { unfold BuiltinAdapter.orchestrate_workflow.
    apply (evolves_for_each ticks_only). intros x st Hx.
    unfold BuiltinAdapter.workflow_step.
    assert (Hchain : forall out,
               frame (BuiltinAdapter.chain_output (sorted_by_priority tasks) x out)).
    { intros out. unfold BuiltinAdapter.chain_output.
      apply (evolves_for_each ticks_only). intros y [] Hy.
      rewrite (Hsame y x (Hin y Hy) (Hin x Hx)), String.eqb_refl.
      apply (evolves_ret ticks_only). }
    repeat match goal with
      | |- evolves _ (BuiltinAdapter.execute_task _ _ _ _) =>
          apply frame_execute_task
      | |- evolves _ (BuiltinAdapter.chain_output _ _ _) => apply Hchain
      | |- evolves ?R (ret _) => apply (evolves_ret R)
      | |- evolves ?R (bind _ _) => apply (evolves_bind R); [|intro]
      | |- evolves _ (if ?b then _ else _) => destruct b
      | |- evolves _ (match ?x with _ => _ end) => destruct x eqn:?
      end. }
  destruct (run_spec ticks_only _ _
              (total_orchestrate_workflow O self tasks cfg)
              (ensures_orchestrate_workflow O self tasks cfg) Hframe w)
    as (out & w' & Hrun & Hids & (Hn & Hh & Hs)).
  exists out, w'. split; [exact Hrun|]. split; [|auto].
  rewrite <- (length_map r_task_id), Hids, length_map.
  apply sorted_by_priority_length.
Qed.

Lemma same_id_batch_witness :
  let tasks := [mkTask "T1" "analyze" "Analyze telemetry" 0 1] in
  (forall t t', In t tasks -> In t' tasks -> task_id t = task_id t') /\
  heap (snd (BuiltinAdapter.orchestrate_workflow builtin_offline staffed_builtin tasks
               None (world_with [reading])))
  = heap (world_with [reading]).
Proof.
  intros tasks.
  assert (H : forall t t', In t tasks -> In t' tasks -> task_id t = task_id t').
  { intros t t' [<-|[]] [<-|[]]. reflexivity. }
  split; [exact H|].
  destruct (same_id_batch_writes_nothing builtin_offline staffed_builtin tasks None
              (world_with [reading]) H) as (out & w' & Hrun & _ & Hh & _).
  rewrite Hrun. exact Hh.
Defined.

(** * The tool registry *)

Section ToolRegistry.
Variable Callable : Type.

Abbreviation registry := (AgentToolRegistry.t Callable).
Import AgentToolRegistry.

Lemma register_then_get_entry (r : registry) name func description :
  get (register r name func description) name
  = Some {| AgentToolRegistry.function := func;
            AgentToolRegistry.description := default "" description;
            AgentToolRegistry.name := name |}.
Proof.
  unfold AgentToolRegistry.get, AgentToolRegistry.register.
  cbn [AgentToolRegistry.tools]. now rewrite dict_get_set, String.eqb_refl.
Qed.

(** X19. Registering a tool and looking it up.  After
    [register(name, func, description)], [get(name)] returns the entry
    with that function, description (empty by default) and name; every
    other name is looked up as before.  A new name goes last in
    [list_tools]; registering a name again keeps its place and replaces
    the entry. *)
Theorem register_then_get (r : registry) name func description :
  let r' := register r name func description in
  get r' name
  = Some {| AgentToolRegistry.function := func;
            AgentToolRegistry.description := default "" description;
            AgentToolRegistry.name := name |} /\
  (forall other, other <> name -> get r' other = get r other) /\
  (In name (list_tools r) -> list_tools r' = list_tools r) /\
  (~ In name (list_tools r) -> list_tools r' = (list_tools r ++ [name])%list).
Proof.
  intros r'. unfold r'.
  split; [apply register_then_get_entry|].
  unfold AgentToolRegistry.get, AgentToolRegistry.list_tools,
    AgentToolRegistry.register. cbn [AgentToolRegistry.tools]. split.
  - intros other Hne. rewrite dict_get_set.
    destruct (String.eqb_spec name other); [congruence|reflexivity].
  - apply dict_keys_set_cases.
Qed.

(** The registry after a sequence of [register] calls on a new one. *)
Definition registered (calls : list (string * Callable * option string)) : registry :=
  fold_left (fun r c => register r (fst (fst c)) (snd (fst c)) (snd c)) calls
            AgentToolRegistry.__init__.

Definition well_formed (r : registry) : Prop :=
  List.NoDup (list_tools r) /\
  Forall (fun kv => AgentToolRegistry.name (snd kv) = fst kv)
         (AgentToolRegistry.tools r).

Lemma well_formed_register r name func description :
  well_formed r -> well_formed (register r name func description).
Proof.
  intros [Hnd Hnames]. split.
  - apply NoDup_dict_set, Hnd.
  - unfold AgentToolRegistry.register. cbn [AgentToolRegistry.tools].
    revert Hnames. generalize (AgentToolRegistry.tools r). intros d.
    induction d as [|[k v] rest IH]; cbn; intros H.
    + repeat constructor.
    + inversion H; subst. destruct (String.eqb_spec k name) as [->|Hne].
      * constructor; [reflexivity|assumption].
      * constructor; [assumption|auto].
Qed.

Lemma dict_get_map_snd {V W} (f : V -> W) (d : list (string * V)) k :
  dict_get (map (fun kv => (fst kv, f (snd kv))) d) k = option_map f (dict_get d k).
Proof.
  induction d as [|[k0 v0] rest IH]; cbn; [reflexivity|].
  destruct (String.eqb k0 k); [reflexivity|exact IH].
Qed.

(** Later registrations of other names leave an entry alone. *)
Lemma get_after_others name (after : list (string * Callable * option string)) r0 :
  ~ In name (map (fun c => fst (fst c)) after) ->
  get (fold_left (fun r c => register r (fst (fst c)) (snd (fst c)) (snd c)) after r0)
      name
  = get r0 name.
Proof.
  revert r0. induction after as [|[[n f] d] rest IH]; intros r0 Hnot;
    [reflexivity|].
  cbn [fold_left fst snd]. rewrite IH by (intros H; apply Hnot; now right).
  unfold AgentToolRegistry.get, AgentToolRegistry.register.
  cbn [AgentToolRegistry.tools]. rewrite dict_get_set.
  destruct (String.eqb_spec n name) as [->|]; [|reflexivity].
  exfalso. apply Hnot. now left.
Qed.

(** X20. Whatever tools were registered, in whatever order and however
    often: the names in [list_tools] are distinct, every entry carries
    the name it is stored under, and [get_all] lists the same names in
    the same order, each with the function [get] returns for it.  A name
    is known exactly when some call registered it, and the entry is the
    one of the last such call, whatever other names were registered
    after it. *)
Theorem registry_stays_consistent calls :
  let r := registered calls in
  List.NoDup (list_tools r) /\
  (forall name info, get r name = Some info ->
                     AgentToolRegistry.name info = name) /\
  map fst (get_all r) = list_tools r /\
  (forall name, dict_get (get_all r) name
                = option_map AgentToolRegistry.function (get r name)) /\
  (forall name, is_Some (get r name) <-> In name (map (fun c => fst (fst c)) calls)) /\
  (forall before name func description after,
      calls = (before ++ (name, func, description) :: after)%list ->
      ~ In name (map (fun c => fst (fst c)) after) ->
      get r name
      = Some {| AgentToolRegistry.function := func;
                AgentToolRegistry.description := default "" description;
                AgentToolRegistry.name := name |}).
Proof.
  intros r.
  assert (Hwf : well_formed r /\
                forall name, is_Some (get r name)
                             <-> In name (map (fun c => fst (fst c)) calls)).
  { unfold r, registered. rewrite <- (rev_involutive calls).
    induction (rev calls) as [|[[n f] d] rest IH]; cbn [rev].
    - cbn. split; [split; constructor|].
      intros name. split; [intros [? H]; discriminate|intros []].
    - rewrite fold_left_app. cbn [fold_left fst snd].
      destruct IH as [IHwf IHin]. split; [now apply well_formed_register|].
      intros name. rewrite List.map_app, in_app_iff. cbn [map In fst].
      unfold AgentToolRegistry.get, AgentToolRegistry.register.
      cbn [AgentToolRegistry.tools]. rewrite dict_get_set.
      destruct (String.eqb_spec n name) as [->|Hne].
      + split; [auto|eauto].
      + rewrite <- IHin. unfold AgentToolRegistry.get. split; [auto|].
        intros [H|[H|[]]]; [exact H|congruence]. }
  destruct Hwf as [[Hnd Hnames] Hin].
  split; [exact Hnd|]. split; [|split; [|split; [|split; [exact Hin|]]]].
  - intros name info. unfold AgentToolRegistry.get.
    revert Hnames. generalize (AgentToolRegistry.tools r). intros d.
    induction d as [|[k v] rest IH]; cbn; [discriminate|].
    intros H. inversion H; subst. cbn in *.
    destruct (String.eqb_spec k name) as [->|Hne]; [|auto].
    intros [= <-]. assumption.
  - unfold AgentToolRegistry.get_all, AgentToolRegistry.list_tools, dict_keys.
    rewrite List.map_map. reflexivity.
  - intros name. apply dict_get_map_snd.
  - intros before name func description after -> Hnot. unfold r, registered.
    rewrite fold_left_app. cbn [fold_left fst snd].
    rewrite get_after_others by exact Hnot.
    apply register_then_get_entry.
Qed.
End ToolRegistry.

(** * Further properties of the master agent *)

(** The neutral answers the master agent substitutes for a collaborator
    that cannot be used. *)
Definition neutral_ueba : dict := [("alert", VBool false); ("score", VInt 0)].

(** X21. [_report_to_ueba] never raises and always sends exactly one
    request, to [<UEBA_SERVICE_URL>/score] with the action wrapped as
    [agent_action]; nothing else changes.  It returns the service's JSON
    on status 200, the neutral answer (no alert, score 0) on any other
    status, and the neutral answer with the error text when the request or
    the decoding of the answer raises. *)
Theorem report_to_ueba_never_raises O action m w :
  let url := MasterAgent.ueba_service_url m ++ "/score" in
  let body := VDict [("agent_action", action)] in
  exists reply w',
    MasterAgent._report_to_ueba O action (m, w) = (Ok reply, (m, w')) /\
    sent w' = (sent w ++ [(url, body)])%list /\
    heap w' = heap w /\ next_loc w' = next_loc w /\ tick w' = S (tick w) /\
    match http_post O (tick w) url body with
    | Ok response =>
        if status_code response =? 200
        then match json_body response with
             | Ok v => reply = v
             | Raise e =>
                 reply = VDict (neutral_ueba ++ [("error", VStr (exn_str e))])%list
             end
        else reply = VDict neutral_ueba
    | Raise e => reply = VDict (neutral_ueba ++ [("error", VStr (exn_str e))])%list
    end.
Proof.
  intros url body. pose proof (report_to_ueba_run O action m w) as Hrun.
  cbn zeta in Hrun. rewrite Hrun. eexists _, _. split; [reflexivity|].
  cbn [posted sent heap next_loc tick]. repeat split.
  unfold ueba_reply, ueba_body. fold url. fold body.
  destruct (http_post O (tick w) url body) as [response|e]; [|reflexivity].
  destruct (status_code response =? 200); [|reflexivity].
  destruct (json_body response); reflexivity.
Qed.

(** Whether the prediction service gave a usable answer at [w]. *)
Definition prediction_missing (O : Oracle) (m : MasterAgent.t) (telemetry : dict)
    (w : World) : Prop :=
  match http_post O (tick w) (MasterAgent.ml_service_url m ++ "/predict")
                  (VDict telemetry) with
  | Ok response => (status_code response =? 200) = false \/ is_ok (json_body response) = false
  | Raise _ => True
  end.

(** X22. [_get_ml_prediction] never raises and always sends exactly one
    request, the telemetry itself, to [<ML_SERVICE_URL>/predict].  When the
    service cannot be reached, answers with another status than 200, or
    its answer cannot be decoded, the prediction is a map without
    [failure_probability] (empty, or holding only the error text); the
    diagnosis condition of [process_telemetry] is then decided by the
    analysis alone: it holds exactly when the analysis says
    "needs_attention". *)
Theorem prediction_outage_defers_to_analysis O telemetry m w :
  let url := MasterAgent.ml_service_url m ++ "/predict" in
  exists prediction w',
    MasterAgent._get_ml_prediction O telemetry (m, w) = (Ok prediction, (m, w')) /\
    sent w' = (sent w ++ [(url, VDict telemetry)])%list /\
    heap w' = heap w /\ next_loc w' = next_loc w /\
    (prediction_missing O m telemetry w ->
     (prediction = VDict [] \/ exists msg, prediction = VDict [("error", VStr msg)]) /\
     forall analysis,
       MasterAgent.needs_diagnosis prediction (VDict analysis)
       = Ok (py_eq_str (default VNone (dict_get analysis "overall_status"))
                       "needs_attention")).
Proof.
  intros url. pose proof (get_ml_prediction_run O telemetry m w) as Hrun.
  cbn zeta in Hrun. rewrite Hrun. eexists _, _. split; [reflexivity|].
  cbn [posted sent heap next_loc]. repeat split;
    revert H; unfold prediction_missing, ml_reply; fold url;
    destruct (http_post O (tick w) url (VDict telemetry)) as [response|e];
    try (destruct (status_code response =? 200);
         [destruct (json_body response); intros [H|H]; try discriminate H|]);
    intros; eauto.
Qed.

Lemma prediction_outage_witness :
  let O := builtin_offline in
  let m := MasterAgent.__init__ O None in
  prediction_missing O m hot_engine fresh_world /\
  exists prediction,
    fst (MasterAgent._get_ml_prediction O hot_engine (m, fresh_world)) = Ok prediction /\
    MasterAgent.needs_diagnosis prediction
      (VDict [("overall_status", VStr "needs_attention")]) = Ok true.
Proof.
  intros O m.
  assert (H : prediction_missing O m hot_engine fresh_world) by exact I.
  split; [exact H|].
  destruct (prediction_outage_defers_to_analysis O hot_engine m fresh_world)
    as (p & w' & Hrun & _ & _ & _ & Hmiss).
  destruct (Hmiss H) as [_ Hn].
  exists p. rewrite Hrun. split; [reflexivity|]. rewrite Hn. reflexivity.
Defined.

(** ** What the entry points keep *)

(** The world only grows: requests are appended and objects allocated. *)
Definition grows (w w' : World) : Prop :=
  (exists more, sent w' = (sent w ++ more)%list) /\ (next_loc w <= next_loc w')%nat.

#[local] Instance grows_preorder : PreOrder grows.
Proof.
  split.
  - intros w. split; [exists []; now rewrite List.app_nil_r|lia].
  - intros a b c [[m1 H1] L1] [[m2 H2] L2]. split; [|lia].
    exists (m1 ++ m2)%list. now rewrite H2, H1, List.app_assoc.
Qed.

Lemma ticks_only_grows w w' : ticks_only w w' -> grows w w'.
Proof.
  intros (Hn & _ & Hs). split; [exists []; now rewrite List.app_nil_r|lia].
Qed.

(** The adapter keeps its class, its workers and its initialised flag. *)
Definition adapter_kept (x y : option Adapter) : Prop :=
  match x, y with
  | Some a, Some a' =>
      same_class a a' /\ Adapter_list_agents a' = Adapter_list_agents a /\
      initialized a' = initialized a
  | None, None => True
  | _, _ => False
  end.

(** The master agent keeps its configuration, roster and adapter; the
    world only grows. *)
Definition kept (s s' : MasterAgent.t * World) : Prop :=
  MasterAgent.config (fst s') = MasterAgent.config (fst s) /\
  MasterAgent.agent_id (fst s') = MasterAgent.agent_id (fst s) /\
  MasterAgent.worker_agents (fst s') = MasterAgent.worker_agents (fst s) /\
  MasterAgent.ml_service_url (fst s') = MasterAgent.ml_service_url (fst s) /\
  MasterAgent.ueba_service_url (fst s') = MasterAgent.ueba_service_url (fst s) /\
  MasterAgent.backend_url (fst s') = MasterAgent.backend_url (fst s) /\
  adapter_kept (MasterAgent.adapter (fst s)) (MasterAgent.adapter (fst s')) /\
  grows (snd s) (snd s').

#[local] Instance kept_preorder : PreOrder kept.
Proof.
  split.
  - intros [m w]. unfold kept, adapter_kept. cbn [fst snd].
    do 6 (split; [reflexivity|]). split; [|reflexivity].
    destruct (MasterAgent.adapter m); auto using same_class_refl.
  - intros [m1 w1] [m2 w2] [m3 w3]. unfold kept, adapter_kept. cbn [fst snd].
    intros (A1 & A2 & A3 & A4 & A5 & A6 & A7 & A8)
           (B1 & B2 & B3 & B4 & B5 & B6 & B7 & B8).
    do 6 (split; [congruence|]). split; [|etransitivity; eassumption].
    destruct (MasterAgent.adapter m1), (MasterAgent.adapter m2),
      (MasterAgent.adapter m3); try tauto.
    destruct A7 as (? & ? & ?), B7 as (? & ? & ?).
    repeat split; [eapply same_class_trans; eassumption|congruence|congruence].
Qed.

Section Kept.
Variable O : Oracle.

Lemma kept_world {A} (m : M A) : evolves grows m -> evolves kept (MasterAgent.world m).
Proof.
  intros Hm [self w]. unfold MasterAgent.world, kept. cbn [fst snd].
  do 6 (split; [reflexivity|]). split; [|apply (Hm w)].
  unfold adapter_kept. destruct (MasterAgent.adapter self); auto using same_class_refl.
Qed.

Lemma kept_get_self : evolves kept MasterAgent.get_self.
Proof. intros s. reflexivity. Qed.

Lemma grows_frame {A} (m : M A) : frame m -> evolves grows m.
Proof. intros Hm w. apply ticks_only_grows, Hm. Qed.

Lemma grows_alloc d : evolves grows (alloc d).
Proof. intros w. split; [exists []; cbn; now rewrite List.app_nil_r|cbn; lia]. Qed.

Lemma grows_setitem l k v : evolves grows (setitem l k v).
Proof. intros w. split; [exists []; cbn; now rewrite List.app_nil_r|cbn; lia]. Qed.

Lemma grows_log_request url body : evolves grows (log_request url body).
Proof. intros w. split; [eexists; reflexivity|cbn; lia]. Qed.

Lemma grows_uuid : evolves grows (uuid4_hex8_upper O).
Proof. apply grows_frame, frame_uuid4_hex8_upper. Qed.

Lemma grows_now : evolves grows (datetime_now_iso O).
Proof. apply grows_frame, frame_datetime_now_iso. Qed.

Lemma kept_on_adapter {A} method (f : Adapter -> M (Adapter * A)) :
  (forall a w a' r w', f a w = (Ok (a', r), w') ->
                       adapter_kept (Some a) (Some a')) ->
  (forall a, evolves grows (f a)) ->
  evolves kept (MasterAgent.on_adapter method f).
Proof.
  intros Hf Hg [self w]. unfold MasterAgent.on_adapter, bind, MasterAgent.get_self.
  cbn [fst snd]. destruct (MasterAgent.adapter self) as [a0|] eqn:Ha.
  2:{ cbn. reflexivity. }
  unfold MasterAgent.world. cbn [fst snd].
  pose proof (Hg a0 w) as Hgrow. pose proof (Hf a0 w) as Hkeep.
  destruct (f a0 w) as [[[a' r]|e] w'] eqn:E; cbn [fst snd] in *.
  - unfold kept. cbn. rewrite ?Ha. do 6 (split; [reflexivity|]).
    split; [apply (Hkeep a' r w' eq_refl)|exact Hgrow].
  - unfold kept. cbn. rewrite ?Ha. do 6 (split; [reflexivity|]).
    split; [|exact Hgrow]. cbn. auto using same_class_refl.
Qed.

Lemma kept_execute_on key task : evolves kept (MasterAgent.execute_on O key task).
Proof.
  unfold MasterAgent.execute_on.
  apply (evolves_bind kept); [apply kept_get_self|]. intros self.
  destruct (MasterAgent.adapter self) as [_|]; [|apply (evolves_raise kept)].
  destruct (dict_get _ key) as [worker|]; [|apply (evolves_raise kept)].
  apply kept_on_adapter.
  - intros a0 w a' r w' H.
    destruct (Adapter_execute_task_keeps O a0 worker task w)
      as (a1 & r1 & w1 & Hrun & _ & _ & _ & Hc & Hl & Hi).
    rewrite H in Hrun. inversion Hrun; subst. repeat split; assumption.
  - intros a0 w.
    destruct (Adapter_execute_task_keeps O a0 worker task w)
      as (a1 & r1 & w1 & Hrun & Hh & Hs & Hn & _).
    rewrite Hrun. cbn [snd]. split; [exists []; now rewrite List.app_nil_r|lia].
Qed.

Lemma kept_post url body : evolves kept (MasterAgent.post O url body).
Proof.
  unfold MasterAgent.post.
  apply (evolves_bind kept); [apply kept_world, grows_frame, frame_next_tick|].
  intros n. apply (evolves_bind kept); [apply kept_world, grows_log_request|].
  intros _. apply (evolves_lift kept).
Qed.

Ltac step_kept :=
  repeat match goal with
    | |- evolves _ (ret _) => apply (evolves_ret kept)
    | |- evolves _ (raise _) => apply (evolves_raise kept)
    | |- evolves _ (lift _) => apply (evolves_lift kept)
    | |- evolves _ MasterAgent.get_self => apply kept_get_self
    | |- evolves _ (MasterAgent.post _ _ _) => apply kept_post
    | |- evolves _ (MasterAgent.execute_on _ _ _) => apply kept_execute_on
    | |- evolves _ (MasterAgent.world (alloc _)) => apply kept_world, grows_alloc
    | |- evolves _ (MasterAgent.world (setitem _ _ _)) =>
        apply kept_world, grows_setitem
    | |- evolves _ (MasterAgent.world (deref _)) =>
        apply kept_world, grows_frame, frame_deref
    | |- evolves _ (MasterAgent.world (uuid4_hex8_upper _)) =>
        apply kept_world, grows_uuid
    | |- evolves _ (MasterAgent.world (datetime_now_iso _)) =>
        apply kept_world, grows_now
    | |- evolves _ (try_except _ _) => apply (evolves_try kept); [|intro]
    | |- evolves _ (bind _ _) => apply (evolves_bind kept); [|intro]
    | |- evolves _ (if ?b then _ else _) => destruct b
    | |- evolves _ (match ?x with _ => _ end) => destruct x
    end.

Lemma kept_report_to_ueba action : evolves kept (MasterAgent._report_to_ueba O action).
Proof. unfold MasterAgent._report_to_ueba. step_kept. Qed.

Lemma kept_get_ml_prediction telemetry :
  evolves kept (MasterAgent._get_ml_prediction O telemetry).
Proof. unfold MasterAgent._get_ml_prediction. step_kept. Qed.

Lemma kept_process_telemetry telemetry :
  evolves kept (MasterAgent.process_telemetry O telemetry).
Proof.
  unfold MasterAgent.process_telemetry, MasterAgent.run_stages,
    MasterAgent._initiate_service_workflow.
  repeat match goal with
    | |- evolves _ (MasterAgent._report_to_ueba _ _) => apply kept_report_to_ueba
    | |- evolves _ (MasterAgent._get_ml_prediction _ _) =>
        apply kept_get_ml_prediction
    | _ => progress step_kept
    end.
Qed.

Lemma kept_generate_rca_capa vehicle_id diagnosis feedback :
  evolves kept (MasterAgent.generate_rca_capa O vehicle_id diagnosis feedback).
Proof.
  unfold MasterAgent.generate_rca_capa.
  repeat match goal with
    | |- evolves _ (MasterAgent._report_to_ueba _ _) => apply kept_report_to_ueba
    | _ => progress step_kept
    end.
Qed.

Lemma kept_collect_feedback appointment_id customer_id :
  evolves kept (MasterAgent.collect_feedback O appointment_id customer_id).
Proof. unfold MasterAgent.collect_feedback. step_kept. Qed.
End Kept.

Lemma kept_has_roster m w m' w' : kept (m, w) (m', w') -> has_roster m -> has_roster m'.
Proof.
  unfold kept, has_roster, adapter_kept. cbn [fst snd].
  intros (_ & _ & Hw & _ & _ & _ & Ha & _) [[a Hsome] Hr].
  rewrite Hw. split; [|exact Hr]. rewrite Hsome in Ha.
  destruct (MasterAgent.adapter m'); [eauto|contradiction].
Qed.

(** X23. The entry points of the master agent, [process_telemetry],
    [generate_rca_capa] and [collect_feedback], whether they return or
    raise, never change the master agent's configuration, id, service URLs
    or worker roster; the adapter keeps its class, its registered workers
    and its initialised flag; no sent request is dropped and no object is
    freed.  So a master agent that has its roster still has it after any
    of these calls. *)
Theorem entry_points_keep_the_roster O m w :
  (forall telemetry,
      let s' := snd (MasterAgent.process_telemetry O telemetry (m, w)) in
      kept (m, w) s' /\ (has_roster m -> has_roster (fst s'))) /\
  (forall vehicle_id diagnosis feedback,
      let s' := snd (MasterAgent.generate_rca_capa O vehicle_id diagnosis feedback
                       (m, w)) in
      kept (m, w) s' /\ (has_roster m -> has_roster (fst s'))) /\
  (forall appointment_id customer_id,
      let s' := snd (MasterAgent.collect_feedback O appointment_id customer_id (m, w)) in
      kept (m, w) s' /\ (has_roster m -> has_roster (fst s'))).
Proof.
  split; [|split]; intros; subst s'.
  - pose proof (kept_process_telemetry O telemetry (m, w)) as H.
    split; [exact H|]. destruct (snd _) as [m' w']. now apply kept_has_roster with w w'.
  - pose proof (kept_generate_rca_capa O vehicle_id diagnosis feedback (m, w)) as H.
    split; [exact H|]. destruct (snd _) as [m' w']. now apply kept_has_roster with w w'.
  - pose proof (kept_collect_feedback O appointment_id customer_id (m, w)) as H.
    split; [exact H|]. destruct (snd _) as [m' w']. now apply kept_has_roster with w w'.
Qed.

Lemma entry_points_witness :
  let O := builtin_offline in
  let m := fst (snd (after_initialize O)) in
  let w := snd (snd (after_initialize O)) in
  has_roster m /\
  has_roster (fst (snd (MasterAgent.collect_feedback O (VStr "APT-1") (VStr "CUST-1")
                          (m, w)))).
Proof.
  intros O m w.
  assert (Hm : has_roster m).
  { vm_compute. split; [eexists; reflexivity|].
    repeat constructor; eexists; reflexivity. }
  split; [exact Hm|].
  destruct (entry_points_keep_the_roster O m w) as (_ & _ & Hfb).
  exact (proj2 (Hfb (VStr "APT-1") (VStr "CUST-1")) Hm).
Defined.

(** ** Feedback collection and RCA/CAPA reports *)

Section FeedbackAndReports.
Variable O : Oracle.

(** The world once a task's identifier is drawn and its input map
    allocated. *)
Definition with_input (w : World) (d : dict) : World :=
  snd (alloc d (snd (uuid4_hex8_upper O w))).

Definition feedback_input (appointment_id customer_id : value) : dict :=
  [("appointment_id", appointment_id); ("customer_id", customer_id)].

Definition rca_input (vehicle_id diagnosis : value) (feedback : option dict) : dict :=
  [("diagnosis", diagnosis);
   ("vehicle_data", VDict [("vehicle_id", vehicle_id)]);
   ("feedback", VDict (default [] feedback))].

(** The survey the built-in feedback handler prepares. *)
Definition survey (u link : string) : value :=
  VDict
    [("feedback_id", VStr ("FB-" ++ u));
     ("survey_link", VStr ("https://autosentry.ai/feedback/" ++ link));
     ("questions",
        VList [BuiltinAgent.question 1 "How satisfied were you with the service?" "rating";
               BuiltinAgent.question 2 "Was the issue resolved?" "yes_no";
               BuiltinAgent.question 3 "How likely are you to recommend us?" "nps";
               BuiltinAgent.question 4 "Any additional comments?" "text"]);
     ("status", VStr "sent")].

(** The action [generate_rca_capa] reports to UEBA for the result [r]. *)
Definition rca_action (id : string) (vehicle_id : value) (r : AgentResult) : value :=
  VDict [("agent_id", VStr id);
         ("agent_type", VStr "rca_capa");
         ("action_type", VStr "generate");
         ("target_entity", VStr "capa_report");
         ("vehicle_id", vehicle_id);
         ("payload_size", VInt (json_len O (output r)));
         ("response_time_ms", VFloat (execution_time_ms r));
         ("success", VBool (success r))].

Lemma execute_on_eq key task m w a id a' r w' :
  MasterAgent.adapter m = Some a ->
  dict_get (MasterAgent.worker_agents m) key = Some id ->
  Adapter_execute_task O a id task w = (Ok (a', r), w') ->
  MasterAgent.execute_on O key task (m, w)
  = (Ok r, (MasterAgent.set_adapter m (Some a'), w')).
Proof.
  intros Ha Hk Hrun.
  unfold MasterAgent.execute_on, MasterAgent.on_adapter, bind,
    MasterAgent.get_self, MasterAgent.world, MasterAgent.put_self, ret.
  cbn [fst snd]. rewrite Ha, Hk. cbn [fst snd]. rewrite Ha. cbn [fst snd].
  rewrite Hrun. reflexivity.
Qed.

Lemma execute_on_no_adapter key task m w :
  MasterAgent.adapter m = None ->
  MasterAgent.execute_on O key task (m, w)
  = (Raise (AttributeError VNone "execute_task"), (m, w)).
Proof.
  intros Ha. unfold MasterAgent.execute_on, bind, MasterAgent.get_self.
  cbn [fst snd]. now rewrite Ha.
Qed.

Lemma with_input_run {A} d (k : string -> nat -> MasterAgent.MA A) m w :
  (u <- MasterAgent.world (uuid4_hex8_upper O) ;;
   input <- MasterAgent.world (alloc d) ;;
   k u input) (m, w)
  = k (str_upper (String.substring 0 8 (uuid4_hex O (tick w)))) (next_loc w)
      (m, with_input w d).
Proof. reflexivity. Qed.

Lemma with_input_heap w d :
  heap_get (heap (with_input w d)) (next_loc w) = d /\
  sent (with_input w d) = sent w.
Proof.
  unfold with_input, heap_get. cbn. split; [|reflexivity].
  now simplify_map_eq.
Qed.

(** What the built-in adapter returns for a feedback task. *)
Lemma builtin_feedback_result b id task w :
  task_type task = "feedback" ->
  exists b' r w',
    BuiltinAdapter.execute_task O b id task w = (Ok (b', r), w') /\
    ticks_only w w' /\
    match dict_get (BuiltinAdapter.agents b) id with
    | Some _ => success r = true /\ exists u link, output r = survey u link
    | None => success r = false /\ output r = VDict []
    end.
Proof.
  intros Hty.
  destruct (BuiltinAdapter_execute_task_spec O b id task w)
    as (b' & r & w' & Hrun & Hw & _ & _ & _ & Hcase).
  exists b', r, w'. split; [exact Hrun|]. split; [exact Hw|].
  destruct (dict_get (BuiltinAdapter.agents b) id).
  - rewrite Hty in Hcase. cbn in Hcase. destruct Hcase as (Hs & Ho & _).
    split; [exact Hs|]. eexists _, _. exact Ho.
  - destruct Hcase as [-> _]. split; reflexivity.
Qed.
End FeedbackAndReports.

(** X24. [collect_feedback] raises [AttributeError] when the master agent
    has no adapter and [KeyError] ('feedback') when the roster has no
    feedback worker.  Otherwise it hands the adapter one task of type
    "feedback" and priority 4 whose input map holds the appointment and
    customer ids, and returns the result's success flag and output under
    "success" and "feedback".  With the built-in adapter a registered
    worker always succeeds with a survey of four questions and status
    "sent", an unregistered one gives success false and an empty output.
    No request is sent in any case. *)
Theorem collect_feedback_outcome O appointment_id customer_id m w :
  let run := MasterAgent.collect_feedback O appointment_id customer_id (m, w) in
  sent (snd (snd run)) = sent w /\
  match MasterAgent.adapter m, dict_get (MasterAgent.worker_agents m) "feedback" with
  | None, _ => fst run = Raise (AttributeError VNone "execute_task")
  | Some _, None => fst run = Raise (KeyError_str "feedback")
  | Some a, Some id =>
      exists task w1 a' r w2,
        Adapter_execute_task O a id task w1 = (Ok (a', r), w2) /\
        task_type task = "feedback" /\ priority task = 4%Z /\
        heap_get (heap w1) (input_data task)
        = feedback_input appointment_id customer_id /\
        fst run = Ok (VDict [("success", VBool (success r));
                             ("feedback", output r)]) /\
        match a with
        | Builtin b =>
            match dict_get (BuiltinAdapter.agents b) id with
            | Some _ => success r = true /\ exists u link, output r = survey u link
            | None => success r = false /\ output r = VDict []
            end
        | _ => True
        end
  end.
Proof.
  cbn zeta. unfold MasterAgent.collect_feedback. rewrite with_input_run.
  set (d := feedback_input appointment_id customer_id).
  change [("appointment_id", appointment_id); ("customer_id", customer_id)] with d.
  set (task := mkTask _ _ _ _ _).
  destruct (with_input_heap O w d) as [Hheap Hsent].
  destruct (MasterAgent.adapter m) as [a|] eqn:Ha.
  2:{ unfold bind. rewrite execute_on_no_adapter by exact Ha. cbn. auto. }
  destruct (dict_get (MasterAgent.worker_agents m) "feedback") as [id|] eqn:Hk.
  2:{ unfold bind. rewrite (execute_on_missing O _ _ _ _ a) by assumption. cbn. auto. }
  assert (Hany : exists a' r w2,
             Adapter_execute_task O a id task (with_input O w d) = (Ok (a', r), w2) /\
             ticks_only (with_input O w d) w2 /\
             match a with
             | Builtin b =>
                 match dict_get (BuiltinAdapter.agents b) id with
                 | Some _ => success r = true /\ exists u link, output r = survey u link
                 | None => success r = false /\ output r = VDict []
                 end
             | _ => True
             end).
  { destruct a as [b|l|c|g].
    - destruct (builtin_feedback_result O b id task (with_input O w d) eq_refl)
        as (b' & r & w2 & Hrun & Hw & Hcase).
      exists (Builtin b'), r, w2. split; [|split; [exact Hw|exact Hcase]].
      cbn [Adapter_execute_task with_class adapter_execute_task Builtin_adapter].
      unfold bind. rewrite Hrun. reflexivity.
    - destruct (Adapter_execute_task_spec O (LangGraph l) id task (with_input O w d))
        as (a' & r & w2 & Hrun & Hw & _). exists a', r, w2. auto.
    - destruct (Adapter_execute_task_spec O (CrewAI c) id task (with_input O w d))
        as (a' & r & w2 & Hrun & Hw & _). exists a', r, w2. auto.
    - destruct (Adapter_execute_task_spec O (AutoGen g) id task (with_input O w d))
        as (a' & r & w2 & Hrun & Hw & _). exists a', r, w2. auto. }
  destruct Hany as (a' & r & w2 & Hrun & (_ & _ & Hs) & Hcase).
  unfold bind. rewrite (execute_on_eq O _ _ _ _ _ _ _ _ _ Ha Hk Hrun). cbn [fst snd ret].
  split; [congruence|].
  exists task, (with_input O w d), a', r, w2.
  split; [exact Hrun|]. split; [reflexivity|]. split; [reflexivity|].
  split; [exact Hheap|]. split; [reflexivity|exact Hcase].
Qed.

(** X25. [generate_rca_capa] raises [AttributeError] without an adapter
    and [KeyError] ('rca_capa') without an RCA/CAPA worker in the roster,
    before anything is sent.  Otherwise it hands the adapter one task of
    type "rca_capa" and priority 3 whose input map holds the diagnosis,
    the vehicle id and the feedback (an empty map when none is given).
    When the result's output can be serialised to JSON, exactly one
    request goes out, the UEBA report of the action with the worker's id
    and the result's success flag, and the call returns the success flag
    and the output whatever UEBA answers; when the output cannot be
    serialised the call raises [TypeError] and nothing is sent. *)
Theorem generate_rca_capa_outcome O vehicle_id diagnosis feedback m w :
  let run := MasterAgent.generate_rca_capa O vehicle_id diagnosis feedback (m, w) in
  match MasterAgent.adapter m, dict_get (MasterAgent.worker_agents m) "rca_capa" with
  | None, _ =>
      fst run = Raise (AttributeError VNone "execute_task") /\
      sent (snd (snd run)) = sent w
  | Some _, None =>
      fst run = Raise (KeyError_str "rca_capa") /\ sent (snd (snd run)) = sent w
  | Some a, Some id =>
      exists task w1 a' r w2,
        Adapter_execute_task O a id task w1 = (Ok (a', r), w2) /\
        task_type task = "rca_capa" /\ priority task = 3%Z /\
        heap_get (heap w1) (input_data task) = rca_input vehicle_id diagnosis feedback /\
        match json_bad (output r) with
        | None =>
            fst run = Ok (VDict [("success", VBool (success r));
                                 ("rca_capa", output r)]) /\
            sent (snd (snd run))
            = (sent w ++ [((MasterAgent.ueba_service_url m ++ "/score")%string,
                           VDict [("agent_action", rca_action O id vehicle_id r)])])%list
        | Some bad =>
            fst run = Raise (TypeError_json bad) /\ sent (snd (snd run)) = sent w
        end
  end.
Proof.
  cbn zeta. unfold MasterAgent.generate_rca_capa. rewrite with_input_run.
  set (d := rca_input vehicle_id diagnosis feedback).
  change [("diagnosis", diagnosis);
          ("vehicle_data", VDict [("vehicle_id", vehicle_id)]);
          ("feedback", VDict (default [] feedback))] with d.
  set (task := mkTask _ _ _ _ _).
  destruct (with_input_heap O w d) as [Hheap Hsent].
  destruct (MasterAgent.adapter m) as [a|] eqn:Ha.
  2:{ erewrite bind_raise by (apply execute_on_no_adapter; exact Ha).
      cbn [fst snd]. auto. }
  destruct (dict_get (MasterAgent.worker_agents m) "rca_capa") as [id|] eqn:Hk.
  2:{ erewrite bind_raise by (eapply execute_on_missing; eassumption).
      cbn [fst snd]. auto. }
  destruct (Adapter_execute_task_spec O a id task (with_input O w d))
    as (a' & r & w2 & Hrun & (_ & _ & Hs) & _).
  exists task, (with_input O w d), a', r, w2.
  split; [exact Hrun|]. split; [reflexivity|]. split; [reflexivity|].
  split; [exact Hheap|].
  erewrite bind_ok by (eapply execute_on_eq; eassumption).
  erewrite bind_ok by reflexivity. cbv beta.
  change (MasterAgent.worker_agents (fst (MasterAgent.set_adapter m (Some a'), w2)))
    with (MasterAgent.worker_agents m).
  rewrite Hk. erewrite bind_ok by reflexivity.
  unfold json_dumps_len. destruct (json_bad (output r)) as [bad|].
  - unfold bind, lift. cbn. split; [reflexivity|congruence].
  - erewrite bind_ok by reflexivity.
    unfold bind. rewrite report_to_ueba_run. cbn. rewrite Hs, Hsent.
    split; reflexivity.
Qed.

(** ** The roster built by initialize *)

Lemma dict_keys_set_bound {V} (d : list (string * V)) k v k' :
  In k' (dict_keys (dict_set d k v)) -> k' = k \/ In k' (dict_keys d).
Proof.
  destruct (dict_keys_set_cases d k v) as [Hin Hnot].
  destruct (in_dec String.string_dec k (dict_keys d)) as [H|H].
  - rewrite (Hin H). auto.
  - rewrite (Hnot H), in_app_iff. cbn. intuition.
Qed.

(** Creating a worker registers no other id. *)
Lemma Adapter_create_agent_bound O a ty id w a' w' :
  Adapter_create_agent O a ty id w = (Ok a', w') ->
  forall id', In id' (Adapter_list_agents a') -> id' = id \/ In id' (Adapter_list_agents a).
Proof.
  destruct a as [b|l|c|g];
    cbn [Adapter_create_agent with_class adapter_create_agent Builtin_adapter
         LangGraph_adapter CrewAI_adapter AutoGen_adapter].
  - intros [= <- <-] id' H. exact (dict_keys_set_bound _ _ _ _ H).
  - unfold LangGraphAdapter.create_agent, LangGraphAdapter._create_agent_graph.
    destruct (LANGGRAPH_AVAILABLE O); cbn [negb].
    2:{ intros [= <- <-] id' H. right. exact H. }
    unfold bind. cbn [next_tick fst snd].
    destruct (StateGraph_compile_fault O (tick w)); cbn; [discriminate|].
    intros [= <- <-] id' H. exact (dict_keys_set_bound _ _ _ _ H).
  - unfold CrewAIAdapter.create_agent.
    destruct (CREWAI_AVAILABLE O); cbn [negb].
    2:{ intros [= <- <-] id' H. right. exact H. }
    destruct (CrewAIAdapter.agent_configs ty) as [[r g'] bs].
    unfold try_except, bind. cbn [next_tick fst snd].
    destruct (crewai_Agent_new O (tick w)); cbn; intros [= <- <-] id' H;
      first [exact (dict_keys_set_bound _ _ _ _ H) | right; exact H].
  - unfold AutoGenAdapter.create_agent.
    destruct (AUTOGEN_AVAILABLE O); cbn [negb].
    2:{ intros [= <- <-] id' H. right. exact H. }
    unfold try_except, bind. cbn [next_tick fst snd].
    destruct (autogen_AssistantAgent_new O (tick w)); cbn; intros [= <- <-] id' H;
      first [exact (dict_keys_set_bound _ _ _ _ H) | right; exact H].
Qed.

Lemma creation_succeeds_builtin O a w : is_builtin a -> creation_succeeds O a w = true.
Proof. destruct a; cbn; tauto. Qed.

Definition is_langgraph (a : Adapter) : Prop :=
  match a with LangGraph _ => True | _ => False end.

(** An escaping exception comes from building a LangGraph state graph. *)
Definition graph_fault (O : Oracle) (a : Adapter) (e : exn) : Prop :=
  is_langgraph a /\ LANGGRAPH_AVAILABLE O = true /\
  exists n, StateGraph_compile_fault O n = Some e.

Lemma creation_raises_fault O a w e :
  creation_raises O a w = Some e -> graph_fault O a e.
Proof.
  destruct a as [b|l|c|g]; cbn; try discriminate.
  destruct (LANGGRAPH_AVAILABLE O) eqn:Hav; [|discriminate].
  intros H. split; [exact I|]. split; [exact Hav|]. eauto.
Qed.

Lemma same_class_langgraph a a' : same_class a a' -> is_langgraph a' -> is_langgraph a.
Proof. destruct a, a'; cbn; tauto. Qed.

(** The loop of [_create_worker_agents]: the roster gets an entry for
    every worker the loop came to, whatever the adapter registered; the
    loop stops early only when building a LangGraph state graph raises. *)
Lemma create_workers_effect O configs m w a :
  MasterAgent.adapter m = Some a ->
  exists r m' w' a' done,
    for_each configs
      (fun tc (_ : unit) =>
         MasterAgent.on_adapter "create_agent"
           (fun a => a' <- Adapter_create_agent O a (fst tc) (snd tc) ;; ret (a', tt)) ;;;
         self <- MasterAgent.get_self ;;
         MasterAgent.put_self
           (MasterAgent.set_worker_agents self
              (dict_set (MasterAgent.worker_agents self)
                        (AgentType_value (fst tc)) (snd tc))))
      tt (m, w)
    = (r, (m', w')) /\
    MasterAgent.adapter m' = Some a' /\
    MasterAgent.worker_agents m'
    = roster_after (MasterAgent.worker_agents m) done /\
    same_class a a' /\ ticks_only w w' /\
    (forall id, In id (Adapter_list_agents a') ->
                In id (map snd done) \/ In id (Adapter_list_agents a)) /\
    (forall id, In id (Adapter_list_agents a) -> In id (Adapter_list_agents a')) /\
    (is_builtin a ->
     forall id, In id (map snd done) -> In id (Adapter_list_agents a')) /\
    match r with
    | Ok _ => done = configs
    | Raise e =>
        (exists rest, configs = (done ++ rest)%list /\ rest <> []) /\ graph_fault O a e
    end.
Proof.
  revert m w a. induction configs as [|[ty id] rest IH]; intros m w a Ha.
  - exists (Ok tt), m, w, a, []. split; [reflexivity|]. split; [exact Ha|].
    split; [reflexivity|]. split; [apply same_class_refl|]. split; [reflexivity|].
    split; [auto|]. split; [auto|]. split; [intros _ id []|reflexivity].
  - cbn [for_each fst snd].
    pose proof (Adapter_create_agent_effect O a ty id w) as Heff.
    destruct (creation_raises O a w) as [e|] eqn:Hcr.
    + destruct Heff as (w1 & Hc & Hw).
      exists (Raise e), m, w1, a, []. split.
      { erewrite bind_raise; [reflexivity|].
        erewrite bind_raise; [reflexivity|].
        unfold MasterAgent.on_adapter.
        erewrite bind_ok by reflexivity. cbv beta. cbn [fst]. rewrite Ha.
        erewrite bind_raise; [reflexivity|].
        unfold MasterAgent.world, bind. cbn [fst snd]. rewrite Hc. reflexivity. }
      split; [exact Ha|]. split; [reflexivity|]. split; [apply same_class_refl|].
      split; [exact Hw|]. split; [auto|]. split; [auto|]. split; [intros _ id' []|].
      split; [exists ((ty, id) :: rest); split; [reflexivity|discriminate]|].
      eapply creation_raises_fault, Hcr.
    + destruct Heff as (a1 & w1 & Hc & Hclass & Hw & Hmono & Hyes & _).
      pose proof (Adapter_create_agent_bound O a ty id w a1 w1 Hc) as Hbound.
      set (m1 := MasterAgent.set_worker_agents (MasterAgent.set_adapter m (Some a1))
                   (dict_set (MasterAgent.worker_agents m) (AgentType_value ty) id)).
      destruct (IH m1 w1 a1 eq_refl)
        as (r & m' & w' & a' & done & Hrun & Ha' & Hw' & Hclass' & Hww & Hb' & Hmono'
            & Hyes' & Hr).
      exists r, m', w', a', ((ty, id) :: done). split.
      { erewrite bind_ok.
        2:{ erewrite bind_ok.
            2:{ unfold MasterAgent.on_adapter.
                erewrite bind_ok by reflexivity. cbv beta. cbn [fst]. rewrite Ha.
                erewrite bind_ok.
                2:{ unfold MasterAgent.world, bind. cbn [fst snd].
                    rewrite Hc. reflexivity. }
                erewrite bind_ok by reflexivity. erewrite bind_ok by reflexivity.
                reflexivity. }
            erewrite bind_ok by reflexivity. reflexivity. }
        exact Hrun. }
      split; [exact Ha'|]. split; [exact Hw'|].
      split; [eapply same_class_trans; eassumption|].
      split; [etransitivity; eassumption|].
      split; [|split; [|split]].
      * intros id' Hin. cbn [map snd In].
        destruct (Hb' id' Hin) as [H|H]; [auto|].
        destruct (Hbound id' H) as [->|H']; auto.
      * intros id' Hin. auto.
      * intros Hb id' [<-|Hin].
        -- apply Hmono', Hyes, creation_succeeds_builtin, Hb.
        -- apply Hyes'; [|exact Hin]. eapply same_class_builtin; eassumption.
      * destruct r as [[]|e].
        -- now subst done.
        -- destruct Hr as [(rest' & -> & Hne) (Hl & Hav & Hn)].
           split; [exists rest'; split; [reflexivity|exact Hne]|].
           split; [eapply same_class_langgraph; eassumption|]. split; assumption.
Qed.

Lemma default_roster_entries ws ty id :
  In (ty, id) MasterAgent.worker_configs ->
  dict_get (roster_after ws MasterAgent.worker_configs) (AgentType_value ty) = Some id.
Proof.
  unfold roster_after, MasterAgent.worker_configs. cbn [fold_left fst snd AgentType_value].
  intros H. repeat (destruct H as [[= <- <-]|H]; [rewrite !dict_get_set; reflexivity|]).
  destruct H.
Qed.

(** X26. [MasterAgent.initialize] builds a fresh adapter of the class
    named by AGENT_FRAMEWORK, compared in lower case, and the built-in one
    for a missing or unknown name, without writing a dictionary or sending
    a request.  It raises only under LangGraph, when building the state
    graph of a worker raises: the exception escapes, and the roster holds
    the workers the loop came to before.  Otherwise it returns what the
    adapter's own [initialize] returns.  When that is true the roster maps
    each of the six worker types to its fixed id, whether or not the
    adapter registered that worker: the adapter's registry holds no other
    id, and for the built-in adapter it holds all six.  When it is false
    the roster is as before and the adapter has no worker. *)
Theorem initialize_outcome O m0 w :
  let fw := text_lower O (default "builtin" (getenv O "AGENT_FRAMEWORK")) in
  let a0 := adapter_for fw (MasterAgent.config m0) in
  exists r m1 w1 a,
    MasterAgent.initialize O (m0, w) = (r, (m1, w1)) /\
    MasterAgent.adapter m1 = Some a /\
    same_class a0 a /\
    (fw <> "langgraph" -> fw <> "crewai" -> fw <> "autogen" -> is_builtin a) /\
    ticks_only w w1 /\
    match r with
    | Raise e =>
        graph_fault O a e /\
        exists done rest,
          MasterAgent.worker_configs = (done ++ rest)%list /\ rest <> [] /\
          MasterAgent.worker_agents m1
          = roster_after (MasterAgent.worker_agents m0) done
    | Ok true =>
        can_initialize O a0 w = true /\
        (forall ty id, In (ty, id) MasterAgent.worker_configs ->
           dict_get (MasterAgent.worker_agents m1) (AgentType_value ty) = Some id) /\
        (forall id, In id (Adapter_list_agents a) ->
                    In id (map snd MasterAgent.worker_configs)) /\
        (is_builtin a ->
         forall id, In id (map snd MasterAgent.worker_configs) ->
                    In id (Adapter_list_agents a))
    | Ok false =>
        can_initialize O a0 w = false /\
        MasterAgent.worker_agents m1 = MasterAgent.worker_agents m0 /\
        Adapter_list_agents a = []
    end.
Proof.
  cbn zeta. unfold MasterAgent.initialize.
  set (fw := text_lower O _).
  erewrite bind_ok by reflexivity. cbv beta.
  change (if String.eqb fw "langgraph" then _ else _)
    with (adapter_for fw (MasterAgent.config m0)).
  set (a0 := adapter_for fw (MasterAgent.config m0)).
  assert (Hfw : fw <> "langgraph" -> fw <> "crewai" -> fw <> "autogen" -> is_builtin a0).
  { intros H1 H2 H3. unfold a0, adapter_for.
    apply String.eqb_neq in H1, H2, H3. rewrite H1, H2, H3. exact I. }
  erewrite bind_ok by reflexivity.
  destruct (Adapter_initialize_effect O a0 w)
    as (a1 & ok & w2 & Hinit & Hclass & Hw & Hlist & Hok & _).
  erewrite bind_ok.
  2:{ unfold MasterAgent.on_adapter.
      erewrite bind_ok by reflexivity. cbv beta.
      cbn [MasterAgent.adapter MasterAgent.set_adapter fst snd].
      erewrite bind_ok
        by (unfold MasterAgent.world; cbn [fst snd]; rewrite Hinit; reflexivity).
      erewrite bind_ok by reflexivity.
      erewrite bind_ok by reflexivity. reflexivity. }
  cbn [snd]. destruct ok; cbn [negb].
  - unfold MasterAgent._create_worker_agents.
    match goal with
    | |- context [bind (for_each _ _ tt) _ (?mm, ?ww)] =>
        destruct (create_workers_effect O MasterAgent.worker_configs mm ww a1 eq_refl)
          as (r & m' & w' & a' & done & Hrun & Ha' & Hroster & Hclass' & Hw' & Hb
              & _ & Hall & Hr)
    end.
    assert (Hc : same_class a0 a') by (eapply same_class_trans; eassumption).
    destruct r as [[]|e].
    + subst done. exists (Ok true), m', w', a'. erewrite bind_ok by exact Hrun.
      split; [reflexivity|]. split; [exact Ha'|]. split; [exact Hc|].
      split; [intros; eapply same_class_builtin; eauto|].
      split; [etransitivity; eassumption|].
      split; [now symmetry|]. split; [|split].
      * intros ty id Hin. rewrite Hroster. now apply default_roster_entries.
      * intros id Hin. destruct (Hb id Hin) as [H|H]; [exact H|].
        rewrite Hlist in H. unfold a0 in H. rewrite adapter_for_fresh in H. destruct H.
      * intros Hb'. apply Hall.
        apply (same_class_builtin_back _ _ Hclass'). exact Hb'.
    + destruct Hr as [(rest & Hsplit & Hne) (Hl & Hav & Hn)].
      exists (Raise e), m', w', a'. erewrite bind_raise by exact Hrun.
      split; [reflexivity|]. split; [exact Ha'|]. split; [exact Hc|].
      split; [intros; eapply same_class_builtin; eauto|].
      split; [etransitivity; eassumption|].
      split.
      * split; [|split; assumption].
        destruct a1, a'; cbn in Hclass', Hl |- *; tauto.
      * exists done, rest. split; [exact Hsplit|]. split; [exact Hne|exact Hroster].
  - eexists (Ok false), _, _, a1. split; [reflexivity|]. split; [reflexivity|].
    split; [exact Hclass|].
    split; [intros; eapply same_class_builtin; eauto|].
    split; [exact Hw|]. split; [now symmetry|]. split; [reflexivity|].
    rewrite Hlist. apply adapter_for_fresh.
Qed.

Lemma initialize_outcome_witness :
  exists m1 w1 a,
    MasterAgent.initialize builtin_offline
      (MasterAgent.__init__ builtin_offline None, fresh_world)
    = (Ok true, (m1, w1)) /\
    MasterAgent.adapter m1 = Some a /\ is_builtin a /\
    dict_get (MasterAgent.worker_agents m1) "feedback" = Some "feedback-001" /\
    In "feedback-001" (Adapter_list_agents a).
Proof.
  destruct (initialize_outcome builtin_offline
              (MasterAgent.__init__ builtin_offline None) fresh_world)
    as (r & m1 & w1 & a & Hrun & Ha & _ & Hfw & _ & Hrest).
  assert (Hb : is_builtin a) by (apply Hfw; vm_compute; discriminate).
  destruct r as [[|]|e].
  - destruct Hrest as (_ & Hroster & _ & Hall).
    exists m1, w1, a. split; [exact Hrun|]. split; [exact Ha|]. split; [exact Hb|].
    split.
    + apply (Hroster FEEDBACK). cbn. tauto.
    + apply (Hall Hb). cbn. tauto.
  - destruct Hrest as (Hno & _). vm_compute in Hno. discriminate.
  - destruct Hrest as ((Hl & _) & _). destruct a; contradiction.
Defined.
